(** * Siemens automobile digital twin: physics core and scenario engine

    A shallow embedding of [src/digital_twin/core.py] and
    [src/simulation/engine.py], and the properties of the specification
    that concern them.

    Conventions of the embedding.
    - A Python number is a double, or an int that a double can hold; it
      is modelled by its exact rational value ([Q]).  Every arithmetic
      operation of the source is kept, in the source's order, without the
      rounding of IEEE doubles.  The range of the doubles is modelled where
      the code raises at its end: [x ** 2] and [int(x)] raise
      [OverflowError] when the square, or [x], is out of range.  The float
      constant [np.pi] is the rational value of the double nearest to pi.
    - Where the rounding decides a statement (is a scenario periodic?), the
      code is embedded a second time over the doubles themselves, in the
      module [Binary64].
    - A method is a computation in the monad [M St A]: it reads and
      writes the object [St] it is called on, reads the environment
      ([datetime.now()], [np.random.normal]) from a [World], and either
      returns a value or raises a Python exception.  A raised exception
      keeps the mutations made before it, as in Python.
    - Console output ([print]) is not part of the model. *)

From Stdlib Require Import QArith Qround Lqa ZArith Lia List String Ascii Bool DecimalString.
From Stdlib Require Import SpecFloat.
Import ListNotations.
Open Scope Q_scope.

(** ** Python numerics over exact rationals *)

Module Py.

Definition Qltb (x y : Q) : bool := negb (Qle_bool y x).

(** [min(a, b)]: the first argument unless the second is strictly smaller. *)
Definition min (a b : Q) : Q := if Qltb b a then b else a.

(** [max(a, b)]: the first argument unless the second is strictly larger. *)
Definition max (a b : Q) : Q := if Qltb a b then b else a.

(** [x % m] for a positive constant [m]: [x - m * floor(x / m)]. *)
Definition mod_ (x m : Q) : Q := x - inject_Z (Qfloor (x / m)) * m.

(** [round(x)]: to the nearest integer, ties to the even one. *)
Definition round_half_even (x : Q) : Z :=
  let f := Qfloor x in
  let r := x - inject_Z f in
  if Qltb r (1 # 2) then f
  else if Qltb (1 # 2) r then (f + 1)%Z
  else if Z.even f then f else (f + 1)%Z.

(** [round(x, 2)]. *)
Definition round2 (x : Q) : Q := round_half_even (x * 100) # 100.

(** [int(x)]: truncation toward zero. *)
Definition int (x : Q) : Z := Z.quot (Qnum x) (Z.pos (Qden x)).

(** [abs(x)]. *)
Definition abs (x : Q) : Q := if Qltb x 0 then - x else x.

(** [np.pi], the double 0x400921FB54442D18. *)
Definition np_pi : Q := 884279719003555 # 281474976710656.

(** [sys.float_info.max], the largest double, [(2^53 - 1) * 2^971]. *)
Definition float_max : Q := inject_Z ((2 ^ 53 - 1) * 2 ^ 971)%Z.

(** The first number that rounds to no double: halfway between
    [float_max] and [2^1024]. *)
Definition overflow_threshold : Q := inject_Z ((2 ^ 54 - 1) * 2 ^ 970)%Z.

(** A result is out of the range of the doubles when its nearest double
    would be an infinity. *)
Definition out_of_range (x : Q) : bool := Qle_bool overflow_threshold (abs x).

End Py.

(** ** The environment: wall clock and random source *)

Record datetime : Type := mk_datetime {
  year : nat; month : nat; day : nat;
  hour : nat; minute : nat; second : nat; microsecond : nat
}.

Definition digit (d : nat) : ascii := ascii_of_nat (48 + d).

(** The last [k] decimal digits of [n], zero padded. *)
Fixpoint zero_padded (k n : nat) : string :=
  match k with
  | O => EmptyString
  | S k' => (zero_padded k' (n / 10) ++ String (digit (n mod 10)) EmptyString)%string
  end.

(** [datetime.isoformat()]: [YYYY-MM-DDTHH:MM:SS], followed by [.ffffff]
    when the microsecond field is not zero. *)
Definition isoformat (d : datetime) : string :=
  (zero_padded 4 (year d) ++ "-" ++ zero_padded 2 (month d) ++ "-" ++
   zero_padded 2 (day d) ++ "T" ++ zero_padded 2 (hour d) ++ ":" ++
   zero_padded 2 (minute d) ++ ":" ++ zero_padded 2 (second d) ++
   (if Nat.eqb (microsecond d) 0 then "" else "." ++ zero_padded 6 (microsecond d)))%string.

(** The [k]-th reading of the clock and the [k]-th standard normal draw are
    given by the environment; the counters say how many were consumed. *)
Record World : Type := mk_World {
  clock : nat -> datetime;
  ticks : nat;
  gauss : nat -> Q;
  draws : nat
}.

Inductive exn : Type :=
| ZeroDivisionError
| OverflowError
| ValueError (msg : string).

(** ** The monad of methods *)

Definition M (St A : Type) : Type := St -> World -> (exn + A) * St * World.

Definition result {St A} (o : (exn + A) * St * World) : exn + A := fst (fst o).
Definition state {St A} (o : (exn + A) * St * World) : St := snd (fst o).
Definition world {St A} (o : (exn + A) * St * World) : World := snd o.

Definition ret {St A} (a : A) : M St A := fun s w => (inr a, s, w).

Definition bind {St A B} (m : M St A) (k : A -> M St B) : M St B :=
  fun s w =>
    match m s w with
    | (inr a, s', w') => k a s' w'
    | (inl e, s', w') => (inl e, s', w')
    end.

Definition raise {St A} (e : exn) : M St A := fun s w => (inl e, s, w).

Definition get {St} : M St St := fun s w => (inr s, s, w).
Definition gets {St A} (f : St -> A) : M St A := fun s w => (inr (f s), s, w).
Definition put {St} (s : St) : M St unit := fun _ w => (inr tt, s, w).
Definition modify {St} (f : St -> St) : M St unit := fun s w => (inr tt, f s, w).

Declare Scope monad_scope.
Delimit Scope monad_scope with monad.
Notation "x <- c ;; k" := (bind c (fun x => k))
  (at level 61, c at next level, right associativity) : monad_scope.
Notation "c ;; k" := (bind c (fun _ => k))
  (at level 61, right associativity) : monad_scope.
Open Scope monad_scope.

(** An attribute assignment [self.f = e], [e] evaluated in the current state. *)
Definition assign {St V} (set : V -> St -> St) (e : St -> V) : M St unit :=
  modify (fun self => set (e self) self).

(** [x / y] with Python's check of the divisor. *)
Definition div {St} (x y : Q) : M St Q :=
  if Qeq_bool y 0 then raise ZeroDivisionError else ret (x / y).

(** [x ** n] on floats, for a literal [n]: [OverflowError] ("numerical
    result out of range") when the power is out of the range of the
    doubles. *)
Definition pow {St} (x : Q) (n : Z) : M St Q :=
  if Py.out_of_range (x ^ n) then raise OverflowError else ret (x ^ n).

(** [int(x)] of a float: the truncation toward zero, and [OverflowError]
    ("cannot convert float infinity to integer") when [x], the result of a
    float operation, is out of the range of the doubles. *)
Definition int_ {St} (x : Q) : M St Z :=
  if Py.out_of_range x then raise OverflowError else ret (Py.int x).

(** The world after one more reading of the clock. *)
Definition tick (w : World) : World :=
  mk_World (clock w) (S (ticks w)) (gauss w) (draws w).

(** [datetime.now()]. *)
Definition now {St} : M St datetime :=
  fun s w => (inr (clock w (ticks w)), s, tick w).

(** A constructor reads the clock and cannot raise: it maps the world to
    the new object and the world after it. *)
Definition New (A : Type) : Type := World -> A * World.

(** [np.random.normal(loc, scale)]. *)
Definition normal {St} (loc scale : Q) : M St Q :=
  fun s w => (inr (loc + scale * gauss w (draws w)), s,
              mk_World (clock w) (ticks w) (gauss w) (S (draws w))).

(** A method call on an attribute: the callee runs on the attribute's
    object, which is written back whether it returns or raises. *)
Record Lens (S T : Type) : Type := mk_Lens {
  view : S -> T;
  over : T -> S -> S
}.
Arguments mk_Lens {S T}.
Arguments view {S T}.
Arguments over {S T}.

Definition zoom {S T A} (l : Lens S T) (m : M T A) : M S A :=
  fun s w =>
    let '(r, t', w') := m (view l s) w in (r, over l t' s, w').

(** [for x in xs: body], the body run on each object of the list in turn. *)
Fixpoint for_each {T} (body : M T unit) (xs : list T) (w : World)
  : (exn + unit) * list T * World :=
  match xs with
  | [] => (inr tt, [], w)
  | x :: rest =>
      match body x w with
      | (inr _, x', w') =>
          let '(r, rest', w'') := for_each body rest w' in (r, x' :: rest', w'')
      | (inl e, x', w') => (inl e, x' :: rest, w')
      end
  end.

(** [for i in items: acc = body(acc, i)], local variables in [acc]. *)
Fixpoint for_fold {St I Acc} (body : Acc -> I -> M St Acc) (items : list I) (acc : Acc)
  : M St Acc :=
  match items with
  | [] => ret acc
  | i :: rest => acc' <- body acc i ;; for_fold body rest acc'
  end.

(** ** Sensor *)

Module Sensor.

Record t : Type := mk {
  sensor_id : string;
  sensor_type : string;
  location : string;
  unit_ : string;
  value : Q;
  timestamp : datetime;
  status : string;
  calibration_factor : Q
}.

Definition with_value (v : Q) (self : t) : t :=
  mk (sensor_id self) (sensor_type self) (location self) (unit_ self)
     v (timestamp self) (status self) (calibration_factor self).

Definition with_timestamp (d : datetime) (self : t) : t :=
  mk (sensor_id self) (sensor_type self) (location self) (unit_ self)
     (value self) d (status self) (calibration_factor self).

(** [Sensor.__init__]. *)
Definition init (sensor_id sensor_type location unit_ : string) : New t :=
  fun w =>
    (mk sensor_id sensor_type location unit_ 0 (clock w (ticks w)) "active" 1, tick w).

(** [Sensor.read]: the calibrated value plus Gaussian noise. *)
Definition read : M t Q :=
  self <- get ;;
  noise <- normal 0 (0.02 * Py.abs (value self)) ;;
  ret (value self * calibration_factor self + noise).

(** [Sensor.update]. *)
Definition update (v : Q) : M t unit :=
  assign with_value (fun _ => v) ;;
  ts <- now ;;
  assign with_timestamp (fun _ => ts).

End Sensor.

(** ** ElectricMotor *)

Module ElectricMotor.

Record t : Type := mk {
  max_power_kw : Q;
  max_torque_nm : Q;
  current_rpm : Q;
  current_torque_nm : Q;
  current_power_kw : Q;
  temperature_c : Q;
  efficiency : Q;
  total_runtime_hours : Q;
  health_score : Q;
  temp_sensor : Sensor.t;
  torque_sensor : Sensor.t;
  rpm_sensor : Sensor.t
}.

Definition with_current_rpm (v : Q) (self : t) : t :=
  mk (max_power_kw self) (max_torque_nm self) v (current_torque_nm self)
     (current_power_kw self) (temperature_c self) (efficiency self)
     (total_runtime_hours self) (health_score self)
     (temp_sensor self) (torque_sensor self) (rpm_sensor self).

Definition with_current_torque_nm (v : Q) (self : t) : t :=
  mk (max_power_kw self) (max_torque_nm self) (current_rpm self) v
     (current_power_kw self) (temperature_c self) (efficiency self)
     (total_runtime_hours self) (health_score self)
     (temp_sensor self) (torque_sensor self) (rpm_sensor self).

Definition with_current_power_kw (v : Q) (self : t) : t :=
  mk (max_power_kw self) (max_torque_nm self) (current_rpm self) (current_torque_nm self)
     v (temperature_c self) (efficiency self)
     (total_runtime_hours self) (health_score self)
     (temp_sensor self) (torque_sensor self) (rpm_sensor self).

Definition with_temperature_c (v : Q) (self : t) : t :=
  mk (max_power_kw self) (max_torque_nm self) (current_rpm self) (current_torque_nm self)
     (current_power_kw self) v (efficiency self)
     (total_runtime_hours self) (health_score self)
     (temp_sensor self) (torque_sensor self) (rpm_sensor self).

Definition with_health_score (v : Q) (self : t) : t :=
  mk (max_power_kw self) (max_torque_nm self) (current_rpm self) (current_torque_nm self)
     (current_power_kw self) (temperature_c self) (efficiency self)
     (total_runtime_hours self) v
     (temp_sensor self) (torque_sensor self) (rpm_sensor self).

Definition temp_sensor_ : Lens t Sensor.t :=
  mk_Lens temp_sensor (fun s self =>
    mk (max_power_kw self) (max_torque_nm self) (current_rpm self) (current_torque_nm self)
       (current_power_kw self) (temperature_c self) (efficiency self)
       (total_runtime_hours self) (health_score self)
       s (torque_sensor self) (rpm_sensor self)).

Definition torque_sensor_ : Lens t Sensor.t :=
  mk_Lens torque_sensor (fun s self =>
    mk (max_power_kw self) (max_torque_nm self) (current_rpm self) (current_torque_nm self)
       (current_power_kw self) (temperature_c self) (efficiency self)
       (total_runtime_hours self) (health_score self)
       (temp_sensor self) s (rpm_sensor self)).

Definition rpm_sensor_ : Lens t Sensor.t :=
  mk_Lens rpm_sensor (fun s self =>
    mk (max_power_kw self) (max_torque_nm self) (current_rpm self) (current_torque_nm self)
       (current_power_kw self) (temperature_c self) (efficiency self)
       (total_runtime_hours self) (health_score self)
       (temp_sensor self) (torque_sensor self) s).

(** [ElectricMotor.__init__]. *)
Definition init (max_power_kw max_torque_nm : Q) : New t :=
  fun w =>
    let '(temp_sensor, w) := Sensor.init "motor_temp" "temperature" "motor_housing" "°C" w in
    let '(torque_sensor, w) := Sensor.init "motor_torque" "torque" "motor_shaft" "Nm" w in
    let '(rpm_sensor, w) := Sensor.init "motor_rpm" "speed" "motor_shaft" "RPM" w in
    (mk max_power_kw max_torque_nm 0 0 0 25 0.95 0 100
        temp_sensor torque_sensor rpm_sensor, w).

(** [ElectricMotor.apply_load]. *)
Definition apply_load (requested_torque rpm : Q) : M t unit :=
  assign with_current_torque_nm
    (fun self => Py.min requested_torque (max_torque_nm self)) ;;
  assign with_current_rpm (fun _ => rpm) ;;
  let omega := rpm * 2 * Py.np_pi / 60 in
  assign with_current_power_kw
    (fun self => (current_torque_nm self * omega / 1000) * efficiency self) ;;
  assign with_current_power_kw
    (fun self => Py.min (current_power_kw self) (max_power_kw self)) ;;
  heat_generated <- gets (fun self => current_power_kw self * (1 - efficiency self)) ;;
  assign with_temperature_c (fun self => temperature_c self + heat_generated * 0.1) ;;
  cooling_rate <- gets (fun self => (temperature_c self - 25) * 0.05) ;;
  assign with_temperature_c (fun self => temperature_c self - cooling_rate) ;;
  self <- get ;;
  zoom temp_sensor_ (Sensor.update (temperature_c self)) ;;
  zoom torque_sensor_ (Sensor.update (current_torque_nm self)) ;;
  zoom rpm_sensor_ (Sensor.update (current_rpm self)) ;;
  self <- get ;;
  if Py.Qltb 120 (temperature_c self)
  then assign with_health_score (fun self => health_score self - 0.001)
  else ret tt.

Record Status : Type := mk_Status {
  power_kw : Q;
  torque_nm : Q;
  rpm : Q;
  status_temperature_c : Q;
  status_efficiency : Q;
  status_health_score : Q
}.

(** [ElectricMotor.get_status]. *)
Definition get_status : M t Status :=
  self <- get ;;
  ret (mk_Status (Py.round2 (current_power_kw self))
                 (Py.round2 (current_torque_nm self))
                 (Py.round2 (current_rpm self))
                 (Py.round2 (temperature_c self))
                 (efficiency self)
                 (Py.round2 (health_score self))).

End ElectricMotor.

(** [str(i)] for a natural number. *)
Definition str (i : nat) : string := NilZero.string_of_uint (Nat.to_uint i).

(** A list comprehension [[f(i) for i in items]] of constructor calls. *)
Fixpoint comprehension {I T} (f : I -> New T) (items : list I) : New (list T) :=
  fun w =>
    match items with
    | [] => ([], w)
    | i :: rest =>
        let '(x, w) := f i w in
        let '(xs, w) := comprehension f rest w in
        (x :: xs, w)
    end.

(** ** BatteryPack *)

Module BatteryPack.

Record t : Type := mk {
  capacity_kwh : Q;
  nominal_voltage : Q;
  current_charge_kwh : Q;
  current_voltage : Q;
  current_amperage : Q;
  temperature_c : Q;
  health_soh : Q;
  cycle_count : Z;
  cells_series : Z;
  cells_parallel : Z;
  cell_voltages : list Sensor.t;
  temp_sensors : list Sensor.t
}.

Definition with_current_charge_kwh (v : Q) (self : t) : t :=
  mk (capacity_kwh self) (nominal_voltage self) v (current_voltage self)
     (current_amperage self) (temperature_c self) (health_soh self)
     (cycle_count self) (cells_series self) (cells_parallel self)
     (cell_voltages self) (temp_sensors self).

Definition with_current_voltage (v : Q) (self : t) : t :=
  mk (capacity_kwh self) (nominal_voltage self) (current_charge_kwh self) v
     (current_amperage self) (temperature_c self) (health_soh self)
     (cycle_count self) (cells_series self) (cells_parallel self)
     (cell_voltages self) (temp_sensors self).

Definition with_current_amperage (v : Q) (self : t) : t :=
  mk (capacity_kwh self) (nominal_voltage self) (current_charge_kwh self)
     (current_voltage self) v (temperature_c self) (health_soh self)
     (cycle_count self) (cells_series self) (cells_parallel self)
     (cell_voltages self) (temp_sensors self).

Definition with_temperature_c (v : Q) (self : t) : t :=
  mk (capacity_kwh self) (nominal_voltage self) (current_charge_kwh self)
     (current_voltage self) (current_amperage self) v (health_soh self)
     (cycle_count self) (cells_series self) (cells_parallel self)
     (cell_voltages self) (temp_sensors self).

Definition cell_voltages_ : Lens t (list Sensor.t) :=
  mk_Lens cell_voltages (fun l self =>
    mk (capacity_kwh self) (nominal_voltage self) (current_charge_kwh self)
       (current_voltage self) (current_amperage self) (temperature_c self)
       (health_soh self) (cycle_count self) (cells_series self)
       (cells_parallel self) l (temp_sensors self)).

Definition temp_sensors_ : Lens t (list Sensor.t) :=
  mk_Lens temp_sensors (fun l self =>
    mk (capacity_kwh self) (nominal_voltage self) (current_charge_kwh self)
       (current_voltage self) (current_amperage self) (temperature_c self)
       (health_soh self) (cycle_count self) (cells_series self)
       (cells_parallel self) (cell_voltages self) l).

(** [BatteryPack.__init__]: the pack starts at 80 % of its capacity. *)
Definition init (capacity_kwh nominal_voltage : Q) : New t :=
  fun w =>
    let '(cell_voltages, w) :=
      comprehension
        (fun i => Sensor.init ("cell_" ++ str i ++ "_voltage") "voltage"
                              ("cell_" ++ str i) "V")
        (seq 0 10) w in
    let '(temp_sensors, w) :=
      comprehension
        (fun i => Sensor.init ("battery_temp_" ++ str i) "temperature"
                              ("pack_" ++ str i) "°C")
        (seq 0 4) w in
    (mk capacity_kwh nominal_voltage (capacity_kwh * 0.8) nominal_voltage
        0 25 100 0 96 4 cell_voltages temp_sensors, w).

(** [BatteryPack.get_soc]. *)
Definition get_soc : M t Q :=
  self <- get ;;
  div (current_charge_kwh self) (capacity_kwh self).

(** [BatteryPack.efficiency_discharge]. *)
Definition efficiency_discharge : M t Q :=
  self <- get ;;
  let temp_factor :=
    if Qle_bool 20 (temperature_c self) && Qle_bool (temperature_c self) 40
    then 1 else 0.95 in
  ret (0.95 * temp_factor).

(** [BatteryPack.efficiency_charge]. *)
Definition efficiency_charge : M t Q := ret 0.92.

(** [BatteryPack.discharge]. *)
Definition discharge (power_kw time_step_hours : Q) : M t unit :=
  let energy_consumed := power_kw * time_step_hours in
  eff <- efficiency_discharge ;;
  drawn <- div energy_consumed eff ;;
  assign with_current_charge_kwh (fun self => current_charge_kwh self - drawn) ;;
  assign with_current_charge_kwh (fun self => Py.max 0 (current_charge_kwh self)) ;;
  self <- get ;;
  amperage <- div (power_kw * 1000) (current_voltage self) ;;
  assign with_current_amperage (fun _ => amperage) ;;
  soc <- get_soc ;;
  assign with_current_voltage (fun self => nominal_voltage self * soc) ;;
  eff <- efficiency_discharge ;;
  let heat := power_kw * (1 - eff) * 0.5 in
  assign with_temperature_c (fun self => temperature_c self + heat) ;;
  assign with_temperature_c
    (fun self => temperature_c self - (temperature_c self - 25) * 0.1) ;;
  self <- get ;;
  zoom cell_voltages_
    (for_each
       (cell_voltage <- div (current_voltage self) (inject_Z (cells_series self)) ;;
        jitter <- normal 0 0.01 ;;
        Sensor.update (cell_voltage + jitter))) ;;
  avg_temp <- gets temperature_c ;;
  zoom temp_sensors_
    (for_each
       (jitter <- normal 0 2 ;;
        Sensor.update (avg_temp + jitter))).

(** [BatteryPack.charge]. *)
Definition charge (power_kw time_step_hours : Q) : M t unit :=
  eff <- efficiency_charge ;;
  let energy_added := power_kw * time_step_hours * eff in
  assign with_current_charge_kwh (fun self => current_charge_kwh self + energy_added) ;;
  assign with_current_charge_kwh
    (fun self => Py.min (capacity_kwh self) (current_charge_kwh self)) ;;
  self <- get ;;
  amperage <- div (- (power_kw * 1000)) (current_voltage self) ;;
  assign with_current_amperage (fun _ => amperage).

Record Status : Type := mk_Status {
  soc_percent : Q;
  charge_kwh : Q;
  voltage : Q;
  current_a : Q;
  status_temperature_c : Q;
  status_health_soh : Q;
  status_cycle_count : Z
}.

(** [BatteryPack.get_status]. *)
Definition get_status : M t Status :=
  soc <- get_soc ;;
  self <- get ;;
  ret (mk_Status (Py.round2 (soc * 100))
                 (Py.round2 (current_charge_kwh self))
                 (Py.round2 (current_voltage self))
                 (Py.round2 (current_amperage self))
                 (Py.round2 (temperature_c self))
                 (Py.round2 (health_soh self))
                 (cycle_count self)).

End BatteryPack.

(** ** VehicleDynamics *)

Module VehicleDynamics.

Record t : Type := mk {
  mass_kg : Q;
  velocity_mps : Q;
  acceleration_mps2 : Q;
  position_m : Q;
  drag_coefficient : Q;
  frontal_area_m2 : Q;
  rolling_resistance : Q;
  brake_force_n : Q;
  speed_sensor : Sensor.t;
  accel_sensor : Sensor.t;
  position_sensor : Sensor.t
}.

Definition with_velocity_mps (v : Q) (self : t) : t :=
  mk (mass_kg self) v (acceleration_mps2 self) (position_m self)
     (drag_coefficient self) (frontal_area_m2 self) (rolling_resistance self)
     (brake_force_n self) (speed_sensor self) (accel_sensor self) (position_sensor self).

Definition with_acceleration_mps2 (v : Q) (self : t) : t :=
  mk (mass_kg self) (velocity_mps self) v (position_m self)
     (drag_coefficient self) (frontal_area_m2 self) (rolling_resistance self)
     (brake_force_n self) (speed_sensor self) (accel_sensor self) (position_sensor self).

Definition with_position_m (v : Q) (self : t) : t :=
  mk (mass_kg self) (velocity_mps self) (acceleration_mps2 self) v
     (drag_coefficient self) (frontal_area_m2 self) (rolling_resistance self)
     (brake_force_n self) (speed_sensor self) (accel_sensor self) (position_sensor self).

Definition with_brake_force_n (v : Q) (self : t) : t :=
  mk (mass_kg self) (velocity_mps self) (acceleration_mps2 self) (position_m self)
     (drag_coefficient self) (frontal_area_m2 self) (rolling_resistance self)
     v (speed_sensor self) (accel_sensor self) (position_sensor self).

Definition speed_sensor_ : Lens t Sensor.t :=
  mk_Lens speed_sensor (fun s self =>
    mk (mass_kg self) (velocity_mps self) (acceleration_mps2 self) (position_m self)
       (drag_coefficient self) (frontal_area_m2 self) (rolling_resistance self)
       (brake_force_n self) s (accel_sensor self) (position_sensor self)).

Definition accel_sensor_ : Lens t Sensor.t :=
  mk_Lens accel_sensor (fun s self =>
    mk (mass_kg self) (velocity_mps self) (acceleration_mps2 self) (position_m self)
       (drag_coefficient self) (frontal_area_m2 self) (rolling_resistance self)
       (brake_force_n self) (speed_sensor self) s (position_sensor self)).

Definition position_sensor_ : Lens t Sensor.t :=
  mk_Lens position_sensor (fun s self =>
    mk (mass_kg self) (velocity_mps self) (acceleration_mps2 self) (position_m self)
       (drag_coefficient self) (frontal_area_m2 self) (rolling_resistance self)
       (brake_force_n self) (speed_sensor self) (accel_sensor self) s).

(** [VehicleDynamics.__init__]. *)
Definition init (mass_kg : Q) : New t :=
  fun w =>
    let '(speed_sensor, w) := Sensor.init "vehicle_speed" "speed" "wheel" "km/h" w in
    let '(accel_sensor, w) := Sensor.init "acceleration" "acceleration" "chassis" "m/s²" w in
    let '(position_sensor, w) := Sensor.init "gps_position" "position" "roof" "m" w in
    (mk mass_kg 0 0 0 0.28 2.3 0.015 0 speed_sensor accel_sensor position_sensor, w).

(** [VehicleDynamics.update]. *)
Definition update (motor_torque_nm time_step_s gear_ratio : Q) : M t unit :=
  let wheel_radius_m := 0.35 in
  let drive_force_n := (motor_torque_nm * gear_ratio) / wheel_radius_m in
  let air_density := 1.225 in
  self <- get ;;
  square <- pow (velocity_mps self) 2 ;;
  let drag_force_n :=
    0.5 * air_density * drag_coefficient self * frontal_area_m2 self * square in
  let rolling_force_n := rolling_resistance self * mass_kg self * 9.81 in
  let net_force_n := drive_force_n - drag_force_n - rolling_force_n - brake_force_n self in
  acceleration <- div net_force_n (mass_kg self) ;;
  assign with_acceleration_mps2 (fun _ => acceleration) ;;
  assign with_velocity_mps
    (fun self => velocity_mps self + acceleration_mps2 self * time_step_s) ;;
  assign with_velocity_mps (fun self => Py.max 0 (velocity_mps self)) ;;
  assign with_position_m (fun self => position_m self + velocity_mps self * time_step_s) ;;
  self <- get ;;
  zoom speed_sensor_ (Sensor.update (velocity_mps self * 3.6)) ;;
  zoom accel_sensor_ (Sensor.update (acceleration_mps2 self)) ;;
  zoom position_sensor_ (Sensor.update (position_m self)).

(** [VehicleDynamics.apply_brakes]. *)
Definition apply_brakes (brake_percentage : Q) : M t unit :=
  self <- get ;;
  let max_brake_force := mass_kg self * 9.81 * 0.8 in
  assign with_brake_force_n (fun _ => max_brake_force * (brake_percentage / 100)).

Record Status : Type := mk_Status {
  speed_kmh : Q;
  status_acceleration_mps2 : Q;
  position_km : Q;
  status_brake_force_n : Q
}.

(** [VehicleDynamics.get_status]. *)
Definition get_status : M t Status :=
  self <- get ;;
  ret (mk_Status (Py.round2 (velocity_mps self * 3.6))
                 (Py.round2 (acceleration_mps2 self))
                 (Py.round2 (position_m self / 1000))
                 (Py.round2 (brake_force_n self))).

End VehicleDynamics.

(** ** DigitalTwin *)

Module DigitalTwin.

(** The configuration dictionary, with the keys the constructor reads. *)
Record Config : Type := mk_Config {
  powertrain_max_power_kw : Q;
  powertrain_max_torque_nm : Q;
  battery_capacity_kwh : Q;
  battery_voltage_nominal : Q;
  vehicle_weight_kg : Q
}.

(** One record of the telemetry log. *)
Record TelemetrySnapshot : Type := mk_TelemetrySnapshot {
  snapshot_timestamp : string;
  snapshot_simulation_time : Q;
  snapshot_motor : ElectricMotor.Status;
  snapshot_battery : BatteryPack.Status;
  snapshot_vehicle : VehicleDynamics.Status
}.

Record t : Type := mk {
  config : Config;
  motor : ElectricMotor.t;
  battery : BatteryPack.t;
  dynamics : VehicleDynamics.t;
  simulation_time : Q;
  telemetry_log : list TelemetrySnapshot
}.

Definition motor_ : Lens t ElectricMotor.t :=
  mk_Lens motor (fun m self =>
    mk (config self) m (battery self) (dynamics self)
       (simulation_time self) (telemetry_log self)).

Definition battery_ : Lens t BatteryPack.t :=
  mk_Lens battery (fun b self =>
    mk (config self) (motor self) b (dynamics self)
       (simulation_time self) (telemetry_log self)).

Definition dynamics_ : Lens t VehicleDynamics.t :=
  mk_Lens dynamics (fun d self =>
    mk (config self) (motor self) (battery self) d
       (simulation_time self) (telemetry_log self)).

Definition with_simulation_time (v : Q) (self : t) : t :=
  mk (config self) (motor self) (battery self) (dynamics self)
     v (telemetry_log self).

Definition with_telemetry_log (l : list TelemetrySnapshot) (self : t) : t :=
  mk (config self) (motor self) (battery self) (dynamics self)
     (simulation_time self) l.

(** [DigitalTwin.__init__]. *)
Definition init (config : Config) : New t :=
  fun w =>
    let '(motor, w) := ElectricMotor.init (powertrain_max_power_kw config)
                                          (powertrain_max_torque_nm config) w in
    let '(battery, w) := BatteryPack.init (battery_capacity_kwh config)
                                          (battery_voltage_nominal config) w in
    let '(dynamics, w) := VehicleDynamics.init (vehicle_weight_kg config) w in
    (mk config motor battery dynamics 0 [], w).

(** [DigitalTwin.step]. *)
Definition step (throttle_percent brake_percent time_step_s : Q) : M t unit :=
  max_torque <- gets (fun self => ElectricMotor.max_torque_nm (motor self)) ;;
  let requested_torque := max_torque * (throttle_percent / 100) in
  let gear_ratio := 10 in
  let wheel_radius := 0.35 in
  self <- get ;;
  let motor_rpm :=
    (VehicleDynamics.velocity_mps (dynamics self) / wheel_radius)
    * gear_ratio * (60 / (2 * Py.np_pi)) in
  zoom motor_ (ElectricMotor.apply_load requested_torque motor_rpm) ;;
  self <- get ;;
  (if Py.Qltb 0 (ElectricMotor.current_power_kw (motor self))
   then zoom battery_
          (BatteryPack.discharge (ElectricMotor.current_power_kw (motor self))
                                 (time_step_s / 3600))
   else ret tt) ;;
  zoom dynamics_ (VehicleDynamics.apply_brakes brake_percent) ;;
  self <- get ;;
  zoom dynamics_
    (VehicleDynamics.update (ElectricMotor.current_torque_nm (motor self))
                            time_step_s gear_ratio) ;;
  assign with_simulation_time (fun self => simulation_time self + time_step_s).

(** [DigitalTwin.get_telemetry]. *)
Definition get_telemetry : M t TelemetrySnapshot :=
  ts <- now ;;
  self <- get ;;
  motor_status <- zoom motor_ ElectricMotor.get_status ;;
  battery_status <- zoom battery_ BatteryPack.get_status ;;
  vehicle_status <- zoom dynamics_ VehicleDynamics.get_status ;;
  ret (mk_TelemetrySnapshot (isoformat ts) (Py.round2 (simulation_time self))
                            motor_status battery_status vehicle_status).

(** [DigitalTwin.log_telemetry]. *)
Definition log_telemetry : M t unit :=
  snapshot <- get_telemetry ;;
  assign with_telemetry_log (fun self => telemetry_log self ++ [snapshot]).

End DigitalTwin.

(** ** Driving scenarios *)

(** The four subclasses of [DrivingScenario]. *)
Inductive ScenarioClass : Type :=
| UrbanDrivingScenario
| HighwayDrivingScenario
| AggressiveDrivingScenario
| EcoModeScenario.

Record DrivingScenario : Type := mk_DrivingScenario {
  class_ : ScenarioClass;
  name : string;
  duration_s : Q
}.

(** The constructors of the subclasses. *)
Definition new_scenario (c : ScenarioClass) : DrivingScenario :=
  match c with
  | UrbanDrivingScenario => mk_DrivingScenario c "Urban Driving" 600
  | HighwayDrivingScenario => mk_DrivingScenario c "Highway Driving" 1800
  | AggressiveDrivingScenario => mk_DrivingScenario c "Aggressive Driving" 300
  | EcoModeScenario => mk_DrivingScenario c "Eco Mode" 900
  end.

Section Scenarios.

(** [np.sin], a function of the numeric library that has no rational
    definition; it is a parameter of the model. *)
Variable np_sin : Q -> Q.

(** [UrbanDrivingScenario.get_control_inputs]. *)
Definition urban_control_inputs (time : Q) : Q * Q :=
  let cycle_time := 60 in
  let t := Py.mod_ time cycle_time in
  if Py.Qltb t 20 then (Py.min (40 + t * 2) 60, 0)
  else if Py.Qltb t 30 then (30, 0)
  else if Py.Qltb t 40 then (0, 20 + (t - 30) * 3)
  else (0, 50).

(** [HighwayDrivingScenario.get_control_inputs]. *)
Definition highway_control_inputs (self : DrivingScenario) (time : Q) : Q * Q :=
  if Py.Qltb time 60 then (Py.min (70 + time) 100, 0)
  else if Py.Qltb (duration_s self - 120) time then (30, 20)
  else (45 + np_sin (time * 0.1) * 5, 0).

(** [AggressiveDrivingScenario.get_control_inputs]. *)
Definition aggressive_control_inputs (time : Q) : Q * Q :=
  let cycle_time := 30 in
  let t := Py.mod_ time cycle_time in
  if Py.Qltb t 10 then (100, 0)
  else if Py.Qltb t 15 then (0, 0)
  else if Py.Qltb t 20 then (0, 80)
  else (0, 50).

(** [EcoModeScenario.get_control_inputs]. *)
Definition eco_control_inputs (time : Q) : Q * Q :=
  let cycle_time := 90 in
  let t := Py.mod_ time cycle_time in
  if Py.Qltb t 30 then (Py.min (20 + t * 0.8) 40, 0)
  else if Py.Qltb t 60 then (35, 0)
  else (Py.max (35 - (t - 60) * 1.2) 0, 10).

(** Method dispatch on the scenario's class. *)
Definition get_control_inputs (self : DrivingScenario) (time : Q) : Q * Q :=
  match class_ self with
  | UrbanDrivingScenario => urban_control_inputs time
  | HighwayDrivingScenario => highway_control_inputs self time
  | AggressiveDrivingScenario => aggressive_control_inputs time
  | EcoModeScenario => eco_control_inputs time
  end.

End Scenarios.

(** ** The scenarios over the doubles

    [time % cycle_time] is exact on doubles for a time that is not
    negative, but the sum [t + 60.0] of a caller is rounded.  For the statements that depend on it, the Urban
    scenario is embedded once more over IEEE binary64 numbers with rounding
    to nearest even, as Python's [float] computes. *)

Module Binary64.

Definition float : Type := spec_float.

Definition prec : Z := 53.
Definition emax : Z := 1024.

(** The double of an int (exact below [2^53]). *)
Definition of_int (n : Z) : float := binary_normalize prec emax n 0 false.

(** The double a decimal literal [n / 10^k] denotes, for [n] and [10^k]
    below [2^53]: the correctly rounded quotient. *)
Definition literal (n : Z) (k : Z) : float :=
  SFdiv prec emax (of_int n) (of_int (10 ^ k)).

Definition add : float -> float -> float := SFadd prec emax.
Definition sub : float -> float -> float := SFsub prec emax.
Definition mul : float -> float -> float := SFmul prec emax.

(** [x < y] and [x == y]. *)
Definition ltb : float -> float -> bool := SFltb.
Definition eqb : float -> float -> bool := SFeqb.

(** [min(a, b)]. *)
Definition min (a b : float) : float := if ltb b a then b else a.

(** C's [fmod(x, y)] for a finite [y] that is not zero: the remainder of
    the division truncated toward zero, which is always a double. *)
Definition fmod (x y : float) : float :=
  match x, y with
  | S754_finite sx mx ex, S754_finite _ my ey =>
      let e := Z.min ex ey in
      let r := Z.rem (Z.pos mx * 2 ^ (ex - e)) (Z.pos my * 2 ^ (ey - e)) in
      binary_normalize prec emax (if sx then - r else r) e sx
  | S754_zero _, S754_finite _ _ _ => x
  | _, _ => S754_nan
  end.

(** [x % y] on floats, for a [y] that is not zero (CPython's [float_rem]):
    [fmod], moved to the sign of [y]. *)
Definition mod_ (x y : float) : float :=
  let m := fmod x y in
  if eqb m (of_int 0) then S754_zero (ltb y (of_int 0))
  else if Bool.eqb (ltb y (of_int 0)) (ltb m (of_int 0)) then m
  else add m y.

(** [UrbanDrivingScenario.get_control_inputs]. *)
Definition urban_control_inputs (time : float) : float * float :=
  let cycle_time := of_int 60 in
  let t := mod_ time cycle_time in
  if ltb t (of_int 20)
  then (min (add (of_int 40) (mul t (of_int 2))) (of_int 60), of_int 0)
  else if ltb t (of_int 30) then (of_int 30, of_int 0)
  else if ltb t (of_int 40)
  then (of_int 0, add (of_int 20) (mul (sub t (of_int 30)) (of_int 3)))
  else (of_int 0, of_int 50).

(** [f(t) == f(t + 60)], Python's comparison of the two tuples. *)
Definition urban_repeats (t : float) : Prop :=
  let first := urban_control_inputs t in
  let later := urban_control_inputs (add t (of_int 60)) in
  eqb (fst first) (fst later) && eqb (snd first) (snd later) = true.

End Binary64.

(** ** SimulationEngine *)

Module SimulationEngine.

Record t : Type := mk {
  digital_twin : DigitalTwin.t;
  time_step : Q;
  scenarios : list (string * DrivingScenario)
}.

Definition digital_twin_ : Lens t DigitalTwin.t :=
  mk_Lens digital_twin (fun d self => mk d (time_step self) (scenarios self)).

(** [SimulationEngine.__init__]. *)
Definition init (digital_twin : DigitalTwin.t) (time_step : Q) : t :=
  mk digital_twin time_step
     [ ("urban", new_scenario UrbanDrivingScenario);
       ("highway", new_scenario HighwayDrivingScenario);
       ("aggressive", new_scenario AggressiveDrivingScenario);
       ("eco", new_scenario EcoModeScenario) ]%string.

(** Lookup of a key in the scenario dictionary. *)
Fixpoint lookup (key : string) (d : list (string * DrivingScenario))
  : option DrivingScenario :=
  match d with
  | [] => None
  | (k, v) :: rest => if String.eqb key k then Some v else lookup key rest
  end.

(** [range(n)]. *)
Definition range (n : Z) : list Z := map Z.of_nat (seq 0 (Z.to_nat n)).

(** The figures [_print_summary] prints. *)
Record Summary : Type := mk_Summary {
  distance_km : Q;
  energy_consumed : Q;
  summary_efficiency : Q;
  final_soc_percent : Q;
  max_speed_kmh : Q;
  motor_health : Q
}.

(** [max(xs)] of a list whose first element is [x]. *)
Definition list_max (x : Q) (xs : list Q) : Q := fold_left Py.max xs x.

(** [SimulationEngine._print_summary]: nothing for an empty log, otherwise
    the figures computed from the first and the last snapshot. *)
Definition _print_summary : M t (option Summary) :=
  self <- get ;;
  match DigitalTwin.telemetry_log (digital_twin self) with
  | [] => ret None
  | initial :: rest =>
      let final := last rest initial in
      let distance_km :=
        VehicleDynamics.position_km (DigitalTwin.snapshot_vehicle final) in
      let energy_consumed :=
        BatteryPack.charge_kwh (DigitalTwin.snapshot_battery initial)
        - BatteryPack.charge_kwh (DigitalTwin.snapshot_battery final) in
      efficiency <-
        (if Py.Qltb 0 energy_consumed then div distance_km energy_consumed else ret 0) ;;
      let speeds :=
        map (fun s => VehicleDynamics.speed_kmh (DigitalTwin.snapshot_vehicle s)) rest in
      ret (Some (mk_Summary distance_km energy_consumed efficiency
                   (BatteryPack.soc_percent (DigitalTwin.snapshot_battery final))
                   (list_max
                      (VehicleDynamics.speed_kmh (DigitalTwin.snapshot_vehicle initial))
                      speeds)
                   (ElectricMotor.status_health_score
                      (DigitalTwin.snapshot_motor final))))
  end.

Section Run.

Variable np_sin : Q -> Q.

(** The body of the loop of [run_scenario], for the iteration [step] and
    the value of the local variable [log_counter]; it returns the new
    [log_counter].  The progress line printed every 100 steps reads the
    telemetry. *)
Definition run_scenario_body (scenario : DrivingScenario) (log_interval : Z)
    (log_counter step : Z) : M t Z :=
  self <- get ;;
  let current_time := inject_Z step * time_step self in
  let '(throttle, brake) := get_control_inputs np_sin scenario current_time in
  zoom digital_twin_ (DigitalTwin.step throttle brake (time_step self)) ;;
  let log_counter := (log_counter + 1)%Z in
  log_counter <-
    (if (log_interval <=? log_counter)%Z
     then zoom digital_twin_ DigitalTwin.log_telemetry ;; ret 0%Z
     else ret log_counter) ;;
  (if (step mod 100 =? 0)%Z
   then zoom digital_twin_ DigitalTwin.get_telemetry ;; ret tt
   else ret tt) ;;
  ret log_counter.

(** [SimulationEngine.run_scenario]. *)
Definition run_scenario (scenario_name : string) (log_interval : Z) : M t unit :=
  self <- get ;;
  match lookup scenario_name (scenarios self) with
  | None => raise (ValueError ("Unknown scenario: " ++ scenario_name))
  | Some scenario =>
      ratio <- div (duration_s scenario) (time_step self) ;;
      steps <- int_ ratio ;;
      for_fold (run_scenario_body scenario log_interval) (range steps) 0%Z ;;
      _print_summary ;;
      ret tt
  end.

End Run.

(** How [run_custom_scenario] ends when no step raised: it ran through the
    whole throttle profile, or an index of a profile was out of range
    ([IndexError] at that value of [step], before the step is executed). *)
Inductive CustomRun : Type :=
| Completed
| IndexError (step : nat).

(** The loop of [run_custom_scenario] over the remaining values of [step]:
    both profiles are indexed with [step], then the twin steps, and every
    tenth value of [step], from 0 on, logs the telemetry. *)
Fixpoint run_custom_steps (steps : list nat) (throttle_profile brake_profile : list Q)
  : M t CustomRun :=
  match steps with
  | [] => ret Completed
  | step :: rest =>
      match nth_error throttle_profile step with
      | None => ret (IndexError step)
      | Some throttle =>
          match nth_error brake_profile step with
          | None => ret (IndexError step)
          | Some brake =>
              self <- get ;;
              zoom digital_twin_ (DigitalTwin.step throttle brake (time_step self)) ;;
              (if Nat.eqb (step mod 10) 0
               then zoom digital_twin_ DigitalTwin.log_telemetry
               else ret tt) ;;
              run_custom_steps rest throttle_profile brake_profile
          end
      end
  end.

(** [SimulationEngine.run_custom_scenario]; [duration_s] is not used by
    the code. *)
Definition run_custom_scenario (duration_s : Q) (throttle_profile brake_profile : list Q)
  : M t CustomRun :=
  run_custom_steps (seq 0 (List.length throttle_profile)) throttle_profile brake_profile.

End SimulationEngine.

(** ** The statements of the specification *)


(** [0 <= current_charge_kwh <= capacity_kwh]. *)
Definition charge_in_range (self : BatteryPack.t) : Prop :=
  0 <= BatteryPack.current_charge_kwh self <= BatteryPack.capacity_kwh self.

(** A call of [discharge] or of [charge]. *)
Inductive BatteryCall : Type :=
| Discharge (power_kw time_step_hours : Q)
| Charge (power_kw time_step_hours : Q).

Definition call (c : BatteryCall) : M BatteryPack.t unit :=
  match c with
  | Discharge p h => BatteryPack.discharge p h
  | Charge p h => BatteryPack.charge p h
  end.

Definition non_negative (c : BatteryCall) : Prop :=
  match c with
  | Discharge p h | Charge p h => 0 <= p /\ 0 <= h
  end.

(** The states of the pack after each call of a sequence.  The sequence
    goes on after a call that raised (a caller that catches the exception),
    from the state that call left. *)
Fixpoint states_after (calls : list BatteryCall) (self : BatteryPack.t) (w : World)
  : list BatteryPack.t :=
  match calls with
  | [] => []
  | c :: rest =>
      let o := call c self w in
      state o :: states_after rest (state o) (world o)
  end.

(** Two calls of [get_telemetry] in a row return the same value and leave
    the twin as it was. *)
Definition telemetry_repeats (self : DigitalTwin.t) (w : World) : Prop :=
  let first := DigitalTwin.get_telemetry self w in
  let second := DigitalTwin.get_telemetry (state first) (world first) in
  result second = result first /\ state first = self /\ state second = self.

(** Two snapshots that agree on everything but the wall-clock timestamp. *)
Definition same_readings (a b : DigitalTwin.TelemetrySnapshot) : Prop :=
  DigitalTwin.snapshot_simulation_time a = DigitalTwin.snapshot_simulation_time b
  /\ DigitalTwin.snapshot_motor a = DigitalTwin.snapshot_motor b
  /\ DigitalTwin.snapshot_battery a = DigitalTwin.snapshot_battery b
  /\ DigitalTwin.snapshot_vehicle a = DigitalTwin.snapshot_vehicle b.

(** "Clamped into [0, 100]", in the specification's words. *)
Definition clamp_percent (x : Q) : Q := Py.max 0 (Py.min x 100).

(** [step] succeeds and leaves the twin as the same call with clamped
    control inputs does: the motor torque, the brake force, the velocity
    and the position are the same numbers. *)
Definition step_clamps (throttle_percent brake_percent time_step_s : Q)
    (self : DigitalTwin.t) (w : World) : Prop :=
  let given := DigitalTwin.step throttle_percent brake_percent time_step_s self w in
  let clamped :=
    DigitalTwin.step (clamp_percent throttle_percent) (clamp_percent brake_percent)
                     time_step_s self w in
  result given = inr tt
  /\ ElectricMotor.current_torque_nm (DigitalTwin.motor (state given))
     == ElectricMotor.current_torque_nm (DigitalTwin.motor (state clamped))
  /\ VehicleDynamics.brake_force_n (DigitalTwin.dynamics (state given))
     == VehicleDynamics.brake_force_n (DigitalTwin.dynamics (state clamped))
  /\ VehicleDynamics.velocity_mps (DigitalTwin.dynamics (state given))
     == VehicleDynamics.velocity_mps (DigitalTwin.dynamics (state clamped))
  /\ VehicleDynamics.position_m (DigitalTwin.dynamics (state given))
     == VehicleDynamics.position_m (DigitalTwin.dynamics (state clamped)).

(** ** Specifications of methods *)

(** [hoare P m Q E]: from a state in [P], the method [m] either returns a
    value [a] in a state satisfying [Q a], or raises an exception [e] in a
    state satisfying [E e]. *)
Definition hoare {St A} (P : St -> Prop) (m : M St A)
    (Q : A -> St -> Prop) (E : exn -> St -> Prop) : Prop :=
  forall s w, P s ->
    match result (m s w) with
    | inr a => Q a (state (m s w))
    | inl e => E e (state (m s w))
    end.

(** [keeps f m]: the method [m] leaves the attribute [f] as it is. *)
Definition keeps {St A X} (f : St -> X) (m : M St A) : Prop :=
  forall s w, f (state (m s w)) = f s.

(** [raises_only EE m]: every exception the method [m] raises is in [EE]. *)
Definition raises_only (EE : exn -> Prop) {St A} (m : M St A) : Prop :=
  hoare (fun _ => True) m (fun _ _ => True) (fun e _ => EE e).

(** The only exception of the motor, of the battery and of the telemetry. *)
Definition division_error (e : exn) : Prop := e = ZeroDivisionError.

(** The exceptions of a step, both of them Python's [ArithmeticError]:
    [update] can also raise [OverflowError]. *)
Definition arithmetic_error (e : exn) : Prop :=
  e = ZeroDivisionError \/ e = OverflowError.

(** ** Invariants of a run *)

(** A pack on which [discharge] and [get_status] divide safely, holding at
    least [floor] kWh. *)
Definition battery_ready (floor : Q) (b : BatteryPack.t) : Prop :=
  0 < BatteryPack.capacity_kwh b
  /\ 0 < BatteryPack.nominal_voltage b
  /\ BatteryPack.cells_series b <> 0%Z
  /\ 0 < BatteryPack.current_voltage b
  /\ floor <= BatteryPack.current_charge_kwh b.

(** A chassis on which [update] neither divides by zero nor leaves the
    range of the doubles: it has a mass, no force coefficient is negative,
    and it is at most [vmax] fast. *)
Definition chassis_ready (vmax : Q) (d : VehicleDynamics.t) : Prop :=
  0 < VehicleDynamics.mass_kg d
  /\ 0 <= VehicleDynamics.drag_coefficient d
  /\ 0 <= VehicleDynamics.frontal_area_m2 d
  /\ 0 <= VehicleDynamics.rolling_resistance d
  /\ 0 <= VehicleDynamics.velocity_mps d <= vmax.

(** The most one step of 0.1 s draws from the pack, in kWh: the full power
    of the motor at the worst discharge efficiency, [0.95 * 0.95]. *)
Definition step_draw (max_power_kw : Q) : Q := max_power_kw * (0.1 / 3600) / 0.9025.

(** The most one step of 0.1 s adds to the velocity of a vehicle whose
    motor has at most 1000 Nm per kg of the vehicle, in m/s. *)
Definition step_gain : Q := 1000 * 10 / 0.35 * 0.1.

(** A twin whose next step raises nothing: the pack is ready, the chassis
    is ready, the motor draws at most [P] kW and has at most 1000 Nm per kg
    of the vehicle. *)
Definition twin_ready (P floor vmax : Q) (tw : DigitalTwin.t) : Prop :=
  battery_ready floor (DigitalTwin.battery tw)
  /\ chassis_ready vmax (DigitalTwin.dynamics tw)
  /\ ElectricMotor.max_power_kw (DigitalTwin.motor tw) = P
  /\ ElectricMotor.max_torque_nm (DigitalTwin.motor tw)
     <= 1000 * VehicleDynamics.mass_kg (DigitalTwin.dynamics tw).

(** The snapshots of a log were taken at the simulated seconds [1], [2],
    ..., [n], in this order. *)
Definition logged_each_second (log : list DigitalTwin.TelemetrySnapshot) (n : nat) : Prop :=
  Forall2 (fun snapshot j =>
             DigitalTwin.snapshot_simulation_time snapshot == inject_Z (Z.of_nat j))
          log (seq 1 n).

(** The state of the engine after [k] iterations of a run with time step
    0.1 s and log interval 10 that started with [charge] kWh in the pack
    and a motor of [P] kW, from standstill: each step drew at most
    [step_draw P] kWh and added at most [step_gain] m/s, the clock of the
    simulation shows [k * 0.1] s, and one snapshot was logged every ten
    steps. *)
Definition run_invariant (P charge : Q) (k : nat) (log_counter : Z) (s : SimulationEngine.t)
  : Prop :=
  SimulationEngine.time_step s = 0.1
  /\ twin_ready P (charge - inject_Z (Z.of_nat k) * step_draw P)
                  (inject_Z (Z.of_nat k) * step_gain) (SimulationEngine.digital_twin s)
  /\ DigitalTwin.simulation_time (SimulationEngine.digital_twin s)
     == inject_Z (Z.of_nat k) * 0.1
  /\ log_counter = Z.of_nat (k mod 10)
  /\ logged_each_second
       (DigitalTwin.telemetry_log (SimulationEngine.digital_twin s)) (k / 10).

(** ** Concrete objects for examples *)

(** A world whose clock advances by one microsecond per reading and whose
    random source always draws zero. *)
Definition world0 : World :=
  mk_World (fun k => mk_datetime 2024 1 1 12 0 0 k) 0 (fun _ => 0) 0.

(** The configuration of the specification's end-to-end example. *)
Definition example_config : DigitalTwin.Config :=
  DigitalTwin.mk_Config 150 310 75 400 1800.

(** The motor, the battery and the chassis with the default arguments of
    their constructors. *)
Definition default_motor : ElectricMotor.t := fst (ElectricMotor.init 150 310 world0).
Definition default_battery : BatteryPack.t := fst (BatteryPack.init 75 400 world0).
Definition default_dynamics : VehicleDynamics.t := fst (VehicleDynamics.init 1800 world0).

(** The twin of the end-to-end example, freshly constructed, and the world
    after its construction. *)
Definition example_twin : DigitalTwin.t := fst (DigitalTwin.init example_config world0).
Definition example_world : World := snd (DigitalTwin.init example_config world0).

(** A sequence of calls that empties the default pack and goes on. *)
Definition example_calls : list BatteryCall :=
  [Discharge 50 1; Charge 30 1; Discharge 150 1; Discharge 150 1; Charge 50 1].

(** The default pack after [discharge(150, 1)], which draws more than the
    60 kWh it holds, and the world after that call. *)
Definition emptied_battery : BatteryPack.t :=
  state (BatteryPack.discharge 150 1 default_battery world0).
Definition world_after_emptying : World :=
  world (BatteryPack.discharge 150 1 default_battery world0).

(** ** Further statements about the physics *)

(** The net force [update] divides by the mass: drive force less drag,
    rolling resistance and brake force. *)
Definition net_force (torque gear : Q) (self : VehicleDynamics.t) : Q :=
  torque * gear / 0.35
  - 0.5 * 1.225 * VehicleDynamics.drag_coefficient self
    * VehicleDynamics.frontal_area_m2 self * VehicleDynamics.velocity_mps self ^ 2
  - VehicleDynamics.rolling_resistance self * VehicleDynamics.mass_kg self * 9.81
  - VehicleDynamics.brake_force_n self.



(** The results of the calls of a sequence, under the same convention as
    [states_after]. *)
Fixpoint results_after (calls : list BatteryCall) (self : BatteryPack.t) (w : World)
  : list (exn + unit) :=
  match calls with
  | [] => []
  | c :: rest =>
      let o := call c self w in
      result o :: results_after rest (state o) (world o)
  end.

(** ** Further statements about the engine *)

(** After [k] iterations of a run with log interval [L], started with
    [n0] snapshots in the log: the local counter is [k mod L] and one
    snapshot was added every [L] iterations. *)
Definition log_count_invariant (L n0 k : nat) (log_counter : Z) (s : SimulationEngine.t)
  : Prop :=
  log_counter = Z.of_nat (k mod L)
  /\ List.length (DigitalTwin.telemetry_log (SimulationEngine.digital_twin s))
     = (n0 + k / L)%nat.

(** After [k] steps of a custom run with time step 0.1 s: as
    [run_invariant], with one snapshot for every ten steps begun. *)
Definition custom_run_invariant (P charge : Q) (k : nat) (s : SimulationEngine.t) : Prop :=
  SimulationEngine.time_step s = 0.1
  /\ twin_ready P (charge - inject_Z (Z.of_nat k) * step_draw P)
                  (inject_Z (Z.of_nat k) * step_gain) (SimulationEngine.digital_twin s)
  /\ DigitalTwin.simulation_time (SimulationEngine.digital_twin s)
     == inject_Z (Z.of_nat k) * 0.1
  /\ List.length (DigitalTwin.telemetry_log (SimulationEngine.digital_twin s))
     = ((k + 9) / 10)%nat.

(** A control input that is a percentage. *)
Definition percent (x : Q) : Prop := 0 <= x <= 100.

(** A number in the range of the doubles. *)
Definition in_float_range (x : Q) : Prop := - Py.float_max <= x <= Py.float_max.

(** The configurations on which a run of 600 simulated seconds is shown to
    complete.  The five values are in the range of the doubles; the vehicle
    has a mass, and the motor at most 1000 Nm per kg of it; the pack, which
    starts at 80 % of its capacity, can feed the full power of the motor
    for 600 s at the worst discharge efficiency, [0.95 * 0.95]; the
    capacity is at least 1 Wh and the nominal voltage at least 1 V, so
    that neither the charge nor the voltage of the pack comes near the
    smallest doubles. *)
Definition sustains_run (c : DigitalTwin.Config) : Prop :=
  (in_float_range (DigitalTwin.powertrain_max_power_kw c)
   /\ in_float_range (DigitalTwin.powertrain_max_torque_nm c)
   /\ in_float_range (DigitalTwin.battery_capacity_kwh c)
   /\ in_float_range (DigitalTwin.battery_voltage_nominal c)
   /\ in_float_range (DigitalTwin.vehicle_weight_kg c))
  /\ 0 < DigitalTwin.vehicle_weight_kg c
  /\ DigitalTwin.powertrain_max_torque_nm c <= 1000 * DigitalTwin.vehicle_weight_kg c
  /\ 0 <= DigitalTwin.powertrain_max_power_kw c
  /\ DigitalTwin.powertrain_max_power_kw c * (600 / 3600) / 0.9025
     < DigitalTwin.battery_capacity_kwh c * 0.8
  /\ 0.001 <= DigitalTwin.battery_capacity_kwh c
  /\ 1 <= DigitalTwin.battery_voltage_nominal c.



(** An engine on the example twin after one call of [log_telemetry]. *)
Definition logged_engine : SimulationEngine.t :=
  SimulationEngine.init
    (state (DigitalTwin.log_telemetry example_twin example_world)) 0.1.

(** * Properties *)

(** ** Comparisons, [min] and [max] *)

Lemma Qltb_true (x y : Q) : Py.Qltb x y = true <-> x < y.
Proof.
  unfold Py.Qltb. rewrite negb_true_iff, <- not_true_iff_false, Qle_bool_iff.
  split; [apply Qnot_le_lt | apply Qlt_not_le].
Qed.

Lemma Qltb_false (x y : Q) : Py.Qltb x y = false <-> y <= x.
Proof.
  unfold Py.Qltb. rewrite negb_false_iff. apply Qle_bool_iff.
Qed.

Lemma Qltb_cases (x y : Q) :
  (Py.Qltb x y = true /\ x < y) \/ (Py.Qltb x y = false /\ y <= x).
Proof.
  destruct (Py.Qltb x y) eqn:E.
  - left. split; [reflexivity | now apply Qltb_true].
  - right. split; [reflexivity | now apply Qltb_false].
Qed.

Lemma min_le_r (a b : Q) : Py.min a b <= b.
Proof.
  unfold Py.min. destruct (Qltb_cases b a) as [[-> H] | [-> H]]; lra.
Qed.

Lemma min_le_l (a b : Q) : Py.min a b <= a.
Proof.
  unfold Py.min. destruct (Qltb_cases b a) as [[-> H] | [-> H]]; lra.
Qed.

Lemma min_glb (a b c : Q) : c <= a -> c <= b -> c <= Py.min a b.
Proof.
  unfold Py.min. destruct (Py.Qltb b a); auto.
Qed.

Lemma max_ge_l (a b : Q) : a <= Py.max a b.
Proof.
  unfold Py.max. destruct (Qltb_cases a b) as [[-> H] | [-> H]]; lra.
Qed.

Lemma max_ge_r (a b : Q) : b <= Py.max a b.
Proof.
  unfold Py.max. destruct (Qltb_cases a b) as [[-> H] | [-> H]]; lra.
Qed.

Lemma max_lub (a b c : Q) : a <= c -> b <= c -> Py.max a b <= c.
Proof.
  unfold Py.max. destruct (Py.Qltb a b); auto.
Qed.

Ltac split_conj := repeat match goal with |- _ /\ _ => split end.

Module MotorFacts.
Import ElectricMotor.

Lemma apply_load_returns rt rpm self w :
  result (apply_load rt rpm self w) = inr tt.
Proof.
  unfold apply_load. cbn.
  match goal with |- context [Py.Qltb 120 ?x] => destruct (Py.Qltb 120 x) end; reflexivity.
Qed.

Lemma apply_load_torque rt rpm self w :
  current_torque_nm (state (apply_load rt rpm self w)) = Py.min rt (max_torque_nm self).
Proof.
  unfold apply_load. cbn.
  match goal with |- context [Py.Qltb 120 ?x] => destruct (Py.Qltb 120 x) end; reflexivity.
Qed.

End MotorFacts.

(** ** ElectricMotor.apply_load *)

Module MotorLimits.
Import ElectricMotor.

Lemma apply_load_power rt rpm self w :
  current_power_kw (state (apply_load rt rpm self w)) <= max_power_kw self.
Proof.
  unfold apply_load. cbn.
  match goal with |- context [Py.Qltb 120 ?x] => destruct (Py.Qltb 120 x) end;
    cbn; apply min_le_r.
Qed.

Lemma apply_load_config rt rpm self w :
  max_torque_nm (state (apply_load rt rpm self w)) = max_torque_nm self
  /\ max_power_kw (state (apply_load rt rpm self w)) = max_power_kw self.
Proof.
  unfold apply_load. cbn.
  match goal with |- context [Py.Qltb 120 ?x] => destruct (Py.Qltb 120 x) end;
    split; reflexivity.
Qed.




End MotorLimits.

(** ** Rules for the specifications of methods *)

Section Rules.
Context {St : Type}.

Lemma bind_returns {A B} (m : M St A) (k : A -> M St B) s w a s' w' :
  m s w = (inr a, s', w') -> bind m k s w = k a s' w'.
Proof. unfold bind. now intros ->. Qed.

Lemma bind_raises {A B} (m : M St A) (k : A -> M St B) s w e s' w' :
  m s w = (inl e, s', w') -> bind m k s w = (inl e, s', w').
Proof. unfold bind. now intros ->. Qed.

Lemma hoare_bind {A B} (P : St -> Prop) (m : M St A) (k : A -> M St B) R Q E :
  hoare P m R E -> (forall a, hoare (R a) (k a) Q E) -> hoare P (bind m k) Q E.
Proof.
  intros Hm Hk s w HP. specialize (Hm s w HP). unfold bind.
  destruct (m s w) as [[[e | a] s'] w']; cbn in Hm |- *.
  - exact Hm.
  - exact (Hk a s' w' Hm).
Qed.

Lemma hoare_weaken {A} (P P' : St -> Prop) (m : M St A) (Q Q' : A -> St -> Prop) E E' :
  hoare P' m Q' E' ->
  (forall s, P s -> P' s) -> (forall a s, Q' a s -> Q a s) ->
  (forall e s, E' e s -> E e s) ->
  hoare P m Q E.
Proof.
  intros H HP HQ HE s w Hs. specialize (H s w (HP s Hs)).
  destruct (result (m s w)); auto.
Qed.

Lemma hoare_ret {A} (P : St -> Prop) (a : A) (Q : A -> St -> Prop) E :
  (forall s, P s -> Q a s) -> hoare P (ret a) Q E.
Proof. intros H s w Hs. cbn. auto. Qed.

Lemma hoare_raise {A} (P : St -> Prop) e (Q : A -> St -> Prop) (E : exn -> St -> Prop) :
  (forall s, P s -> E e s) -> hoare P (raise e) Q E.
Proof. intros H s w Hs. cbn. auto. Qed.

Lemma hoare_get (P : St -> Prop) (Q : St -> St -> Prop) E :
  (forall s, P s -> Q s s) -> hoare P get Q E.
Proof. intros H s w Hs. cbn. auto. Qed.

Lemma hoare_gets {A} (f : St -> A) (P : St -> Prop) (Q : A -> St -> Prop) E :
  (forall s, P s -> Q (f s) s) -> hoare P (gets f) Q E.
Proof. intros H s w Hs. cbn. auto. Qed.

Lemma hoare_assign {V} (set : V -> St -> St) (e : St -> V) (P : St -> Prop) Q E :
  (forall s, P s -> Q tt (set (e s) s)) -> hoare P (assign set e) Q E.
Proof. intros H s w Hs. cbn. auto. Qed.

Lemma hoare_now (P : St -> Prop) (Q : datetime -> St -> Prop) E :
  (forall d s, P s -> Q d s) -> hoare P now Q E.
Proof. intros H s w Hs. cbn. auto. Qed.

Lemma hoare_normal loc scale (P : St -> Prop) (Q : Q -> St -> Prop) E :
  (forall x s, P s -> Q x s) -> hoare P (normal loc scale) Q E.
Proof. intros H s w Hs. cbn. auto. Qed.

(** Division returns the quotient when the divisor is not zero and raises
    [ZeroDivisionError], in the same state, when it is. *)
Lemma hoare_div x y (P : St -> Prop) (Q : Q -> St -> Prop) (E : exn -> St -> Prop) :
  (forall s, P s -> ~ y == 0 -> Q (x / y) s) ->
  (forall s, P s -> y == 0 -> E ZeroDivisionError s) ->
  hoare P (div x y) Q E.
Proof.
  intros HQ HE s w Hs. unfold div.
  destruct (Qeq_bool y 0) eqn:Hy; cbn.
  - apply HE; [exact Hs | now apply Qeq_bool_eq].
  - apply HQ; [exact Hs | now apply Qeq_bool_neq].
Qed.

Lemma hoare_pow x n (P : St -> Prop) (Q : Q -> St -> Prop) (E : exn -> St -> Prop) :
  (forall s, P s -> Py.out_of_range (x ^ n) = false -> Q (x ^ n) s) ->
  (forall s, P s -> Py.out_of_range (x ^ n) = true -> E OverflowError s) ->
  hoare P (pow x n) Q E.
Proof.
  intros HQ HE s w Hs. unfold pow.
  destruct (Py.out_of_range (x ^ n)) eqn:Ho; cbn; auto.
Qed.

Lemma hoare_int x (P : St -> Prop) (Q : Z -> St -> Prop) (E : exn -> St -> Prop) :
  (forall s, P s -> Py.out_of_range x = false -> Q (Py.int x) s) ->
  (forall s, P s -> Py.out_of_range x = true -> E OverflowError s) ->
  hoare P (int_ x) Q E.
Proof.
  intros HQ HE s w Hs. unfold int_.
  destruct (Py.out_of_range x) eqn:Ho; cbn; auto.
Qed.

Lemma hoare_if {A} (b : bool) (m1 m2 : M St A) P Q E :
  (b = true -> hoare P m1 Q E) -> (b = false -> hoare P m2 Q E) ->
  hoare P (if b then m1 else m2) Q E.
Proof. destruct b; auto. Qed.

Lemma hoare_zoom {T A} (l : Lens St T) (m : M T A) (P : St -> Prop) Q E :
  (forall s, P s ->
     hoare (fun t => t = view l s) m
           (fun a t' => Q a (over l t' s)) (fun e t' => E e (over l t' s))) ->
  hoare P (zoom l m) Q E.
Proof.
  intros H s w Hs. specialize (H s Hs (view l s) w eq_refl). unfold zoom.
  destruct (m (view l s) w) as [[r t'] w']. destruct r; exact H.
Qed.

(** A loop over objects raises only what its body raises. *)
Lemma hoare_for_each {T} (body : M T unit) (EE : exn -> Prop) :
  hoare (fun _ => True) body (fun _ _ => True) (fun e _ => EE e) ->
  hoare (fun _ => True) (for_each body) (fun _ _ => True) (fun e _ => EE e).
Proof.
  intros H xs. induction xs as [| x rest IH]; intros w _; cbn.
  - exact I.
  - specialize (H x w I).
    destruct (body x w) as [[[e | []] x'] w']; cbn in H |- *.
    + exact H.
    + specialize (IH w' I).
      destruct (for_each body rest w') as [[[e | []] rest'] w'']; cbn in IH |- *; exact IH.
Qed.

Lemma keeps_bind {A B X} (f : St -> X) (m : M St A) (k : A -> M St B) :
  keeps f m -> (forall a, keeps f (k a)) -> keeps f (bind m k).
Proof.
  intros Hm Hk s w. specialize (Hm s w). unfold bind.
  destruct (m s w) as [[[e | a] s'] w']; cbn in Hm |- *.
  - exact Hm.
  - rewrite Hk. exact Hm.
Qed.

Lemma keeps_pure {A X} (f : St -> X) (m : M St A) :
  (forall s w, state (m s w) = s) -> keeps f m.
Proof. intros H s w. now rewrite H. Qed.

Lemma keeps_pow {X} (f : St -> X) x n : keeps f (pow x n).
Proof. intros s w. unfold pow. now destruct (Py.out_of_range (x ^ n)). Qed.

Lemma keeps_div {X} (f : St -> X) x y : keeps f (div x y).
Proof. apply keeps_pure. intros s w. unfold div. now destruct (Qeq_bool y 0). Qed.

Lemma keeps_assign {V X} (f : St -> X) (set : V -> St -> St) (e : St -> V) :
  (forall v s, f (set v s) = f s) -> keeps f (assign set e).
Proof. intros H s w. cbn. apply H. Qed.

Lemma keeps_zoom {T A X} (f : St -> X) (l : Lens St T) (m : M T A) :
  (forall t s, f (over l t s) = f s) -> keeps f (zoom l m).
Proof.
  intros H s w. unfold zoom. destruct (m (view l s) w) as [[r t'] w']. cbn. apply H.
Qed.

Lemma keeps_if {A X} (f : St -> X) (b : bool) (m1 m2 : M St A) :
  keeps f m1 -> keeps f m2 -> keeps f (if b then m1 else m2).
Proof. now destruct b. Qed.

End Rules.

Create HintDb keeps.
#[local] Hint Resolve keeps_div keeps_pow : keeps.
#[local] Hint Extern 1 (keeps _ (bind _ _)) => apply keeps_bind; [| intros ?] : keeps.
#[local] Hint Extern 1 (keeps _ (assign _ _)) =>
  apply keeps_assign; intros; reflexivity : keeps.
#[local] Hint Extern 1 (keeps _ (zoom _ _)) =>
  apply keeps_zoom; intros; reflexivity : keeps.
#[local] Hint Extern 1 (keeps _ (if _ then _ else _)) => apply keeps_if : keeps.
#[local] Hint Extern 2 (keeps _ _) =>
  apply keeps_pure; intros; reflexivity : keeps.

(** ** BatteryPack: the charge stays within the capacity *)

Module BatteryFacts.
Import BatteryPack.

Lemma hoare_of_keeps {A} (m : M t A) :
  keeps current_charge_kwh m -> keeps capacity_kwh m ->
  hoare charge_in_range m (fun _ => charge_in_range) (fun _ => charge_in_range).
Proof.
  intros Hc Hk s w H. unfold charge_in_range in *.
  destruct (result (m s w)); rewrite Hc, Hk; exact H.
Qed.

Lemma keeps_get_soc {X} (f : t -> X) : keeps f get_soc.
Proof. unfold get_soc. auto with keeps. Qed.

#[local] Hint Resolve keeps_get_soc : keeps.

Lemma efficiency_discharge_value s w :
  exists eff, efficiency_discharge s w = (inr eff, s, w)
              /\ (eff = 0.95 * 1 \/ eff = 0.95 * 0.95).
Proof.
  unfold efficiency_discharge. cbn.
  destruct (Qle_bool 20 (temperature_c s) && Qle_bool (temperature_c s) 40);
    eexists; split; try reflexivity; auto.
Qed.

Lemma hoare_efficiency_discharge (P : t -> Prop) :
  hoare P efficiency_discharge
        (fun eff s => P s /\ 0.9025 <= eff <= 0.95) (fun _ _ => False).
Proof.
  intros s w H. destruct (efficiency_discharge_value s w) as (eff & -> & Heff). cbn.
  split; [exact H |]. destruct Heff as [-> | ->]; split; vm_compute; discriminate.
Qed.

Lemma quotient_nonneg (x y : Q) : 0 <= x -> 0 < y -> 0 <= x / y.
Proof.
  intros Hx Hy. apply Qle_shift_div_l; [exact Hy | lra].
Qed.

Lemma discharge_in_range p h :
  0 <= p -> 0 <= h ->
  hoare charge_in_range (discharge p h)
        (fun _ => charge_in_range) (fun _ => charge_in_range).
Proof.
  intros Hp Hh. unfold discharge.
  apply hoare_bind with (R := fun eff s => charge_in_range s /\ 0.9025 <= eff <= 0.95).
  { eapply hoare_weaken; [apply (hoare_efficiency_discharge charge_in_range) | | |];
      cbn; auto; contradiction. }
  intros eff.
  apply hoare_bind with (R := fun drawn s => charge_in_range s /\ 0 <= drawn).
  { apply hoare_div.
    - intros s [H Heff] _. split; [exact H |].
      apply quotient_nonneg; [nra | lra].
    - intros s [_ Heff] H0. lra. }
  intros drawn.
  apply hoare_bind
    with (R := fun _ s => current_charge_kwh s <= capacity_kwh s /\ 0 <= capacity_kwh s).
  { apply hoare_assign. unfold charge_in_range. cbn. intros s [[H1 H2] H3]. lra. }
  intros _.
  apply hoare_bind with (R := fun _ => charge_in_range).
  { apply hoare_assign. unfold charge_in_range. cbn. intros s [H1 H2].
    split; [apply max_ge_l | now apply max_lub]. }
  intros _. apply hoare_of_keeps; auto 20 with keeps.
Qed.

Lemma charge_in_range_after_charge p h :
  0 <= p -> 0 <= h ->
  hoare charge_in_range (charge p h)
        (fun _ => charge_in_range) (fun _ => charge_in_range).
Proof.
  intros Hp Hh. unfold charge, efficiency_charge.
  apply hoare_bind with (R := fun eff s => charge_in_range s /\ eff = 0.92).
  { apply hoare_ret. auto. }
  intros eff.
  apply hoare_bind
    with (R := fun _ s => 0 <= current_charge_kwh s /\ 0 <= capacity_kwh s).
  { apply hoare_assign. unfold charge_in_range. cbn. intros s [[H1 H2] ->].
    split; [| lra]. assert (0 <= p * h * 0.92) by nra. lra. }
  intros _.
  apply hoare_bind with (R := fun _ => charge_in_range).
  { apply hoare_assign. unfold charge_in_range. cbn. intros s [H1 H2].
    split; [now apply min_glb | apply min_le_l]. }
  intros _. apply hoare_of_keeps; auto 20 with keeps.
Qed.

Lemma call_in_range c s w :
  non_negative c -> charge_in_range s -> charge_in_range (state (call c s w)).
Proof.
  intros Hc Hs.
  assert (H : hoare charge_in_range (call c)
                    (fun _ => charge_in_range) (fun _ => charge_in_range)).
  { destruct c as [p h | p h]; destruct Hc.
    - now apply discharge_in_range.
    - now apply charge_in_range_after_charge. }
  specialize (H s w Hs). destruct (result (call c s w)); exact H.
Qed.

End BatteryFacts.

(** C1: from a pack with [0 <= current_charge_kwh <= capacity_kwh], after
    each call of a sequence of [discharge] and [charge] calls with
    non-negative [power_kw] and [time_step_hours], the charge is again in
    [[0, capacity_kwh]] (whether the call returned or raised). *)
Theorem charge_stays_in_range (calls : list BatteryCall) (self : BatteryPack.t) (w : World) :
  Forall non_negative calls ->
  charge_in_range self ->
  Forall charge_in_range (states_after calls self w).
Proof.
  intros Hcalls. revert self w.
  induction Hcalls as [| c rest Hc _ IH]; intros self w Hself; cbn.
  - constructor.
  - pose proof (BatteryFacts.call_in_range c self w Hc Hself) as H.
    constructor; [exact H | apply IH; exact H].
Qed.

Lemma charge_stays_in_range_witness :
  Forall non_negative example_calls
  /\ charge_in_range default_battery
  /\ Forall charge_in_range (states_after example_calls default_battery world0).
Proof.
  assert (H1 : Forall non_negative example_calls)
    by (repeat constructor; vm_compute; discriminate).
  assert (H2 : charge_in_range default_battery)
    by (split; vm_compute; discriminate).
  exact (conj H1 (conj H2 (charge_stays_in_range example_calls default_battery world0 H1 H2))).
Defined.

(** ** BatteryPack.discharge: the division by the pack voltage *)

Module DischargeDivision.
Import BatteryPack.

(** [discharge] divides by [current_voltage] as it is: on a pack whose
    voltage is zero the call raises [ZeroDivisionError]. *)
Lemma discharge_raises_at_zero_voltage p h s w :
  current_voltage s == 0 ->
  result (discharge p h s w) = inl ZeroDivisionError.
Proof.
  intros Hv. unfold discharge.
  destruct (BatteryFacts.efficiency_discharge_value s w) as (eff & Heff & Hval).
  rewrite (bind_returns _ _ _ _ _ _ _ Heff).
  assert (Hnz : Qeq_bool eff 0 = false) by (destruct Hval as [-> | ->]; reflexivity).
  unfold div at 1. rewrite Hnz. cbn.
  unfold div at 1. rewrite (Qeq_eq_bool _ _ Hv). reflexivity.
Qed.

(** The voltage is set to [nominal_voltage * get_soc()], so a discharge
    that empties the pack leaves it at zero volts. *)
Lemma emptied_battery_voltage :
  current_charge_kwh emptied_battery == 0 /\ current_voltage emptied_battery == 0.
Proof. split; vm_compute; reflexivity. Qed.

(** C4, the code at the failing input: the default pack (75 kWh, 400 V,
    60 kWh stored) is emptied by [discharge(150, 1)], which returns; the
    next [discharge(150, 1)] raises [ZeroDivisionError]: the voltage is not
    floored to a positive epsilon before the division. *)
Theorem discharge_after_emptying_raises :
  result (discharge 150 1 default_battery world0) = inr tt
  /\ result (discharge 150 1 emptied_battery world_after_emptying)
     = inl ZeroDivisionError.
Proof. split; vm_compute; reflexivity. Qed.

End DischargeDivision.

(** ** BatteryPack.charge: what it writes *)

(** C10: [charge] writes [current_charge_kwh] and [current_amperage] and
    nothing else: the pack after the call is the pack before it with these
    two attributes replaced, so the voltage, the temperature, the state of
    health, the cycle count and all cell and temperature sensors are as
    before; the clock and the random source are not read. *)
Theorem charge_frame (power_kw time_step_hours : Q) (self : BatteryPack.t) (w : World) :
  let o := BatteryPack.charge power_kw time_step_hours self w in
  state o =
    BatteryPack.with_current_amperage (BatteryPack.current_amperage (state o))
      (BatteryPack.with_current_charge_kwh (BatteryPack.current_charge_kwh (state o)) self)
  /\ BatteryPack.current_voltage (state o) = BatteryPack.current_voltage self
  /\ BatteryPack.temperature_c (state o) = BatteryPack.temperature_c self
  /\ BatteryPack.health_soh (state o) = BatteryPack.health_soh self
  /\ BatteryPack.cycle_count (state o) = BatteryPack.cycle_count self
  /\ BatteryPack.cell_voltages (state o) = BatteryPack.cell_voltages self
  /\ BatteryPack.temp_sensors (state o) = BatteryPack.temp_sensors self
  /\ world o = w.
Proof.
  unfold BatteryPack.charge, BatteryPack.efficiency_charge. cbn.
  unfold div. destruct (Qeq_bool (BatteryPack.current_voltage self) 0); cbn;
    repeat split; reflexivity.
Qed.

(** ** VehicleDynamics.update *)

(** A number below the threshold of the doubles is in range. *)
Lemma in_range (x : Q) :
  - Py.overflow_threshold < x < Py.overflow_threshold -> Py.out_of_range x = false.
Proof.
  intros [Hlo Hhi]. unfold Py.out_of_range.
  destruct (Qle_bool Py.overflow_threshold (Py.abs x)) eqn:Hb; [| reflexivity].
  apply Qle_bool_iff in Hb. unfold Py.abs in Hb.
  destruct (Qltb_cases x 0) as [[Hx H] | [Hx H]]; rewrite Hx in Hb; lra.
Qed.

Lemma out_of_range_spec (x : Q) :
  Py.out_of_range x = true <-> Py.overflow_threshold <= Py.abs x.
Proof. unfold Py.out_of_range. apply Qle_bool_iff. Qed.

(** The square of a velocity of at most [10^9] m/s is in range. *)
Lemma square_in_range (v vmax : Q) :
  0 <= v <= vmax -> vmax <= 1000000000 -> Py.out_of_range (v ^ 2) = false.
Proof.
  intros Hv Hmax. apply in_range.
  assert (Hthr : 1000000000 * 1000000000 < Py.overflow_threshold) by reflexivity.
  assert (Hsq : v ^ 2 == v * v) by reflexivity.
  rewrite Hsq. split; nra.
Qed.

Module UpdateFacts.
Import VehicleDynamics.

(** The three ways [update] ends: the square of the velocity is out of
    range, the mass is zero, or it returns. *)
Lemma update_cases torque dt gear (self : t) (w : World) :
  let o := update torque dt gear self w in
  let a := net_force torque gear self / mass_kg self in
  let v := Py.max 0 (velocity_mps self + a * dt) in
  (Py.out_of_range (velocity_mps self ^ 2) = true
   /\ o = (inl OverflowError, self, w))
  \/ (Py.out_of_range (velocity_mps self ^ 2) = false
      /\ mass_kg self == 0
      /\ o = (inl ZeroDivisionError, self, w))
  \/ (Py.out_of_range (velocity_mps self ^ 2) = false
      /\ ~ mass_kg self == 0
      /\ result o = inr tt
      /\ ticks (world o) = S (S (S (ticks w)))
      /\ acceleration_mps2 (state o) = a
      /\ velocity_mps (state o) = v
      /\ position_m (state o) = position_m self + v * dt
      /\ mass_kg (state o) = mass_kg self
      /\ drag_coefficient (state o) = drag_coefficient self
      /\ frontal_area_m2 (state o) = frontal_area_m2 self
      /\ rolling_resistance (state o) = rolling_resistance self
      /\ brake_force_n (state o) = brake_force_n self).
Proof.
  cbv zeta. unfold update, net_force.
  rewrite (bind_returns get _ self w self self w eq_refl).
  unfold bind at 1, pow.
  destruct (Py.out_of_range (velocity_mps self ^ 2)) eqn:Ho.
  - left. split; reflexivity.
  - right. unfold ret at 1. unfold bind at 1, div.
    destruct (Qeq_bool (mass_kg self) 0) eqn:Hz.
    + left. apply Qeq_bool_eq in Hz. split; [reflexivity |]. split; [exact Hz | reflexivity].
    + right. apply Qeq_bool_neq in Hz. split; [reflexivity |]. split; [exact Hz |].
      cbn -[Qpower]. repeat split; reflexivity.
Qed.

End UpdateFacts.

(** C3: for every motor torque, every gear ratio and every positive time
    step, from a state with [velocity_mps >= 0], after [update] (whether
    it returned or raised) [velocity_mps >= 0] and [position_m] is not
    smaller than before the call. *)
Theorem update_velocity_position
    (motor_torque_nm time_step_s gear_ratio : Q) (self : VehicleDynamics.t) (w : World) :
  0 < time_step_s ->
  0 <= VehicleDynamics.velocity_mps self ->
  let self' :=
    state (VehicleDynamics.update motor_torque_nm time_step_s gear_ratio self w) in
  0 <= VehicleDynamics.velocity_mps self'
  /\ VehicleDynamics.position_m self <= VehicleDynamics.position_m self'.
Proof.
  intros Hdt Hv. cbv zeta.
  destruct (UpdateFacts.update_cases motor_torque_nm time_step_s gear_ratio self w)
    as [(_ & ->) | [(_ & _ & ->) | (_ & _ & _ & _ & _ & -> & -> & _)]]; cbn [state fst snd].
  - split; [exact Hv | apply Qle_refl].
  - split; [exact Hv | apply Qle_refl].
  - match goal with |- context [Py.max 0 ?x] =>
      pose proof (max_ge_l 0 x) as Hmax; set (v' := Py.max 0 x) in *
    end.
    split; [exact Hmax | nra].
Qed.

Lemma update_velocity_position_witness :
  0 <= VehicleDynamics.velocity_mps
         (state (VehicleDynamics.update 100 0.1 10 default_dynamics world0))
  /\ VehicleDynamics.position_m default_dynamics
     <= VehicleDynamics.position_m
          (state (VehicleDynamics.update 100 0.1 10 default_dynamics world0)).
Proof.
  apply (update_velocity_position 100 0.1 10 default_dynamics world0).
  - reflexivity.
  - vm_compute. discriminate.
Defined.

(** ** The Urban scenario *)

Lemma Qfloor_unique (z : Z) (x : Q) :
  inject_Z z <= x -> x < inject_Z (z + 1) -> Qfloor x = z.
Proof.
  intros Hlo Hhi.
  pose proof (Qfloor_le x) as H1. pose proof (Qlt_floor x) as H2.
  assert (H3 : inject_Z z < inject_Z (Qfloor x + 1)) by lra.
  assert (H4 : inject_Z (Qfloor x) < inject_Z (z + 1)) by lra.
  rewrite <- Zlt_Qlt in H3, H4. lia.
Qed.

Lemma Qfloor_succ (x : Q) : Qfloor (x + 1) = (Qfloor x + 1)%Z.
Proof.
  pose proof (Qfloor_le x) as H1. pose proof (Qlt_floor x) as H2.
  rewrite inject_Z_plus in H2. change (inject_Z 1) with 1 in H2.
  apply Qfloor_unique; rewrite !inject_Z_plus; change (inject_Z 1) with 1; lra.
Qed.

Lemma mod_bounds (x m : Q) : 0 < m -> 0 <= Py.mod_ x m < m.
Proof.
  intros Hm. unfold Py.mod_.
  pose proof (Qfloor_le (x / m)) as H1. pose proof (Qlt_floor (x / m)) as H2.
  rewrite inject_Z_plus in H2. change (inject_Z 1) with 1 in H2.
  assert (Hx : x == x / m * m) by (field; lra).
  set (f := inject_Z (Qfloor (x / m))) in *. set (q := x / m) in *.
  split; nra.
Qed.

Lemma mod_period (x m : Q) : 0 < m -> Py.mod_ (x + m) m == Py.mod_ x m.
Proof.
  intros Hm. unfold Py.mod_.
  assert (Hq : (x + m) / m == x / m + 1) by (field; lra).
  rewrite (Qfloor_comp _ _ Hq), Qfloor_succ, inject_Z_plus.
  change (inject_Z 1) with 1. ring.
Qed.

Lemma min_compat (a b a' b' : Q) : a == a' -> b == b' -> Py.min a b == Py.min a' b'.
Proof.
  intros Ha Hb. unfold Py.min.
  destruct (Qltb_cases b a) as [[-> H] | [-> H]];
    destruct (Qltb_cases b' a') as [[-> H'] | [-> H']]; lra.
Qed.

(** The controls of the Urban scenario depend on the time only through
    its phase in the 60 s cycle. *)
Lemma urban_phase (t1 t2 : Q) :
  Py.mod_ t1 60 == Py.mod_ t2 60 ->
  fst (urban_control_inputs t1) == fst (urban_control_inputs t2)
  /\ snd (urban_control_inputs t1) == snd (urban_control_inputs t2).
Proof.
  intros H. unfold urban_control_inputs. cbv zeta.
  set (m1 := Py.mod_ t1 60) in *. set (m2 := Py.mod_ t2 60) in *.
  repeat match goal with
         | |- context [Py.Qltb ?a ?b] => destruct (Qltb_cases a b) as [[-> ?] | [-> ?]]
         end;
    cbn; try lra.
  split; [apply min_compat; lra | reflexivity].
Qed.

Lemma urban_bounds (t : Q) :
  0 <= fst (urban_control_inputs t) <= 100
  /\ 0 <= snd (urban_control_inputs t) <= 100.
Proof.
  unfold urban_control_inputs. cbv zeta.
  assert (H60 : 0 < 60) by reflexivity.
  pose proof (mod_bounds t 60 H60) as Hm.
  set (m := Py.mod_ t 60) in *.
  destruct (Qltb_cases m 20) as [[-> H1] | [-> H1]].
  - cbn. pose proof (min_le_r (40 + m * 2) 60).
    assert (0 <= Py.min (40 + m * 2) 60) by (apply min_glb; lra). lra.
  - destruct (Qltb_cases m 30) as [[-> H2] | [-> H2]]; [cbn; lra |].
    destruct (Qltb_cases m 40) as [[-> H3] | [-> H3]]; cbn; lra.
Qed.

(** C7, as stated, fails on doubles.  The time [0.2 + 60] is rounded to the
    double [60.2], whose phase [60.2 % 60] is not the double [0.2]:
    [get_control_inputs(0.2)] is [(40.4, 0)] and
    [get_control_inputs(0.2 + 60)] is [(40.400000000000006, 0)]. *)
Lemma urban_not_periodic_on_doubles : ~ Binary64.urban_repeats (Binary64.literal 2 1).
Proof. unfold Binary64.urban_repeats. vm_compute. discriminate. Qed.

(** On doubles, the Urban scenario repeats after 60 s at the whole seconds
    of the first hour. *)
Lemma urban_repeats_on_whole_seconds (n : nat) :
  (n < 3600)%nat -> Binary64.urban_repeats (Binary64.of_int (Z.of_nat n)).
Proof.
  intros Hn. unfold Binary64.urban_repeats.
  assert (H : forallb (fun k =>
                let first := Binary64.urban_control_inputs (Binary64.of_int (Z.of_nat k)) in
                let later := Binary64.urban_control_inputs
                               (Binary64.add (Binary64.of_int (Z.of_nat k))
                                             (Binary64.of_int 60)) in
                Binary64.eqb (fst first) (fst later)
                && Binary64.eqb (snd first) (snd later))
              (seq 0 3600) = true) by (vm_compute; reflexivity).
  rewrite forallb_forall in H. apply (H n). apply in_seq. lia.
Qed.

(** C7, amended: the Urban scenario's throttle and brake lie in
    [[0, 100]] at every time, and depend on the time only through its phase
    [time % 60]: two times with the same phase give the same controls.
    [get_control_inputs(t) == get_control_inputs(t + 60)] holds at every
    whole-number time [0 <= t <= 2^53 - 60], where the sum is exact (on
    doubles it is checked for the whole seconds of the first hour). *)
Theorem urban_periodic_and_bounded (np_sin : Q -> Q) :
  let urban := new_scenario UrbanDrivingScenario in
  let f := get_control_inputs np_sin urban in
  (forall t, 0 <= fst (f t) <= 100 /\ 0 <= snd (f t) <= 100)
  /\ (forall t t', Py.mod_ t 60 == Py.mod_ t' 60 ->
      fst (f t) == fst (f t') /\ snd (f t) == snd (f t'))
  /\ (forall n : Z, (0 <= n <= 2 ^ 53 - 60)%Z ->
      fst (f (inject_Z n)) == fst (f (inject_Z n + 60))
      /\ snd (f (inject_Z n)) == snd (f (inject_Z n + 60)))
  /\ (forall n : nat, (n < 3600)%nat ->
      Binary64.urban_repeats (Binary64.of_int (Z.of_nat n))).
Proof.
  cbn. split_conj.
  - apply urban_bounds.
  - apply urban_phase.
  - intros n _. apply urban_phase. symmetry. now apply mod_period.
  - apply urban_repeats_on_whole_seconds.
Qed.

Lemma urban_periodic_and_bounded_witness :
  fst (urban_control_inputs 75.5) == fst (urban_control_inputs 15.5)
  /\ snd (urban_control_inputs 35) == snd (urban_control_inputs (35 + 60))
  /\ Binary64.urban_repeats (Binary64.of_int 35).
Proof.
  destruct (urban_periodic_and_bounded (fun _ => 0)) as (_ & Hphase & Hwhole & Hdoubles).
  assert (H1 : Py.mod_ 75.5 60 == Py.mod_ 15.5 60) by reflexivity.
  assert (H2 : (0 <= 35 <= 2 ^ 53 - 60)%Z) by (split; vm_compute; discriminate).
  assert (H3 : (35 < 3600)%nat) by (vm_compute; lia).
  split; [exact (proj1 (Hphase 75.5 15.5 H1)) |].
  split; [exact (proj2 (Hwhole 35%Z H2)) | exact (Hdoubles 35%nat H3)].
Defined.

(** ** Reading the status *)

(** C6, as stated, fails for [get_telemetry]: each call stamps the
    snapshot with [datetime.now()], so two calls in a row on the fresh
    example twin return snapshots with different timestamps. *)
Lemma telemetry_timestamps_differ : ~ telemetry_repeats example_twin example_world.
Proof.
  unfold telemetry_repeats. intros [H _]. vm_compute in H. discriminate H.
Qed.

Lemma battery_status_repeats (b : BatteryPack.t) (w w' : World) :
  BatteryPack.get_status b w' = (result (BatteryPack.get_status b w), b, w').
Proof.
  unfold BatteryPack.get_status, BatteryPack.get_soc, bind, get, div, result.
  destruct (Qeq_bool (BatteryPack.capacity_kwh b) 0); reflexivity.
Qed.

(** C6, amended: with no call of [step] in between, the [get_status]
    methods of the motor, the battery and the chassis return the same value
    (or, for a battery of capacity zero, raise the same exception) at every
    call, and change neither their object nor the environment;
    [get_telemetry] does not change the twin, and two calls return
    snapshots that agree on every field but [timestamp], which is the ISO
    form of the clock reading of each call. *)
Theorem status_reads_repeat (self : DigitalTwin.t) (w w' : World) :
  ElectricMotor.get_status (DigitalTwin.motor self) w'
    = (result (ElectricMotor.get_status (DigitalTwin.motor self) w),
       DigitalTwin.motor self, w')
  /\ BatteryPack.get_status (DigitalTwin.battery self) w'
    = (result (BatteryPack.get_status (DigitalTwin.battery self) w),
       DigitalTwin.battery self, w')
  /\ VehicleDynamics.get_status (DigitalTwin.dynamics self) w'
    = (result (VehicleDynamics.get_status (DigitalTwin.dynamics self) w),
       DigitalTwin.dynamics self, w')
  /\ state (DigitalTwin.get_telemetry self w) = self
  /\ match result (DigitalTwin.get_telemetry self w),
           result (DigitalTwin.get_telemetry self w') with
     | inr a, inr b =>
         same_readings a b
         /\ DigitalTwin.snapshot_timestamp a = isoformat (clock w (ticks w))
         /\ DigitalTwin.snapshot_timestamp b = isoformat (clock w' (ticks w'))
     | inl e, inl e' => e = e'
     | _, _ => False
     end.
Proof.
  split; [reflexivity |]. split; [apply battery_status_repeats |].
  split; [reflexivity |].
  destruct self as [cfg m b d time log].
  pose proof (battery_status_repeats b w) as Hb.
  remember (result (BatteryPack.get_status b w)) as r eqn:Hr. clear Hr.
  unfold DigitalTwin.get_telemetry, bind, zoom, now, get.
  cbn -[BatteryPack.get_status isoformat Py.round2]. rewrite !Hb.
  destruct r as [e | status]; cbn -[isoformat Py.round2].
  - split; reflexivity.
  - unfold same_readings. cbn -[isoformat Py.round2]. repeat split; reflexivity.
Qed.

(** ** DigitalTwin.step and its control inputs *)

Lemma hoare_keeps {St A X} (f : St -> X) (m : M St A) (P : X -> Prop) :
  keeps f m ->
  hoare (fun s => P (f s)) m (fun _ s => P (f s)) (fun _ s => P (f s)).
Proof.
  intros H s w Hs. destruct (result (m s w)); rewrite H; exact Hs.
Qed.

(** A call on an attribute keeps what the callee keeps of that attribute. *)
Lemma keeps_under_zoom {S T A X} (l : Lens S T) (f : S -> X) (g : T -> X) (m : M T A) :
  (forall s, f s = g (view l s)) -> (forall t s, f (over l t s) = g t) ->
  keeps g m -> keeps f (zoom l m).
Proof.
  intros Hf Ho Hm s w. unfold zoom. specialize (Hm (view l s) w).
  destruct (m (view l s) w) as [[r t'] w']. cbn in *. now rewrite Ho, Hm, Hf.
Qed.

Module StepFacts.
Import DigitalTwin.

Lemma update_keeps_brake_force torque dt gear :
  keeps VehicleDynamics.brake_force_n (VehicleDynamics.update torque dt gear).
Proof. unfold VehicleDynamics.update. auto 20 with keeps. Qed.

Lemma step_torque throttle brake dt self w :
  ElectricMotor.current_torque_nm (motor (state (step throttle brake dt self w)))
  = Py.min (ElectricMotor.max_torque_nm (motor self) * (throttle / 100))
           (ElectricMotor.max_torque_nm (motor self)).
Proof.
  set (X := Py.min _ _).
  assert (H : hoare (fun s => s = self) (step throttle brake dt)
                (fun _ s => ElectricMotor.current_torque_nm (motor s) = X)
                (fun _ s => ElectricMotor.current_torque_nm (motor s) = X)).
  { unfold step.
    apply hoare_bind
      with (R := fun mt s => s = self /\ mt = ElectricMotor.max_torque_nm (motor self)).
    { apply hoare_gets. intros s ->. auto. }
    intros mt.
    apply hoare_bind
      with (R := fun _ s => s = self /\ mt = ElectricMotor.max_torque_nm (motor self)).
    { apply hoare_get. auto. }
    intros self0.
    apply hoare_bind
      with (R := fun _ s => ElectricMotor.current_torque_nm (motor s) = X).
    { apply hoare_zoom. intros s [-> ->] m0 w0 ->.
      destruct (result _); cbn [motor over view motor_];
        apply MotorFacts.apply_load_torque. }
    intros _.
    apply (hoare_keeps (fun s => ElectricMotor.current_torque_nm (motor s)) _ (fun x => x = X)).
    auto 20 with keeps. }
  specialize (H self w eq_refl).
  destruct (result (step throttle brake dt self w)); exact H.
Qed.

Lemma step_brake_force throttle brake dt self w :
  result (step throttle brake dt self w) = inr tt ->
  VehicleDynamics.brake_force_n (dynamics (state (step throttle brake dt self w)))
  = VehicleDynamics.mass_kg (dynamics self) * 9.81 * 0.8 * (brake / 100).
Proof.
  set (B := VehicleDynamics.mass_kg (dynamics self) * 9.81 * 0.8 * (brake / 100)).
  assert (H : hoare (fun s => s = self) (step throttle brake dt)
                (fun _ s => VehicleDynamics.brake_force_n (dynamics s) = B)
                (fun _ _ => True)).
  { unfold step.
    apply hoare_bind with (R := fun _ s => dynamics s = dynamics self).
    { apply hoare_gets. now intros s ->. }
    intros mt.
    apply hoare_bind with (R := fun _ s => dynamics s = dynamics self); [| intros self0].
    { apply hoare_get. auto. }
    apply hoare_bind with (R := fun _ s => dynamics s = dynamics self); [| intros _].
    { eapply hoare_weaken;
        [apply (hoare_keeps dynamics _ (fun d => d = dynamics self)) | | |]; cbn; auto.
      auto with keeps. }
    apply hoare_bind with (R := fun _ s => dynamics s = dynamics self); [| intros self1].
    { apply hoare_get. auto. }
    apply hoare_bind with (R := fun _ s => dynamics s = dynamics self); [| intros _].
    { eapply hoare_weaken;
        [apply (hoare_keeps dynamics _ (fun d => d = dynamics self)) | | |]; cbn; auto.
      auto with keeps. }
    apply hoare_bind
      with (R := fun _ s => VehicleDynamics.brake_force_n (dynamics s) = B); [| intros _].
    { intros s w0 Hs. cbn. now rewrite Hs. }
    eapply hoare_weaken;
      [apply (hoare_keeps (fun s => VehicleDynamics.brake_force_n (dynamics s)) _
                          (fun x => x = B)) | | |]; cbn; auto.
    apply keeps_bind; [auto with keeps | intros self2].
    apply keeps_bind; [| intros _; auto with keeps].
    apply (keeps_under_zoom dynamics_ _ VehicleDynamics.brake_force_n);
      [reflexivity | reflexivity | apply update_keeps_brake_force]. }
  intros Hr. specialize (H self w eq_refl). rewrite Hr in H. exact H.
Qed.

End StepFacts.

(** C5, as stated, fails: [step] uses the control inputs as given.  On the
    fresh example twin, [step(50, 200, 0.1)] returns with twice the brake
    force of [step(50, 100, 0.1)]. *)
Lemma step_does_not_clamp : ~ step_clamps 50 200 0.1 example_twin example_world.
Proof.
  unfold step_clamps. intros (Hr & _ & Hb & _).
  rewrite !StepFacts.step_brake_force in Hb by (vm_compute; reflexivity).
  vm_compute in Hb. discriminate Hb.
Qed.

(** C5, amended: [step] neither clamps nor rejects its control inputs.
    The throttle reaches the motor as
    [requested_torque = max_torque_nm * throttle_percent / 100], which
    [apply_load] limits from above only:
    [current_torque_nm = min(requested_torque, max_torque_nm)], so a throttle
    of 100 or more gives [max_torque_nm] when that is not negative; the brake
    percentage is used as given: when [step] returns,
    [brake_force_n = mass_kg * 9.81 * 0.8 * brake_percent / 100]. *)
Theorem step_uses_controls_as_given
    (throttle_percent brake_percent time_step_s : Q) (self : DigitalTwin.t) (w : World) :
  let o := DigitalTwin.step throttle_percent brake_percent time_step_s self w in
  let max_torque := ElectricMotor.max_torque_nm (DigitalTwin.motor self) in
  ElectricMotor.current_torque_nm (DigitalTwin.motor (state o))
    = Py.min (max_torque * (throttle_percent / 100)) max_torque
  /\ (100 <= throttle_percent -> 0 <= max_torque ->
      ElectricMotor.current_torque_nm (DigitalTwin.motor (state o)) == max_torque)
  /\ (result o = inr tt ->
      VehicleDynamics.brake_force_n (DigitalTwin.dynamics (state o))
      = VehicleDynamics.mass_kg (DigitalTwin.dynamics self) * 9.81 * 0.8
        * (brake_percent / 100)).
Proof.
  cbv zeta. rewrite StepFacts.step_torque.
  split; [reflexivity |]. split; [| apply StepFacts.step_brake_force].
  intros Ht Hm. unfold Py.min.
  destruct (Qltb_cases (ElectricMotor.max_torque_nm (DigitalTwin.motor self))
              (ElectricMotor.max_torque_nm (DigitalTwin.motor self)
               * (throttle_percent / 100))) as [[-> H] | [-> H]]; [reflexivity |].
  set (mt := ElectricMotor.max_torque_nm (DigitalTwin.motor self)) in *.
  assert (1 <= throttle_percent / 100)
    by (apply Qle_shift_div_l; [reflexivity | lra]).
  nra.
Qed.

Lemma step_uses_controls_as_given_witness :
  ElectricMotor.current_torque_nm
    (DigitalTwin.motor (state (DigitalTwin.step 150 200 0.1 example_twin example_world)))
  == 310
  /\ VehicleDynamics.brake_force_n
       (DigitalTwin.dynamics (state (DigitalTwin.step 150 200 0.1 example_twin example_world)))
     = 1800 * 9.81 * 0.8 * (200 / 100).
Proof.
  assert (H1 : 100 <= 150) by (vm_compute; discriminate).
  assert (H2 : 0 <= ElectricMotor.max_torque_nm (DigitalTwin.motor example_twin))
    by (vm_compute; discriminate).
  assert (H3 : result (DigitalTwin.step 150 200 0.1 example_twin example_world) = inr tt)
    by (vm_compute; reflexivity).
  destruct (step_uses_controls_as_given 150 200 0.1 example_twin example_world)
    as (_ & Htorque & Hbrake).
  split; [exact (Htorque H1 H2) | exact (Hbrake H3)].
Defined.

(** ** Which exceptions the methods raise *)

Section RaisesOnly.
Context {St : Type} (EE : exn -> Prop).

Lemma raises_only_bind {A B} (m : M St A) (k : A -> M St B) :
  raises_only EE m -> (forall a, raises_only EE (k a)) -> raises_only EE (bind m k).
Proof.
  intros Hm Hk. apply hoare_bind with (R := fun _ _ => True); [exact Hm | exact Hk].
Qed.

Lemma raises_only_pure {A} (m : M St A) :
  (forall s w, exists a, result (m s w) = inr a) -> raises_only EE m.
Proof. intros H s w _. destruct (H s w) as [a ->]. exact I. Qed.

Lemma raises_only_zoom {T A} (l : Lens St T) (m : M T A) :
  raises_only EE m -> raises_only EE (zoom l m).
Proof.
  intros H. apply hoare_zoom. intros s _ t w _. specialize (H t w I).
  destruct (result (m t w)); exact H.
Qed.

Lemma raises_only_if {A} (b : bool) (m1 m2 : M St A) :
  raises_only EE m1 -> raises_only EE m2 -> raises_only EE (if b then m1 else m2).
Proof. now destruct b. Qed.

Lemma raises_only_for_fold {I Acc} (body : Acc -> I -> M St Acc) (items : list I) :
  (forall acc i, raises_only EE (body acc i)) ->
  forall acc, raises_only EE (for_fold body items acc).
Proof.
  intros H. induction items as [| i rest IH]; intros acc; cbn.
  - apply raises_only_pure. intros. eexists. reflexivity.
  - apply raises_only_bind; [apply H | exact IH].
Qed.

End RaisesOnly.

Lemma raises_only_inl {St A} (EE : exn -> Prop) (m : M St A) s w e :
  raises_only EE m -> result (m s w) = inl e -> EE e.
Proof. intros H He. specialize (H s w I). now rewrite He in H. Qed.

Lemma raises_only_weaken {St A} (EE EE' : exn -> Prop) (m : M St A) :
  (forall e, EE e -> EE' e) -> raises_only EE m -> raises_only EE' m.
Proof.
  intros H Hm s w _. specialize (Hm s w I). destruct (result (m s w)); auto.
Qed.

Lemma raises_only_div {St} (EE : exn -> Prop) (x y : Q) :
  EE ZeroDivisionError -> raises_only EE (@div St x y).
Proof. intros H. apply hoare_div; intros; [exact I | exact H]. Qed.

Lemma raises_only_pow {St} (EE : exn -> Prop) (x : Q) (n : Z) :
  EE OverflowError -> raises_only EE (@pow St x n).
Proof. intros H. apply hoare_pow; intros; [exact I | exact H]. Qed.

Lemma raises_only_int {St} (EE : exn -> Prop) (x : Q) :
  EE OverflowError -> raises_only EE (@int_ St x).
Proof. intros H. apply hoare_int; intros; [exact I | exact H]. Qed.

Lemma raises_only_for_each {T} (EE : exn -> Prop) (body : M T unit) :
  raises_only EE body -> raises_only EE (for_each body).
Proof. apply hoare_for_each. Qed.

Ltac raises_only_step :=
  lazymatch goal with
  | |- raises_only _ (div _ _) => apply raises_only_div; assumption
  | |- raises_only _ (pow _ _) => apply raises_only_pow; assumption
  | |- raises_only _ (bind _ _) => apply raises_only_bind; [| intros ?]
  | |- raises_only _ (zoom _ _) => apply raises_only_zoom
  | |- raises_only _ (for_each _) => apply raises_only_for_each
  | |- raises_only _ (for_fold _ _ _) => apply raises_only_for_fold; intros ? ?
  | |- raises_only _ (if _ then _ else _) => apply raises_only_if
  | |- raises_only _ (let '(_, _) := ?x in _) => destruct x
  | |- raises_only _ (let _ := _ in _) => cbv zeta
  | |- raises_only _ (ret _) => apply raises_only_pure; intros; eexists; reflexivity
  | |- raises_only _ get => apply raises_only_pure; intros; eexists; reflexivity
  | |- raises_only _ (gets _) => apply raises_only_pure; intros; eexists; reflexivity
  | |- raises_only _ (assign _ _) => apply raises_only_pure; intros; eexists; reflexivity
  | |- raises_only _ now => apply raises_only_pure; intros; eexists; reflexivity
  | |- raises_only _ (normal _ _) => apply raises_only_pure; intros; eexists; reflexivity
  end.

Create HintDb raises.

Ltac raises_only_auto :=
  repeat first [raises_only_step | solve [auto with raises nocore]].

(** Which exceptions each method can raise.  [EE] is any set of exceptions
    that holds those the method raises: the motor raises none, the battery
    and the telemetry [ZeroDivisionError], the chassis and a step also
    [OverflowError]. *)
Module Exceptions.

Section In.
Context (EE : exn -> Prop).

Lemma sensor_update v : raises_only EE (Sensor.update v).
Proof. unfold Sensor.update. raises_only_auto. Qed.

Hint Extern 0 (raises_only _ (Sensor.update _)) => apply sensor_update : raises.

Lemma apply_load rt rpm : raises_only EE (ElectricMotor.apply_load rt rpm).
Proof. unfold ElectricMotor.apply_load. raises_only_auto. Qed.

Lemma motor_status : raises_only EE ElectricMotor.get_status.
Proof. unfold ElectricMotor.get_status. raises_only_auto. Qed.

Lemma efficiency_discharge : raises_only EE BatteryPack.efficiency_discharge.
Proof. unfold BatteryPack.efficiency_discharge. raises_only_auto. Qed.

Lemma apply_brakes brake : raises_only EE (VehicleDynamics.apply_brakes brake).
Proof. unfold VehicleDynamics.apply_brakes. raises_only_auto. Qed.

Lemma vehicle_status : raises_only EE VehicleDynamics.get_status.
Proof. unfold VehicleDynamics.get_status. raises_only_auto. Qed.

Hint Extern 0 (raises_only _ (ElectricMotor.apply_load _ _)) => apply apply_load : raises.
Hint Extern 0 (raises_only _ ElectricMotor.get_status) => apply motor_status : raises.
Hint Extern 0 (raises_only _ BatteryPack.efficiency_discharge) =>
  apply efficiency_discharge : raises.
Hint Extern 0 (raises_only _ (VehicleDynamics.apply_brakes _)) => apply apply_brakes : raises.
Hint Extern 0 (raises_only _ VehicleDynamics.get_status) => apply vehicle_status : raises.

Hypothesis division : EE ZeroDivisionError.

Lemma get_soc : raises_only EE BatteryPack.get_soc.
Proof. unfold BatteryPack.get_soc. raises_only_auto. Qed.

Hint Extern 0 (raises_only _ BatteryPack.get_soc) => apply get_soc : raises.

Lemma discharge p h : raises_only EE (BatteryPack.discharge p h).
Proof. unfold BatteryPack.discharge. raises_only_auto. Qed.

Lemma battery_status : raises_only EE BatteryPack.get_status.
Proof. unfold BatteryPack.get_status. raises_only_auto. Qed.

Hint Extern 0 (raises_only _ (BatteryPack.discharge _ _)) => apply discharge : raises.
Hint Extern 0 (raises_only _ BatteryPack.get_status) => apply battery_status : raises.

Lemma get_telemetry : raises_only EE DigitalTwin.get_telemetry.
Proof. unfold DigitalTwin.get_telemetry. raises_only_auto. Qed.

Hint Extern 0 (raises_only _ DigitalTwin.get_telemetry) => apply get_telemetry : raises.

Lemma log_telemetry : raises_only EE DigitalTwin.log_telemetry.
Proof. unfold DigitalTwin.log_telemetry. raises_only_auto. Qed.

Lemma print_summary : raises_only EE SimulationEngine._print_summary.
Proof.
  unfold SimulationEngine._print_summary.
  apply raises_only_bind; [raises_only_step | intros self].
  destruct (DigitalTwin.telemetry_log (SimulationEngine.digital_twin self));
    raises_only_auto.
Qed.

Hypothesis overflow : EE OverflowError.

Lemma update torque dt gear : raises_only EE (VehicleDynamics.update torque dt gear).
Proof. unfold VehicleDynamics.update. raises_only_auto. Qed.

Hint Extern 0 (raises_only _ (VehicleDynamics.update _ _ _)) => apply update : raises.

Lemma step throttle brake dt : raises_only EE (DigitalTwin.step throttle brake dt).
Proof. unfold DigitalTwin.step. raises_only_auto. Qed.

End In.

Lemma division_is_arithmetic : arithmetic_error ZeroDivisionError.
Proof. now left. Qed.

Lemma overflow_is_arithmetic : arithmetic_error OverflowError.
Proof. now right. Qed.

#[global] Hint Extern 0 (raises_only _ (Sensor.update _)) => apply sensor_update : raises.
#[global] Hint Extern 0 (raises_only division_error DigitalTwin.get_telemetry) =>
  apply get_telemetry; reflexivity : raises.
#[global] Hint Extern 0 (raises_only division_error DigitalTwin.log_telemetry) =>
  apply log_telemetry; reflexivity : raises.
#[global] Hint Extern 0 (raises_only arithmetic_error DigitalTwin.get_telemetry) =>
  apply get_telemetry; apply division_is_arithmetic : raises.
#[global] Hint Extern 0 (raises_only arithmetic_error DigitalTwin.log_telemetry) =>
  apply log_telemetry; apply division_is_arithmetic : raises.
#[global] Hint Extern 0 (raises_only arithmetic_error SimulationEngine._print_summary) =>
  apply print_summary; apply division_is_arithmetic : raises.
#[global] Hint Extern 0 (raises_only arithmetic_error (DigitalTwin.step _ _ _)) =>
  apply step; [apply division_is_arithmetic | apply overflow_is_arithmetic] : raises.

End Exceptions.

(** ** SimulationEngine.run_scenario: unknown scenario names *)

Module UnknownScenario.
Import SimulationEngine.

Lemma lookup_registered (name : string) tw dt :
  In name ["urban"; "highway"; "aggressive"; "eco"]%string ->
  exists scenario, lookup name (scenarios (init tw dt)) = Some scenario.
Proof.
  cbn. intros [<- | [<- | [<- | [<- | []]]]]; cbn; eauto.
Qed.

Lemma lookup_unregistered (name : string) tw dt :
  ~ In name ["urban"; "highway"; "aggressive"; "eco"]%string ->
  lookup name (scenarios (init tw dt)) = None.
Proof.
  intros H. cbn [lookup scenarios init].
  repeat match goal with
         | |- context [String.eqb name ?k] =>
             destruct (String.eqb_spec name k) as [-> | _];
               [exfalso; apply H; cbn; tauto |]
         end.
  reflexivity.
Qed.

Lemma body_raises_only_arithmetic np_sin scenario log_interval log_counter step :
  raises_only arithmetic_error
    (run_scenario_body np_sin scenario log_interval log_counter step).
Proof. unfold run_scenario_body. raises_only_auto. Qed.

(** The loop and the summary of a run raise nothing but [ZeroDivisionError]
    and [OverflowError]. *)
Lemma run_raises_only_arithmetic np_sin scenario log_interval self :
  raises_only arithmetic_error
    (ratio <- div (duration_s scenario) (time_step self) ;;
     steps <- int_ ratio ;;
     for_fold (run_scenario_body np_sin scenario log_interval) (range steps) 0%Z ;;
     _print_summary ;;
     ret tt).
Proof.
  apply raises_only_bind; [| intros ratio].
  { apply raises_only_div, Exceptions.division_is_arithmetic. }
  apply raises_only_bind; [| intros steps].
  { apply raises_only_int, Exceptions.overflow_is_arithmetic. }
  apply raises_only_bind; [| intros ?; raises_only_auto].
  apply raises_only_for_fold. intros. apply body_raises_only_arithmetic.
Qed.

End UnknownScenario.

(** C8: on an engine as its constructor builds it, [run_scenario(name,
    log_interval)] raises [ValueError] (the "unknown scenario" error)
    exactly when [name] is none of [urban], [highway], [aggressive], [eco];
    the error then says [Unknown scenario: name], and the engine, its twin
    with its telemetry log, and the environment are as before the call. *)
Theorem run_scenario_unknown_name
    (np_sin : Q -> Q) (name : string) (log_interval : Z)
    (twin : DigitalTwin.t) (time_step : Q) (w : World) :
  let engine := SimulationEngine.init twin time_step in
  let o := SimulationEngine.run_scenario np_sin name log_interval engine w in
  let registered := ["urban"; "highway"; "aggressive"; "eco"]%string in
  ((exists msg, result o = inl (ValueError msg)) <-> ~ In name registered)
  /\ (~ In name registered ->
      result o = inl (ValueError ("Unknown scenario: " ++ name))
      /\ state o = engine
      /\ SimulationEngine.digital_twin (state o) = twin
      /\ world o = w).
Proof.
  cbv zeta.
  assert (Hunknown :
    ~ In name ["urban"; "highway"; "aggressive"; "eco"]%string ->
    SimulationEngine.run_scenario np_sin name log_interval
      (SimulationEngine.init twin time_step) w
    = (inl (ValueError ("Unknown scenario: " ++ name)),
       SimulationEngine.init twin time_step, w)).
  { intros H. unfold SimulationEngine.run_scenario, bind, get.
    now rewrite (UnknownScenario.lookup_unregistered name twin time_step H). }
  split.
  - split.
    + intros [msg Hmsg] Hin.
      destruct (UnknownScenario.lookup_registered name twin time_step Hin)
        as [scenario Hlookup].
      unfold SimulationEngine.run_scenario in Hmsg.
      unfold bind at 1, get at 1 in Hmsg. rewrite Hlookup in Hmsg.
      pose proof (raises_only_inl arithmetic_error _ _ _ _
                    (UnknownScenario.run_raises_only_arithmetic np_sin scenario log_interval
                       (SimulationEngine.init twin time_step)) Hmsg) as H.
      destruct H as [H | H]; discriminate H.
    + intros H. rewrite (Hunknown H). eexists. reflexivity.
  - intros H. rewrite (Hunknown H). repeat split; reflexivity.
Qed.

Lemma run_scenario_unknown_name_witness :
  result (SimulationEngine.run_scenario (fun _ => 0) "offroad" 10
            (SimulationEngine.init example_twin 0.1) example_world)
  = inl (ValueError "Unknown scenario: offroad")
  /\ SimulationEngine.digital_twin
       (state (SimulationEngine.run_scenario (fun _ => 0) "offroad" 10
                 (SimulationEngine.init example_twin 0.1) example_world))
     = example_twin.
Proof.
  assert (H : ~ In "offroad"%string ["urban"; "highway"; "aggressive"; "eco"]%string).
  { cbn. intros [H | [H | [H | [H | []]]]]; discriminate H. }
  destruct (proj2 (run_scenario_unknown_name (fun _ => 0) "offroad" 10
                     example_twin 0.1 example_world) H) as (H1 & _ & H2 & _).
  split; [exact H1 | exact H2].
Defined.

(** ** A run that does not empty the battery *)

(** A fact about values already read moves from the precondition to the
    context. *)
Lemma hoare_assume {St A} (phi : Prop) (P : St -> Prop) (m : M St A) Q E :
  (phi -> hoare P m Q E) -> hoare (fun s => P s /\ phi) m Q E.
Proof. intros H s w [Hs Hphi]. now apply H. Qed.

Lemma never_raises_div {St} (x y : Q) :
  ~ y == 0 -> raises_only (fun _ => False) (@div St x y).
Proof. intros Hy. apply hoare_div; intros; [exact I | contradiction]. Qed.

(** A loop over the objects of an attribute whose body does not raise. *)
Lemma hoare_zoom_for_each {S T} (l : Lens S (list T)) (body : M T unit) (P : S -> Prop) :
  raises_only (fun _ => False) body ->
  (forall s ts, P s -> P (over l ts s)) ->
  hoare P (zoom l (for_each body)) (fun _ => P) (fun _ _ => False).
Proof.
  intros Hbody HP. apply hoare_zoom. intros s Hs ts w _.
  pose proof (raises_only_for_each _ body Hbody ts w I) as H.
  destruct (result (for_each body ts w)); [contradiction | now apply HP].
Qed.

(** [hoare_seq R]: the first statement of a sequence establishes [R]. *)
Tactic Notation "hoare_seq" uconstr(R) :=
  refine (hoare_bind _ _ _ R _ _ _ _); [| intros ?].
Tactic Notation "hoare_seq" uconstr(R) "as" ident(x) :=
  refine (hoare_bind _ _ _ R _ _ _ _); [| intros x].

Module Running.
Import BatteryPack.

(** A discharge that draws at most [bound] kWh from a pack holding more
    than that returns, and leaves the pack ready for the next one. *)
Lemma discharge_ready (p h bound floor : Q) :
  0 <= p * h -> p * h <= 0.9025 * bound -> 0 < floor - bound ->
  hoare (battery_ready floor) (discharge p h)
        (fun _ => battery_ready (floor - bound)) (fun _ _ => False).
Proof.
  intros Hph Hbound Hfloor.
  pose (P1 := battery_ready (floor - bound)).
  unfold discharge.
  hoare_seq (fun eff s => battery_ready floor s /\ 0.9025 <= eff <= 0.95).
  { apply BatteryFacts.hoare_efficiency_discharge. }
  hoare_seq (fun drawn s => battery_ready floor s /\ 0 <= drawn <= bound).
  { apply hoare_div.
    - intros s [H Heff] _. split; [exact H |]. split.
      + apply BatteryFacts.quotient_nonneg; lra.
      + apply Qle_shift_div_r; [lra | nra].
    - intros s [_ Heff] H0. lra. }
  hoare_seq (fun _ s => battery_ready (floor - bound) s).
  { apply hoare_assign. unfold battery_ready. cbn. intros s [H Hd]. intuition lra. }
  hoare_seq (fun _ => P1).
  { apply hoare_assign. unfold P1, battery_ready. cbn. intros s H.
    pose proof (max_ge_r 0 (current_charge_kwh s)). intuition lra. }
  hoare_seq (fun self s => P1 s /\ 0 < current_voltage self).
  { apply hoare_get. unfold P1, battery_ready. intuition. }
  hoare_seq (fun _ => P1).
  { apply hoare_div; intros s [H Hv] Hz; [exact H | lra]. }
  hoare_seq (fun _ => P1).
  { apply hoare_assign. intros s H. exact H. }
  hoare_seq (fun soc s => P1 s /\ 0 < soc).
  { unfold get_soc.
    hoare_seq (fun self s => P1 s /\ self = s).
    { apply hoare_get. auto. }
    apply hoare_div.
    - intros s [H ->] _. split; [exact H |].
      unfold P1, battery_ready in H. apply Qlt_shift_div_l; intuition lra.
    - intros s [H ->] Hz. unfold P1, battery_ready in H. intuition lra. }
  hoare_seq (fun _ => P1).
  { apply hoare_assign. unfold P1, battery_ready. cbn. intros s [H Hsoc].
    intuition nra. }
  hoare_seq (fun _ => P1).
  { eapply hoare_weaken; [apply (BatteryFacts.hoare_efficiency_discharge P1) | | |]; cbn; intuition. }
  hoare_seq (fun _ => P1).
  { apply hoare_assign. intros s H. exact H. }
  hoare_seq (fun _ => P1).
  { apply hoare_assign. intros s H. exact H. }
  hoare_seq (fun self s => P1 s /\ cells_series self <> 0%Z).
  { apply hoare_get. unfold P1, battery_ready. intuition. }
  apply hoare_assume. intros Hcells.
  hoare_seq (fun _ => P1).
  { apply hoare_zoom_for_each.
    - apply raises_only_bind.
      + apply never_raises_div.
        intros Hz. apply Hcells. change 0 with (inject_Z 0) in Hz.
        now apply inject_Z_injective.
      + intros cv. raises_only_auto.
    - intros s ts Hs. exact Hs. }
  hoare_seq (fun _ => P1).
  { apply hoare_gets. auto. }
  apply hoare_zoom_for_each.
  - raises_only_auto.
  - intros s ts Hs. exact Hs.
Qed.

End Running.

Module Stepping.
Import DigitalTwin.

Lemma hoare_apply_load rt rpm (m0 : ElectricMotor.t) :
  hoare (fun m => m = m0) (ElectricMotor.apply_load rt rpm)
        (fun _ m => ElectricMotor.max_power_kw m = ElectricMotor.max_power_kw m0
                    /\ ElectricMotor.max_torque_nm m = ElectricMotor.max_torque_nm m0
                    /\ ElectricMotor.current_power_kw m <= ElectricMotor.max_power_kw m0
                    /\ ElectricMotor.current_torque_nm m <= ElectricMotor.max_torque_nm m0)
        (fun _ _ => False).
Proof.
  intros m w ->. rewrite MotorFacts.apply_load_returns.
  destruct (MotorLimits.apply_load_config rt rpm m0 w) as [Ht Hp].
  split_conj; [exact Hp | exact Ht | apply MotorLimits.apply_load_power |].
  rewrite MotorFacts.apply_load_torque. apply min_le_r.
Qed.

Lemma step_gain_value : step_gain == 20000 # 7.
Proof. reflexivity. Qed.

Lemma step_draw_value P : step_draw P == P * (400 # 12996000).
Proof. unfold step_draw. field. Qed.

Lemma step_draw_nonneg P : 0 <= P -> 0 <= step_draw P.
Proof. intros HP. rewrite step_draw_value. nra. Qed.

(** One update of 0.1 s of a chassis that is ready, under a torque of at
    most 1000 Nm per kg and a brake force that is not negative: it returns,
    and the velocity has grown by at most [step_gain]. *)
Lemma hoare_update torque vmax (d0 : VehicleDynamics.t) :
  chassis_ready vmax d0 ->
  vmax <= 1000000000 ->
  torque <= 1000 * VehicleDynamics.mass_kg d0 ->
  0 <= VehicleDynamics.brake_force_n d0 ->
  hoare (fun d => d = d0) (VehicleDynamics.update torque 0.1 10)
        (fun _ d => chassis_ready (vmax + step_gain) d
                    /\ VehicleDynamics.mass_kg d = VehicleDynamics.mass_kg d0)
        (fun _ _ => False).
Proof.
  intros (Hm & Hcd & Ha & Hrr & Hv) Hmax Ht Hb d w ->.
  pose proof step_gain_value as Hgain.
  destruct (UpdateFacts.update_cases torque 0.1 10 d0 w)
    as [(Ho & _) | [(_ & Hz & _)
                   | (_ & _ & -> & _ & _ & Hvel & _ & Hmass & Hcd' & HA' & Hrr' & _)]].
  - rewrite (square_in_range _ vmax Hv Hmax) in Ho. discriminate Ho.
  - lra.
  - unfold chassis_ready. rewrite Hmass, Hcd', HA', Hrr', Hvel.
    split_conj; try assumption; try reflexivity; [apply max_ge_l |].
    set (a := net_force torque 10 d0 / VehicleDynamics.mass_kg d0).
    assert (Hnet : a * VehicleDynamics.mass_kg d0 == net_force torque 10 d0).
    { unfold a. field. lra. }
    assert (Hdrive : net_force torque 10 d0
                     <= (200000 # 7) * VehicleDynamics.mass_kg d0).
    { unfold net_force.
      assert (Hsq : VehicleDynamics.velocity_mps d0 ^ 2
                    == VehicleDynamics.velocity_mps d0 * VehicleDynamics.velocity_mps d0)
        by reflexivity.
      rewrite Hsq.
      assert (Hdrag : 0 <= 0.5 * 1.225 * VehicleDynamics.drag_coefficient d0
                           * VehicleDynamics.frontal_area_m2 d0
                           * (VehicleDynamics.velocity_mps d0 * VehicleDynamics.velocity_mps d0)).
      { assert (0 <= VehicleDynamics.velocity_mps d0 * VehicleDynamics.velocity_mps d0) by nra.
        assert (0 <= VehicleDynamics.drag_coefficient d0 * VehicleDynamics.frontal_area_m2 d0)
          by nra.
        nra. }
      assert (Hroll : 0 <= VehicleDynamics.rolling_resistance d0
                           * VehicleDynamics.mass_kg d0 * 9.81) by nra.
      assert (Hdr : torque * 10 / 0.35 == torque * (200 # 7)) by field.
      rewrite Hdr. lra. }
    assert (Hacc : a <= 200000 # 7) by nra.
    apply max_lub; lra.
Qed.

Lemma battery_ready_weaken (lo hi : Q) b : lo <= hi -> battery_ready hi b -> battery_ready lo b.
Proof. unfold battery_ready. intros. intuition lra. Qed.

Lemma chassis_ready_weaken (lo hi : Q) d : lo <= hi -> chassis_ready lo d -> chassis_ready hi d.
Proof. unfold chassis_ready. intros. intuition lra. Qed.

Lemma twin_ready_weaken P (floor floor' vmax vmax' : Q) tw :
  floor' <= floor -> vmax <= vmax' ->
  twin_ready P floor vmax tw -> twin_ready P floor' vmax' tw.
Proof.
  intros Hf Hv (Hb & Hc & Hrest). split; [| split; [| exact Hrest]].
  - eapply battery_ready_weaken; eassumption.
  - eapply chassis_ready_weaken; eassumption.
Qed.

(** One step of 0.1 s, with a brake percentage that is not negative, of a
    twin that is ready: it returns, having drawn at most [step_draw P] kWh
    and gained at most [step_gain] m/s. *)
Lemma step_ready throttle brake P floor vmax T L :
  0 <= brake -> 0 <= P -> 0 < floor - step_draw P -> vmax <= 1000000000 ->
  hoare (fun tw => twin_ready P floor vmax tw
                   /\ simulation_time tw == T /\ telemetry_log tw = L)
        (step throttle brake 0.1)
        (fun _ tw => twin_ready P (floor - step_draw P) (vmax + step_gain) tw
                     /\ simulation_time tw == T + 0.1 /\ telemetry_log tw = L)
        (fun _ _ => False).
Proof.
  intros Hbrake HP Hfloor Hvmax.
  pose proof (step_draw_nonneg P HP) as Hdraw.
  pose proof (step_draw_value P) as Hdrawv.
  pose (torque_ok := fun tw : t =>
    ElectricMotor.current_torque_nm (motor tw)
    <= 1000 * VehicleDynamics.mass_kg (dynamics tw)).
  pose (P0 := fun tw => twin_ready P floor vmax tw
                        /\ simulation_time tw == T /\ telemetry_log tw = L).
  pose (P1 := fun tw => twin_ready P (floor - step_draw P) vmax tw
                        /\ simulation_time tw == T /\ telemetry_log tw = L
                        /\ torque_ok tw).
  unfold step.
  hoare_seq (fun _ => P0). { apply hoare_gets. auto. }
  hoare_seq (fun _ => P0). { apply hoare_get. auto. }
  hoare_seq (fun _ tw => (P0 tw /\ torque_ok tw)
                         /\ ElectricMotor.current_power_kw (motor tw) <= P).
  { apply hoare_zoom. intros s Hs.
    eapply hoare_weaken; [apply (hoare_apply_load _ _ (motor s)) | | |]; cbn; auto.
    unfold P0, torque_ok, twin_ready in *. cbn. intros _ m (Hmaxp & Hmaxt & Hpow & Htor).
    destruct Hs as ((Hb & Hc & HPp & HT) & Ht & Hl).
    rewrite HPp in Hpow, Hmaxp. rewrite Hmaxp, Hmaxt.
    split_conj; try assumption; try reflexivity; lra. }
  hoare_seq (fun self tw => (P0 tw /\ torque_ok tw)
                            /\ ElectricMotor.current_power_kw (motor self) <= P).
  { apply hoare_get. auto. }
  apply hoare_assume. intros Hpower.
  hoare_seq (fun _ => P1).
  { apply hoare_if; intros Hpos.
    - apply Qltb_true in Hpos. apply hoare_zoom. intros s Hs.
      eapply hoare_weaken;
        [apply (Running.discharge_ready _ _ (step_draw P) floor) | | |]; cbn; auto.
      + assert (H : 0.1 / 3600 == 1 # 36000) by reflexivity. rewrite H. nra.
      + assert (H : 0.1 / 3600 == 1 # 36000) by reflexivity. rewrite H, Hdrawv. nra.
      + intros b ->. apply Hs.
      + intros _ b Hb. unfold P1, P0, twin_ready, torque_ok in *. cbn. intuition.
    - apply hoare_ret. unfold P1, P0. intros s ((Hs & Ht & Hl) & Htor).
      split_conj; try assumption.
      eapply twin_ready_weaken; [| apply Qle_refl | exact Hs]. lra. }
  hoare_seq (fun _ tw => P1 tw /\ 0 <= VehicleDynamics.brake_force_n (dynamics tw)).
  { intros s w Hs. cbn. split; [exact Hs |].
    destruct Hs as ((_ & (Hm & _) & _) & _).
    assert (0 <= brake / 100) by (apply BatteryFacts.quotient_nonneg; [lra | reflexivity]).
    nra. }
  hoare_seq (fun self tw => (P1 tw /\ 0 <= VehicleDynamics.brake_force_n (dynamics tw))
                            /\ self = tw).
  { apply hoare_get. auto. }
  hoare_seq (fun _ tw => twin_ready P (floor - step_draw P) (vmax + step_gain) tw
                         /\ simulation_time tw == T /\ telemetry_log tw = L).
  { apply hoare_zoom. intros s (((Hr & Ht & Hl & Htor) & Hbf) & ->).
    destruct Hr as (Hb & Hc & HPp & HT).
    eapply hoare_weaken; [apply (hoare_update _ vmax (dynamics s)) | | |]; cbn; auto.
    intros _ d (Hd & Hmass). unfold twin_ready. cbn. rewrite Hmass. auto. }
  apply hoare_assign. unfold twin_ready. cbn. intros s (Hs & Ht & Hl).
  split_conj; try apply Hs; [lra | exact Hl].
Qed.

End Stepping.

(** ** Telemetry during a run *)

Module Logging.
Import DigitalTwin.


Lemma battery_status_returns (b : BatteryPack.t) (w : World) :
  ~ BatteryPack.capacity_kwh b == 0 ->
  exists status, BatteryPack.get_status b w = (inr status, b, w).
Proof.
  intros Hcap.
  unfold BatteryPack.get_status, BatteryPack.get_soc, bind, get, div.
  destruct (Qeq_bool (BatteryPack.capacity_kwh b) 0) eqn:Hz.
  - exfalso. apply Hcap. now apply Qeq_bool_eq.
  - eexists. reflexivity.
Qed.

Lemma get_telemetry_returns (tw : t) (w : World) :
  ~ BatteryPack.capacity_kwh (battery tw) == 0 ->
  exists snapshot,
    get_telemetry tw w = (inr snapshot, tw, tick w)
    /\ snapshot_simulation_time snapshot = Py.round2 (simulation_time tw).
Proof.
  intros Hcap. destruct tw as [cfg m b d time log]. cbn in Hcap.
  destruct (battery_status_returns b (tick w) Hcap) as [status Hb].
  unfold get_telemetry, bind, zoom, now, get.
  cbn -[BatteryPack.get_status isoformat Py.round2]. rewrite Hb.
  cbn -[isoformat Py.round2]. eexists. split; reflexivity.
Qed.

Lemma log_telemetry_returns (tw : t) (w : World) :
  ~ BatteryPack.capacity_kwh (battery tw) == 0 ->
  exists snapshot,
    log_telemetry tw w
    = (inr tt, with_telemetry_log (telemetry_log tw ++ [snapshot]) tw, tick w)
    /\ snapshot_simulation_time snapshot = Py.round2 (simulation_time tw).
Proof.
  intros Hcap. destruct (get_telemetry_returns tw w Hcap) as (snapshot & Hget & Htime).
  exists snapshot. split; [| exact Htime].
  unfold log_telemetry. rewrite (bind_returns _ _ _ _ _ _ _ Hget). reflexivity.
Qed.

Lemma print_summary_returns (s : SimulationEngine.t) (w : World) :
  exists summary, SimulationEngine._print_summary s w = (inr summary, s, w).
Proof.
  unfold SimulationEngine._print_summary, bind, get.
  destruct (telemetry_log (SimulationEngine.digital_twin s)) as [| initial rest].
  - eexists. reflexivity.
  - cbv zeta.
    match goal with
    | |- context [Py.Qltb 0 ?e] => destruct (Qltb_cases 0 e) as [[-> H] | [-> H]]
    end.
    + unfold div.
      match goal with
      | |- context [Qeq_bool ?e 0] => destruct (Qeq_bool e 0) eqn:Hz
      end.
      * apply Qeq_bool_eq in Hz. lra.
      * eexists. reflexivity.
    + eexists. reflexivity.
Qed.

End Logging.

(** ** The loop of a run *)

Module Loop.
Import SimulationEngine.


Lemma inject_succ (k : nat) : inject_Z (Z.of_nat (S k)) == inject_Z (Z.of_nat k) + 1.
Proof. rewrite Nat2Z.inj_succ. unfold Z.succ. rewrite inject_Z_plus. reflexivity. Qed.


Lemma ready_capacity P floor vmax tw :
  twin_ready P floor vmax tw -> ~ BatteryPack.capacity_kwh (DigitalTwin.battery tw) == 0.
Proof. unfold twin_ready, battery_ready. intros H Hz. intuition lra. Qed.


(** The bounds of the invariant during the first 6000 steps. *)
Lemma bounds_during_run P charge (k : nat) :
  (Z.of_nat k < 6000)%Z -> 0 <= P -> 6000 * step_draw P < charge ->
  0 < charge - inject_Z (Z.of_nat k) * step_draw P - step_draw P
  /\ inject_Z (Z.of_nat k) * step_gain <= 1000000000
  /\ charge - inject_Z (Z.of_nat (S k)) * step_draw P
     <= charge - inject_Z (Z.of_nat k) * step_draw P - step_draw P
  /\ inject_Z (Z.of_nat k) * step_gain + step_gain
     <= inject_Z (Z.of_nat (S k)) * step_gain.
Proof.
  intros Hk HP Hcharge.
  assert (HkQ : inject_Z (Z.of_nat k) <= 5999).
  { change 5999 with (inject_Z 5999). rewrite <- Zle_Qle. lia. }
  assert (Hk0 : 0 <= inject_Z (Z.of_nat k)).
  { change 0 with (inject_Z 0). rewrite <- Zle_Qle. lia. }
  pose proof (inject_succ k) as Hsucc.
  pose proof (Stepping.step_draw_nonneg P HP) as Hdraw.
  pose proof Stepping.step_gain_value as Hgain.
  set (n := inject_Z (Z.of_nat k)) in *. set (n' := inject_Z (Z.of_nat (S k))) in *.
  set (d := step_draw P) in *. set (g := step_gain) in *.
  split_conj; nra.
Qed.


End Loop.

Module Run.
Import SimulationEngine.


(** What a configuration that sustains a run gives. *)
Lemma sustained_draw (config : DigitalTwin.Config) :
  sustains_run config ->
  0 <= DigitalTwin.powertrain_max_power_kw config
  /\ 6000 * step_draw (DigitalTwin.powertrain_max_power_kw config)
     < DigitalTwin.battery_capacity_kwh config * 0.8.
Proof.
  intros (_ & _ & _ & HP & Hdraw & _). split; [exact HP |].
  assert (H : 6000 * step_draw (DigitalTwin.powertrain_max_power_kw config)
              == DigitalTwin.powertrain_max_power_kw config * (600 / 3600) / 0.9025).
  { unfold step_draw. field. }
  rewrite H. exact Hdraw.
Qed.

(** The twin of such a configuration, whatever the clock shows at its
    construction, is ready for a run. *)
Lemma fresh_twin_ready (config : DigitalTwin.Config) (w : World) :
  sustains_run config ->
  twin_ready (DigitalTwin.powertrain_max_power_kw config)
             (DigitalTwin.battery_capacity_kwh config * 0.8) 0
             (fst (DigitalTwin.init config w))
  /\ DigitalTwin.simulation_time (fst (DigitalTwin.init config w)) = 0
  /\ DigitalTwin.telemetry_log (fst (DigitalTwin.init config w)) = [].
Proof.
  intros Hc. destruct (sustained_draw config Hc) as [HP Hdraw].
  destruct Hc as (_ & Hm & HT & _ & _ & _ & HV).
  pose proof (Stepping.step_draw_nonneg _ HP) as Hd.
  split; [| split; reflexivity].
  unfold twin_ready, battery_ready, chassis_ready. cbn.
  split_conj; try reflexivity; try discriminate; try assumption; lra.
Qed.

Lemma fresh_engine_ready (config : DigitalTwin.Config) (w : World) :
  sustains_run config ->
  run_invariant (DigitalTwin.powertrain_max_power_kw config)
                (DigitalTwin.battery_capacity_kwh config * 0.8) 0 0
                (init (fst (DigitalTwin.init config w)) 0.1).
Proof.
  intros Hc. destruct (fresh_twin_ready config w Hc) as (Hr & Ht & Hl).
  unfold run_invariant. cbn [time_step digital_twin init].
  rewrite Ht, Hl. split; [reflexivity |]. split.
  - eapply Stepping.twin_ready_weaken; [| | exact Hr].
    + change (inject_Z (Z.of_nat 0)) with 0. lra.
    + change (inject_Z (Z.of_nat 0)) with 0. lra.
  - split; [reflexivity |]. split; [reflexivity | constructor].
Qed.


End Run.



Lemma example_config_sustains_run : sustains_run example_config.
Proof.
  unfold sustains_run, in_float_range. cbn.
  split_conj; vm_compute; first [reflexivity | discriminate].
Qed.


(** * Further properties of the code *)

(** ** Sensor.read *)

Lemma abs_zero (x : Q) : x == 0 -> Py.abs x == 0.
Proof.
  intros H. unfold Py.abs. destruct (Py.Qltb x 0); lra.
Qed.

(** X1: [read] changes nothing in the sensor and draws one random number; the
    noise it adds to [value * calibration_factor] is [0.02 * abs(value)]
    times the draw, so a sensor that holds 0 reads 0 whatever is drawn. *)
Theorem sensor_read_noise (self : Sensor.t) (w : World) :
  let o := Sensor.read self w in
  state o = self
  /\ ticks (world o) = ticks w
  /\ draws (world o) = S (draws w)
  /\ exists r, result o = inr r
       /\ r - Sensor.value self * Sensor.calibration_factor self
          == 0.02 * Py.abs (Sensor.value self) * gauss w (draws w)
       /\ (Sensor.value self == 0 -> r == 0).
Proof.
  cbn. split_conj; try reflexivity.
  eexists. split; [reflexivity |]. split; [ring |].
  intros H. rewrite (abs_zero _ H), H. ring.
Qed.

Lemma sensor_read_noise_witness :
  exists r, result (Sensor.read (ElectricMotor.temp_sensor default_motor) world0) = inr r
            /\ r == 0.
Proof.
  destruct (sensor_read_noise (ElectricMotor.temp_sensor default_motor) world0)
    as (_ & _ & _ & r & Hr & _ & Hzero).
  exists r. split; [exact Hr | apply Hzero; reflexivity].
Defined.

(** ** ElectricMotor.apply_load: temperature, health and sensors *)

Module MotorThermal.
Import ElectricMotor.



Lemma apply_load_health rt rpm self w :
  let self' := state (apply_load rt rpm self w) in
  health_score self'
  = if Py.Qltb 120 (temperature_c self') then health_score self - 0.001
    else health_score self.
Proof.
  unfold apply_load. cbn.
  match goal with |- context [Py.Qltb 120 ?x] => destruct (Py.Qltb 120 x) eqn:E end;
    cbn; rewrite E; reflexivity.
Qed.

Lemma health_cases rt rpm self w :
  let self' := state (apply_load rt rpm self w) in
  health_score self' <= health_score self
  /\ (120 < temperature_c self' -> health_score self' == health_score self - 0.001)
  /\ (temperature_c self' <= 120 -> health_score self' = health_score self).
Proof.
  cbv zeta. rewrite apply_load_health. cbv zeta.
  destruct (Qltb_cases 120 (temperature_c (state (apply_load rt rpm self w))))
    as [[-> H] | [-> H]]; split_conj; intros; try reflexivity; lra.
Qed.


End MotorThermal.

(** X2: [apply_load] never raises the health score: it takes 0.001 off when
    the temperature after the call is above 120 degrees, and leaves the
    score as it is otherwise. *)
Theorem apply_load_health_score (rt rpm : Q) (self : ElectricMotor.t) (w : World) :
  let self' := state (ElectricMotor.apply_load rt rpm self w) in
  ElectricMotor.health_score self' <= ElectricMotor.health_score self
  /\ (120 < ElectricMotor.temperature_c self' ->
      ElectricMotor.health_score self' == ElectricMotor.health_score self - 0.001)
  /\ (ElectricMotor.temperature_c self' <= 120 ->
      ElectricMotor.health_score self' = ElectricMotor.health_score self).
Proof. apply MotorThermal.health_cases. Qed.

Lemma apply_load_health_score_witness :
  ElectricMotor.health_score
    (state (ElectricMotor.apply_load 310 3000 default_motor world0))
  = ElectricMotor.health_score default_motor.
Proof.
  apply (apply_load_health_score 310 3000 default_motor world0).
  vm_compute. discriminate.
Defined.



(** X4: after [apply_load] the three sensors of the motor hold the new
    temperature, torque and rpm, each stamped with its own clock reading. *)
Theorem apply_load_updates_sensors (rt rpm : Q) (self : ElectricMotor.t) (w : World) :
  let o := ElectricMotor.apply_load rt rpm self w in
  Sensor.value (ElectricMotor.temp_sensor (state o)) = ElectricMotor.temperature_c (state o)
  /\ Sensor.value (ElectricMotor.torque_sensor (state o))
     = ElectricMotor.current_torque_nm (state o)
  /\ Sensor.value (ElectricMotor.rpm_sensor (state o)) = rpm
  /\ ElectricMotor.current_rpm (state o) = rpm
  /\ Sensor.timestamp (ElectricMotor.temp_sensor (state o)) = clock w (ticks w)
  /\ Sensor.timestamp (ElectricMotor.torque_sensor (state o)) = clock w (S (ticks w))
  /\ Sensor.timestamp (ElectricMotor.rpm_sensor (state o)) = clock w (S (S (ticks w)))
  /\ ticks (world o) = S (S (S (ticks w))).
Proof.
  unfold ElectricMotor.apply_load. cbn.
  match goal with |- context [Py.Qltb 120 ?x] => destruct (Py.Qltb 120 x) end;
    cbn; split_conj; reflexivity.
Qed.

(** ** BatteryPack: state of charge, energy and voltage *)

(** X5: on a pack with [0 <= current_charge_kwh <= capacity_kwh], [get_soc]
    returns a number in [[0, 1]] when the capacity is not zero and raises
    [ZeroDivisionError] when it is; it changes nothing. *)
Theorem get_soc_range (self : BatteryPack.t) (w : World) :
  charge_in_range self ->
  let o := BatteryPack.get_soc self w in
  state o = self /\ world o = w
  /\ (~ BatteryPack.capacity_kwh self == 0 ->
      exists soc, result o = inr soc /\ 0 <= soc <= 1)
  /\ (BatteryPack.capacity_kwh self == 0 -> result o = inl ZeroDivisionError).
Proof.
  intros [Hlo Hhi]. unfold BatteryPack.get_soc, bind, get, div. cbv zeta.
  destruct (Qeq_bool (BatteryPack.capacity_kwh self) 0) eqn:Hz; cbn.
  - apply Qeq_bool_eq in Hz. split_conj; try reflexivity. intros H. contradiction.
  - apply Qeq_bool_neq in Hz. split_conj; try reflexivity; [| intros H; contradiction].
    intros _. eexists. split; [reflexivity |].
    assert (Hcap : 0 < BatteryPack.capacity_kwh self).
    { destruct (Qlt_le_dec 0 (BatteryPack.capacity_kwh self)) as [H | H]; [exact H |].
      exfalso. apply Hz. lra. }
    split.
    + apply BatteryFacts.quotient_nonneg; assumption.
    + apply Qle_shift_div_r; [exact Hcap | lra].
Qed.

Lemma get_soc_range_witness :
  exists soc, result (BatteryPack.get_soc default_battery world0) = inr soc
              /\ 0 <= soc <= 1.
Proof.
  assert (H1 : charge_in_range default_battery) by (split; vm_compute; discriminate).
  assert (H2 : ~ BatteryPack.capacity_kwh default_battery == 0)
    by (vm_compute; discriminate).
  exact (proj1 (proj2 (proj2 (get_soc_range default_battery world0 H1))) H2).
Defined.

Module BatteryEnergy.
Import BatteryPack.

#[local] Hint Resolve BatteryFacts.keeps_get_soc : keeps.


End BatteryEnergy.





Module BatteryVoltage.
Import BatteryPack.

#[local] Hint Resolve BatteryFacts.keeps_get_soc : keeps.

Lemma discharge_returned p h (self : t) :
  hoare (fun s => s = self) (discharge p h)
        (fun _ s =>
           current_voltage s
           = nominal_voltage self * (current_charge_kwh s / capacity_kwh self)
           /\ current_amperage s = p * 1000 / current_voltage self
           /\ ~ current_voltage self == 0
           /\ ~ capacity_kwh self == 0)
        (fun _ _ => True).
Proof.
  pose (R0 := fun s => current_voltage s = current_voltage self
                       /\ capacity_kwh s = capacity_kwh self
                       /\ nominal_voltage s = nominal_voltage self).
  unfold discharge.
  hoare_seq (fun _ => R0).
  { eapply hoare_weaken; [apply (BatteryFacts.hoare_efficiency_discharge R0) | | |];
      cbn; try tauto. intros s ->. unfold R0. auto. }
  hoare_seq (fun _ => R0). { apply hoare_div; auto. }
  hoare_seq (fun _ => R0). { apply hoare_assign. intros s H. exact H. }
  hoare_seq (fun _ => R0). { apply hoare_assign. intros s H. exact H. }
  hoare_seq (fun self1 s => R0 s /\ current_voltage self1 = current_voltage self).
  { apply hoare_get. unfold R0. intuition. }
  hoare_seq (fun amperage s =>
    R0 s /\ (amperage = p * 1000 / current_voltage self
             /\ ~ current_voltage self == 0)).
  { apply hoare_div; [| auto]. intros s [H Hv] Hnz. rewrite Hv in *. auto. }
  apply hoare_assume. intros [-> Hv].
  hoare_seq (fun _ s => R0 s /\ current_amperage s = p * 1000 / current_voltage self).
  { apply hoare_assign. intros s H. split; [exact H | reflexivity]. }
  hoare_seq (fun soc s =>
    (R0 s /\ current_amperage s = p * 1000 / current_voltage self)
    /\ soc = current_charge_kwh s / capacity_kwh self
    /\ ~ capacity_kwh self == 0).
  { unfold get_soc.
    hoare_seq (fun self1 s =>
      (R0 s /\ current_amperage s = p * 1000 / current_voltage self) /\ self1 = s).
    { apply hoare_get. auto. }
    apply hoare_div; [| auto].
    intros s [H ->] Hnz. destruct H as [(H1 & H2 & H3) H4]. rewrite H2 in *.
    unfold R0. auto. }
  pose (R2 := fun s : t =>
    current_voltage s = nominal_voltage self * (current_charge_kwh s / capacity_kwh self)
    /\ current_amperage s = p * 1000 / current_voltage self
    /\ ~ current_voltage self == 0 /\ ~ capacity_kwh self == 0).
  hoare_seq (fun _ => R2).
  { apply hoare_assign. unfold R2. cbn.
    intros s ([(H1 & H2 & H3) H4] & -> & H6). rewrite H3. auto. }
  eapply hoare_weaken;
    [apply (hoare_keeps
              (fun s => (current_voltage s, current_charge_kwh s, current_amperage s)) _
              (fun x => fst (fst x)
                        = nominal_voltage self * (snd (fst x) / capacity_kwh self)
                        /\ snd x = p * 1000 / current_voltage self
                        /\ ~ current_voltage self == 0 /\ ~ capacity_kwh self == 0))
    | | |]; cbn; auto.
  auto 20 with keeps.
Qed.

Lemma discharge_stuck p h s w :
  current_voltage s == 0 ->
  result (discharge p h s w) = inl ZeroDivisionError
  /\ current_voltage (state (discharge p h s w)) = current_voltage s.
Proof.
  intros Hv.
  assert (H : exists s', discharge p h s w = (inl ZeroDivisionError, s', w)
                         /\ current_voltage s' = current_voltage s).
  { unfold discharge.
    destruct (BatteryFacts.efficiency_discharge_value s w) as (eff & Heff & Hval).
    rewrite (bind_returns _ _ _ _ _ _ _ Heff).
    assert (Hnz : Qeq_bool eff 0 = false) by (destruct Hval as [-> | ->]; reflexivity).
    unfold div at 1. rewrite Hnz. cbn.
    unfold div at 1. rewrite (Qeq_eq_bool _ _ Hv). eexists. split; reflexivity. }
  destruct H as (s' & -> & Hs'). split; [reflexivity | exact Hs'].
Qed.

Lemma charge_stuck p h s w :
  current_voltage s == 0 ->
  result (charge p h s w) = inl ZeroDivisionError
  /\ current_voltage (state (charge p h s w)) = current_voltage s.
Proof.
  intros Hv. unfold charge, efficiency_charge. cbn.
  unfold div. rewrite (Qeq_eq_bool _ _ Hv). split; reflexivity.
Qed.

End BatteryVoltage.

(** X8: when [discharge] returns, the voltage it leaves is
    [nominal_voltage * current_charge_kwh / capacity_kwh] for the new
    charge, the current it records is [power_kw * 1000] over the voltage
    before the call, and neither that voltage nor the capacity was zero. *)
Theorem discharge_voltage_follows_charge (p h : Q) (self : BatteryPack.t) (w : World) :
  result (BatteryPack.discharge p h self w) = inr tt ->
  let self' := state (BatteryPack.discharge p h self w) in
  BatteryPack.current_voltage self'
  = BatteryPack.nominal_voltage self
    * (BatteryPack.current_charge_kwh self' / BatteryPack.capacity_kwh self)
  /\ BatteryPack.current_amperage self' = p * 1000 / BatteryPack.current_voltage self
  /\ ~ BatteryPack.current_voltage self == 0
  /\ ~ BatteryPack.capacity_kwh self == 0.
Proof.
  intros Hr. pose proof (BatteryVoltage.discharge_returned p h self self w eq_refl) as H.
  rewrite Hr in H. exact H.
Qed.

Lemma discharge_voltage_follows_charge_witness :
  BatteryPack.current_voltage (state (BatteryPack.discharge 75 (1 # 5) default_battery world0))
  = 400 * (BatteryPack.current_charge_kwh
             (state (BatteryPack.discharge 75 (1 # 5) default_battery world0)) / 75).
Proof.
  assert (H : result (BatteryPack.discharge 75 (1 # 5) default_battery world0) = inr tt)
    by (vm_compute; reflexivity).
  exact (proj1 (discharge_voltage_follows_charge 75 (1 # 5) default_battery world0 H)).
Defined.

(** X9: a pack whose voltage is zero stays so: every later call of
    [discharge] or [charge], with any arguments, raises
    [ZeroDivisionError], since only a [discharge] that returns writes the
    voltage. *)
Theorem zero_voltage_is_final (calls : list BatteryCall) (self : BatteryPack.t) (w : World) :
  BatteryPack.current_voltage self == 0 ->
  Forall (fun r => r = inl ZeroDivisionError) (results_after calls self w)
  /\ Forall (fun s => BatteryPack.current_voltage s == 0) (states_after calls self w).
Proof.
  revert self w. induction calls as [| c rest IH]; intros self w Hv; cbn.
  - split; constructor.
  - assert (H : result (call c self w) = inl ZeroDivisionError
                /\ BatteryPack.current_voltage (state (call c self w))
                   = BatteryPack.current_voltage self).
    { destruct c as [p h | p h]; cbn [call].
      - now apply BatteryVoltage.discharge_stuck.
      - now apply BatteryVoltage.charge_stuck. }
    destruct H as [Hr Hs].
    assert (Hv' : BatteryPack.current_voltage (state (call c self w)) == 0)
      by (rewrite Hs; exact Hv).
    destruct (IH (state (call c self w)) (world (call c self w)) Hv') as [IH1 IH2].
    split; constructor; assumption.
Qed.

Lemma zero_voltage_is_final_witness :
  Forall (fun r => r = inl ZeroDivisionError)
    (results_after [Charge 11 2; Discharge 0 0; Charge 50 1]
                   emptied_battery world_after_emptying).
Proof.
  assert (H : BatteryPack.current_voltage emptied_battery == 0)
    by (vm_compute; reflexivity).
  exact (proj1 (zero_voltage_is_final [Charge 11 2; Discharge 0 0; Charge 50 1]
                  emptied_battery world_after_emptying H)).
Defined.

(** ** VehicleDynamics: brakes, standstill and the division by the mass *)



(** X11: a vehicle at rest whose drive force does not exceed the rolling
    resistance plus the brake force stays at rest: after [update] the
    velocity is 0 and the position is the same number, so the vehicle never
    rolls backwards. *)
Theorem update_at_rest (torque dt gear : Q) (self : VehicleDynamics.t) (w : World) :
  0 < VehicleDynamics.mass_kg self ->
  VehicleDynamics.velocity_mps self == 0 ->
  0 <= dt ->
  torque * gear / 0.35
  <= VehicleDynamics.rolling_resistance self * VehicleDynamics.mass_kg self * 9.81
     + VehicleDynamics.brake_force_n self ->
  let o := VehicleDynamics.update torque dt gear self w in
  result o = inr tt
  /\ VehicleDynamics.velocity_mps (state o) = 0
  /\ VehicleDynamics.position_m (state o) == VehicleDynamics.position_m self
  /\ VehicleDynamics.acceleration_mps2 (state o) <= 0.
Proof.
  intros Hm Hv Hdt Hforce. cbv zeta.
  assert (Hsq : VehicleDynamics.velocity_mps self ^ 2 == 0).
  { assert (H : VehicleDynamics.velocity_mps self ^ 2
                == VehicleDynamics.velocity_mps self * VehicleDynamics.velocity_mps self)
      by reflexivity.
    rewrite H, Hv. reflexivity. }
  destruct (UpdateFacts.update_cases torque dt gear self w)
    as [(Ho & _) | [(_ & Hz & _) | (_ & _ & Hr & _ & Hacc & Hvel & Hpos & _)]].
  { rewrite in_range in Ho; [discriminate Ho |]. rewrite Hsq. split; reflexivity. }
  { lra. }
  rewrite Hr, Hacc, Hvel, Hpos.
  set (net := net_force torque gear self).
  assert (Hnet : net <= 0).
  { unfold net, net_force. rewrite Hsq. lra. }
  assert (Hacc' : net / VehicleDynamics.mass_kg self <= 0).
  { apply Qle_shift_div_r; [exact Hm | lra]. }
  assert (Hmax : Py.max 0 (VehicleDynamics.velocity_mps self
                           + net / VehicleDynamics.mass_kg self * dt) = 0).
  { unfold Py.max.
    destruct (Qltb_cases 0 (VehicleDynamics.velocity_mps self
                            + net / VehicleDynamics.mass_kg self * dt))
      as [[-> H] | [-> H]]; [| reflexivity].
    exfalso. rewrite Hv in H. nra. }
  rewrite Hmax. split_conj; try reflexivity; [ring | exact Hacc'].
Qed.

Lemma update_at_rest_witness :
  VehicleDynamics.velocity_mps
    (state (VehicleDynamics.update 0 0.1 10 default_dynamics world0)) = 0.
Proof.
  apply (update_at_rest 0 0.1 10 default_dynamics world0).
  - reflexivity.
  - reflexivity.
  - vm_compute. discriminate.
  - vm_compute. discriminate.
Defined.

(** The square of a velocity is out of range exactly from the threshold
    of the doubles on. *)
Lemma square_out_of_range (v : Q) :
  Py.out_of_range (v ^ 2) = true <-> Py.overflow_threshold <= v ^ 2.
Proof.
  rewrite out_of_range_spec.
  assert (Hsq : v ^ 2 == v * v) by reflexivity.
  assert (Hpos : 0 <= v ^ 2) by (rewrite Hsq; nra).
  unfold Py.abs. destruct (Qltb_cases (v ^ 2) 0) as [[-> H] | [-> H]]; [lra | tauto].
Qed.

(** X12: [update] raises before it writes.  When the square of the
    velocity is out of the range of the doubles (from
    [2^1024 - 2^970] on) it raises [OverflowError]; otherwise, when the
    mass is zero, it raises [ZeroDivisionError]; in both cases the chassis,
    its sensors and the clock are as before the call.  Otherwise it
    returns, after three readings of the clock. *)
Theorem update_raises_before_writing
    (torque dt gear : Q) (self : VehicleDynamics.t) (w : World) :
  let o := VehicleDynamics.update torque dt gear self w in
  let square := VehicleDynamics.velocity_mps self ^ 2 in
  (Py.overflow_threshold <= square -> o = (inl OverflowError, self, w))
  /\ (square < Py.overflow_threshold -> VehicleDynamics.mass_kg self == 0 ->
      o = (inl ZeroDivisionError, self, w))
  /\ (square < Py.overflow_threshold -> ~ VehicleDynamics.mass_kg self == 0 ->
      result o = inr tt /\ ticks (world o) = S (S (S (ticks w)))).
Proof.
  cbv zeta.
  pose proof (square_out_of_range (VehicleDynamics.velocity_mps self)) as Hspec.
  destruct (UpdateFacts.update_cases torque dt gear self w)
    as [(Ho & Heq) | [(Ho & Hz & Heq) | (Ho & Hz & Hr & Ht & _)]].
  - apply Hspec in Ho. split_conj; intros; [exact Heq | lra | lra].
  - assert (Hlt : ~ Py.overflow_threshold <= VehicleDynamics.velocity_mps self ^ 2).
    { intros H. apply Hspec in H. rewrite H in Ho. discriminate Ho. }
    split_conj; intros; [contradiction | exact Heq | contradiction].
  - assert (Hlt : ~ Py.overflow_threshold <= VehicleDynamics.velocity_mps self ^ 2).
    { intros H. apply Hspec in H. rewrite H in Ho. discriminate Ho. }
    split_conj; intros; [contradiction | contradiction | auto].
Qed.

Lemma update_raises_before_writing_witness :
  result (VehicleDynamics.update 100 0.1 10 default_dynamics world0) = inr tt.
Proof.
  apply (update_raises_before_writing 100 0.1 10 default_dynamics world0).
  - reflexivity.
  - vm_compute. discriminate.
Defined.

(** ** DigitalTwin.step and log_telemetry *)

Module StepFrame.
Import DigitalTwin.

Lemma apply_load_power_value rt rpm (m : ElectricMotor.t) w :
  ElectricMotor.current_power_kw (state (ElectricMotor.apply_load rt rpm m w))
  = Py.min (Py.min rt (ElectricMotor.max_torque_nm m) * (rpm * 2 * Py.np_pi / 60) / 1000
            * ElectricMotor.efficiency m)
           (ElectricMotor.max_power_kw m).
Proof.
  unfold ElectricMotor.apply_load. cbn.
  match goal with |- context [Py.Qltb 120 ?x] => destruct (Py.Qltb 120 x) end; reflexivity.
Qed.

(** From standstill the motor turns at 0 rpm and delivers no power. *)
Lemma standstill_power rt (v : Q) (m : ElectricMotor.t) w :
  v == 0 ->
  ElectricMotor.current_power_kw
    (state (ElectricMotor.apply_load rt (v / 0.35 * 10 * (60 / (2 * Py.np_pi))) m w)) <= 0.
Proof.
  intros Hv. rewrite apply_load_power_value.
  eapply Qle_trans; [apply min_le_l |].
  assert (Hrpm : v / 0.35 * 10 * (60 / (2 * Py.np_pi)) * 2 * Py.np_pi / 60 == 0).
  { rewrite Hv. reflexivity. }
  rewrite Hrpm.
  match goal with
  | |- ?l <= 0 => assert (H0 : l == 0) by (unfold Qdiv; ring); rewrite H0
  end.
  apply Qle_refl.
Qed.

Lemma step_keeps_log throttle brake dt : keeps telemetry_log (step throttle brake dt).
Proof. unfold step. auto 20 with keeps. Qed.

Lemma hoare_update_or_untouched torque dt gear (d0 : VehicleDynamics.t) :
  hoare (fun d => d = d0) (VehicleDynamics.update torque dt gear)
        (fun _ _ => True) (fun _ d => d = d0).
Proof.
  intros d w ->.
  destruct (UpdateFacts.update_cases torque dt gear d0 w)
    as [(_ & ->) | [(_ & _ & ->) | (_ & _ & -> & _)]]; cbn; auto.
Qed.

Lemma step_battery_at_standstill throttle brake dt (self : t) :
  VehicleDynamics.velocity_mps (dynamics self) == 0 ->
  hoare (fun s => s = self) (step throttle brake dt)
        (fun _ s => battery s = battery self) (fun _ s => battery s = battery self).
Proof.
  intros Hv. unfold step.
  hoare_seq (fun _ s => s = self) as max_torque. { apply hoare_gets. auto. }
  hoare_seq (fun self0 s => s = self /\ self0 = self). { apply hoare_get. auto. }
  apply hoare_assume. intros ->.
  hoare_seq (fun _ s => battery s = battery self
                        /\ ElectricMotor.current_power_kw (motor s) <= 0).
  { apply hoare_zoom. intros s -> m w ->.
    pose proof (standstill_power
                  (max_torque * (throttle / 100)) _ (motor self) w Hv) as Hp.
    destruct (result _); cbn [battery motor over view motor_]; auto. }
  hoare_seq (fun self1 s => battery s = battery self
                            /\ ElectricMotor.current_power_kw (motor self1) <= 0).
  { apply hoare_get. auto. }
  apply hoare_assume. intros Hp. apply Qltb_false in Hp. rewrite Hp.
  apply (hoare_keeps battery _ (fun b => b = battery self)).
  auto 20 with keeps.
Qed.

Lemma step_time throttle brake dt (self : t) :
  hoare (fun s => s = self) (step throttle brake dt)
        (fun _ s => simulation_time s = simulation_time self + dt)
        (fun _ s =>
           simulation_time s = simulation_time self
           /\ VehicleDynamics.velocity_mps (dynamics s)
              = VehicleDynamics.velocity_mps (dynamics self)
           /\ VehicleDynamics.position_m (dynamics s)
              = VehicleDynamics.position_m (dynamics self)).
Proof.
  pose (R0 := fun s =>
    simulation_time s = simulation_time self
    /\ VehicleDynamics.velocity_mps (dynamics s)
       = VehicleDynamics.velocity_mps (dynamics self)
    /\ VehicleDynamics.position_m (dynamics s)
       = VehicleDynamics.position_m (dynamics self)).
  assert (Hkeep : forall A (m : M t A),
    keeps (fun s => (simulation_time s,
                     VehicleDynamics.velocity_mps (dynamics s),
                     VehicleDynamics.position_m (dynamics s))) m ->
    hoare R0 m (fun _ => R0) (fun _ => R0)).
  { intros A m Hm.
    eapply hoare_weaken;
      [apply (hoare_keeps _ m
                (fun x => fst (fst x) = simulation_time self
                          /\ snd (fst x) = VehicleDynamics.velocity_mps (dynamics self)
                          /\ snd x = VehicleDynamics.position_m (dynamics self)) Hm)
      | | |]; cbn; auto. }
  unfold step.
  hoare_seq (fun _ => R0). { apply hoare_gets. intros s ->. unfold R0. auto. }
  hoare_seq (fun _ => R0). { apply hoare_get. auto. }
  hoare_seq (fun _ => R0). { apply Hkeep. auto with keeps. }
  hoare_seq (fun _ => R0). { apply hoare_get. auto. }
  hoare_seq (fun _ => R0). { apply Hkeep. auto with keeps. }
  hoare_seq (fun _ => R0). { intros s w Hs. cbn. exact Hs. }
  hoare_seq (fun _ => R0). { apply hoare_get. auto. }
  hoare_seq (fun _ s => simulation_time s = simulation_time self).
  { apply hoare_zoom. intros s Hs.
    eapply hoare_weaken; [apply (hoare_update_or_untouched _ _ _ (dynamics s)) | | |];
      cbn; auto.
    - intros _ d _. apply Hs.
    - intros _ d ->. destruct s. exact Hs. }
  apply hoare_assign. cbn. intros s ->. reflexivity.
Qed.

End StepFrame.

(** X13: a step from standstill never draws from the battery, whatever the
    throttle: the motor turns at 0 rpm, its power is 0, and [discharge] is
    not called; the pack and its sensors are as before the step. *)
Theorem step_from_standstill_keeps_battery
    (throttle brake dt : Q) (self : DigitalTwin.t) (w : World) :
  VehicleDynamics.velocity_mps (DigitalTwin.dynamics self) == 0 ->
  DigitalTwin.battery (state (DigitalTwin.step throttle brake dt self w))
  = DigitalTwin.battery self.
Proof.
  intros Hv.
  pose proof (StepFrame.step_battery_at_standstill throttle brake dt self Hv self w eq_refl)
    as H.
  destruct (result _); exact H.
Qed.

Lemma step_from_standstill_keeps_battery_witness :
  DigitalTwin.battery (state (DigitalTwin.step 100 0 0.1 example_twin example_world))
  = DigitalTwin.battery example_twin.
Proof.
  apply (step_from_standstill_keeps_battery 100 0 0.1 example_twin example_world).
  reflexivity.
Defined.

(** X14: [step] never touches the telemetry log.  When it returns, the
    simulation time has grown by the time step; when it raises
    ([ZeroDivisionError] or [OverflowError], nothing else) the simulation
    time, the velocity and the position are those before the call. *)
Theorem step_time_and_log (throttle brake dt : Q) (self : DigitalTwin.t) (w : World) :
  let o := DigitalTwin.step throttle brake dt self w in
  DigitalTwin.telemetry_log (state o) = DigitalTwin.telemetry_log self
  /\ (result o = inr tt ->
      DigitalTwin.simulation_time (state o) = DigitalTwin.simulation_time self + dt)
  /\ (forall e, result o = inl e ->
      (e = ZeroDivisionError \/ e = OverflowError)
      /\ DigitalTwin.simulation_time (state o) = DigitalTwin.simulation_time self
      /\ VehicleDynamics.velocity_mps (DigitalTwin.dynamics (state o))
         = VehicleDynamics.velocity_mps (DigitalTwin.dynamics self)
      /\ VehicleDynamics.position_m (DigitalTwin.dynamics (state o))
         = VehicleDynamics.position_m (DigitalTwin.dynamics self)).
Proof.
  cbv zeta. split; [apply StepFrame.step_keeps_log |].
  pose proof (StepFrame.step_time throttle brake dt self self w eq_refl) as H.
  split.
  - intros Hr. rewrite Hr in H. exact H.
  - intros e He. rewrite He in H. split; [| exact H].
    exact (raises_only_inl arithmetic_error _ _ _ _
             (Exceptions.step arithmetic_error Exceptions.division_is_arithmetic
                Exceptions.overflow_is_arithmetic throttle brake dt) He).
Qed.

Lemma step_time_and_log_witness :
  DigitalTwin.simulation_time (state (DigitalTwin.step 40 0 0.1 example_twin example_world))
  = DigitalTwin.simulation_time example_twin + 0.1.
Proof.
  apply (step_time_and_log 40 0 0.1 example_twin example_world).
  vm_compute. reflexivity.
Defined.

Lemma get_telemetry_raises (tw : DigitalTwin.t) (w : World) :
  BatteryPack.capacity_kwh (DigitalTwin.battery tw) == 0 ->
  DigitalTwin.get_telemetry tw w = (inl ZeroDivisionError, tw, tick w).
Proof.
  intros Hcap. destruct tw as [cfg m b d time log]. cbn in Hcap.
  assert (Hb : forall w0, BatteryPack.get_status b w0 = (inl ZeroDivisionError, b, w0)).
  { intros w0. unfold BatteryPack.get_status, BatteryPack.get_soc, bind, get, div.
    now rewrite (Qeq_eq_bool _ _ Hcap). }
  unfold DigitalTwin.get_telemetry, bind, zoom, now, get.
  cbn -[BatteryPack.get_status isoformat Py.round2]. rewrite Hb. reflexivity.
Qed.

(** X15: [log_telemetry] only appends: when the battery capacity is not
    zero it returns and the log is the old log followed by one snapshot,
    taken at the (rounded) current simulation time; when the capacity is
    zero it raises [ZeroDivisionError] and the log is unchanged.  In both
    cases nothing else of the twin is written. *)
Theorem log_telemetry_appends (self : DigitalTwin.t) (w : World) :
  let o := DigitalTwin.log_telemetry self w in
  (~ BatteryPack.capacity_kwh (DigitalTwin.battery self) == 0 ->
   result o = inr tt
   /\ exists snapshot,
        state o = DigitalTwin.with_telemetry_log
                    (DigitalTwin.telemetry_log self ++ [snapshot]) self
        /\ DigitalTwin.snapshot_simulation_time snapshot
           = Py.round2 (DigitalTwin.simulation_time self)
        /\ DigitalTwin.snapshot_timestamp snapshot = isoformat (clock w (ticks w)))
  /\ (BatteryPack.capacity_kwh (DigitalTwin.battery self) == 0 ->
      result o = inl ZeroDivisionError /\ state o = self).
Proof.
  cbv zeta. split.
  - intros Hcap.
    destruct (Logging.battery_status_returns (DigitalTwin.battery self) (tick w) Hcap)
      as [status Hb].
    destruct self as [cfg m b d time log]. cbn [DigitalTwin.battery] in Hb.
    unfold DigitalTwin.log_telemetry, DigitalTwin.get_telemetry, bind, zoom, now, get, assign,
      modify.
    cbn -[BatteryPack.get_status isoformat Py.round2]. rewrite Hb.
    cbn -[isoformat Py.round2]. split; [reflexivity |].
    eexists. split; [reflexivity |]. split; reflexivity.
  - intros Hcap. unfold DigitalTwin.log_telemetry.
    rewrite (bind_raises _ _ _ _ _ _ _ (get_telemetry_raises self w Hcap)).
    split; reflexivity.
Qed.

Lemma log_telemetry_appends_witness :
  exists snapshot,
    DigitalTwin.telemetry_log (state (DigitalTwin.log_telemetry example_twin example_world))
    = [snapshot].
Proof.
  assert (H : ~ BatteryPack.capacity_kwh (DigitalTwin.battery example_twin) == 0)
    by (vm_compute; discriminate).
  destruct (proj1 (log_telemetry_appends example_twin example_world) H)
    as (_ & snapshot & Hs & _).
  exists snapshot. rewrite Hs. reflexivity.
Defined.

(** ** The other driving scenarios *)

Ltac split_phases :=
  repeat match goal with
         | |- context [Py.Qltb ?a ?b] => destruct (Qltb_cases a b) as [[-> ?] | [-> ?]]
         end.

Lemma max_compat (a b a' b' : Q) : a == a' -> b == b' -> Py.max a b == Py.max a' b'.
Proof.
  intros Ha Hb. unfold Py.max.
  destruct (Qltb_cases a b) as [[-> H] | [-> H]];
    destruct (Qltb_cases a' b') as [[-> H'] | [-> H']]; lra.
Qed.

(** X16: the Aggressive scenario's throttle and brake lie in [[0, 100]]
    at every time, and depend on the time only through its phase
    [time % 30]; the controls repeat after 30 s at every whole-number time
    [0 <= t <= 2^53 - 30], where the sum [t + 30] is exact. *)
Theorem aggressive_periodic_and_bounded :
  let f := aggressive_control_inputs in
  (forall t, 0 <= fst (f t) <= 100 /\ 0 <= snd (f t) <= 100)
  /\ (forall t t', Py.mod_ t 30 == Py.mod_ t' 30 ->
      fst (f t) == fst (f t') /\ snd (f t) == snd (f t'))
  /\ (forall n : Z, (0 <= n <= 2 ^ 53 - 30)%Z ->
      fst (f (inject_Z n)) == fst (f (inject_Z n + 30))
      /\ snd (f (inject_Z n)) == snd (f (inject_Z n + 30))).
Proof.
  cbv zeta.
  assert (Hphase : forall t t', Py.mod_ t 30 == Py.mod_ t' 30 ->
            fst (aggressive_control_inputs t) == fst (aggressive_control_inputs t')
            /\ snd (aggressive_control_inputs t) == snd (aggressive_control_inputs t')).
  { intros t t' H. unfold aggressive_control_inputs. cbv zeta.
    set (m1 := Py.mod_ t 30) in *. set (m2 := Py.mod_ t' 30) in *.
    split_phases; cbn; lra. }
  split_conj.
  - intros t. unfold aggressive_control_inputs. cbv zeta. split_phases; cbn; lra.
  - exact Hphase.
  - intros n _. apply Hphase. symmetry. now apply mod_period.
Qed.

Lemma aggressive_periodic_and_bounded_witness :
  fst (aggressive_control_inputs 7) == fst (aggressive_control_inputs (7 + 30))
  /\ snd (aggressive_control_inputs 47.5) == snd (aggressive_control_inputs 17.5).
Proof.
  destruct aggressive_periodic_and_bounded as (_ & Hphase & Hwhole).
  assert (H1 : (0 <= 7 <= 2 ^ 53 - 30)%Z) by (split; vm_compute; discriminate).
  assert (H2 : Py.mod_ 47.5 30 == Py.mod_ 17.5 30) by reflexivity.
  split; [exact (proj1 (Hwhole 7%Z H1)) | exact (proj2 (Hphase 47.5 17.5 H2))].
Defined.

(** X17: the Eco scenario's throttle lies in [[0, 40]] and its brake in
    [[0, 10]] at every time, and both depend on the time only through its
    phase [time % 90]; the controls repeat after 90 s at every whole-number
    time [0 <= t <= 2^53 - 90], where the sum [t + 90] is exact. *)
Theorem eco_periodic_and_bounded :
  let f := eco_control_inputs in
  (forall t, 0 <= fst (f t) <= 40 /\ 0 <= snd (f t) <= 10)
  /\ (forall t t', Py.mod_ t 90 == Py.mod_ t' 90 ->
      fst (f t) == fst (f t') /\ snd (f t) == snd (f t'))
  /\ (forall n : Z, (0 <= n <= 2 ^ 53 - 90)%Z ->
      fst (f (inject_Z n)) == fst (f (inject_Z n + 90))
      /\ snd (f (inject_Z n)) == snd (f (inject_Z n + 90))).
Proof.
  cbv zeta.
  assert (H90 : 0 < 90) by reflexivity.
  assert (Hphase : forall t t', Py.mod_ t 90 == Py.mod_ t' 90 ->
            fst (eco_control_inputs t) == fst (eco_control_inputs t')
            /\ snd (eco_control_inputs t) == snd (eco_control_inputs t')).
  { intros t t' H. unfold eco_control_inputs. cbv zeta.
    set (m1 := Py.mod_ t 90) in *. set (m2 := Py.mod_ t' 90) in *.
    split_phases; cbn; try lra.
    - split; [apply min_compat; lra | reflexivity].
    - split; [apply max_compat; lra | reflexivity]. }
  split_conj.
  - intros t. pose proof (mod_bounds t 90 H90) as Hb.
    unfold eco_control_inputs. cbv zeta. set (m := Py.mod_ t 90) in *.
    split_phases; cbn; try lra.
    + pose proof (min_le_r (20 + m * 0.8) 40).
      assert (0 <= Py.min (20 + m * 0.8) 40) by (apply min_glb; lra).
      split_conj; lra.
    + pose proof (max_ge_r (35 - (m - 60) * 1.2) 0).
      assert (Py.max (35 - (m - 60) * 1.2) 0 <= 40) by (apply max_lub; lra).
      split_conj; lra.
  - exact Hphase.
  - intros n _. apply Hphase. symmetry. now apply mod_period.
Qed.

Lemma eco_periodic_and_bounded_witness :
  fst (eco_control_inputs 12) == fst (eco_control_inputs (12 + 90))
  /\ snd (eco_control_inputs 100.5) == snd (eco_control_inputs 10.5).
Proof.
  destruct eco_periodic_and_bounded as (_ & Hphase & Hwhole).
  assert (H1 : (0 <= 12 <= 2 ^ 53 - 90)%Z) by (split; vm_compute; discriminate).
  assert (H2 : Py.mod_ 100.5 90 == Py.mod_ 10.5 90) by reflexivity.
  split; [exact (proj1 (Hwhole 12%Z H1)) | exact (proj2 (Hphase 100.5 10.5 H2))].
Defined.

(** X18: for a time that is not negative and a sine between -1 and 1, the
    Highway scenario's throttle lies in [[30, 100]] and its brake in
    [[0, 20]]. *)
Theorem highway_bounded (np_sin : Q -> Q) (time : Q) :
  (forall x, -1 <= np_sin x <= 1) ->
  0 <= time ->
  let highway := new_scenario HighwayDrivingScenario in
  30 <= fst (get_control_inputs np_sin highway time) <= 100
  /\ 0 <= snd (get_control_inputs np_sin highway time) <= 20.
Proof.
  intros Hsin Ht. cbn -[Py.Qltb Py.min]. unfold highway_control_inputs.
  cbn -[Py.Qltb Py.min]. pose proof (Hsin (time * 0.1)) as Hs.
  split_phases; cbn -[Py.min]; try lra.
  pose proof (min_le_r (70 + time) 100).
  assert (30 <= Py.min (70 + time) 100) by (apply min_glb; lra). lra.
Qed.

Lemma highway_bounded_witness :
  30 <= fst (get_control_inputs (fun _ => 0) (new_scenario HighwayDrivingScenario) 600) <= 100.
Proof.
  apply (highway_bounded (fun _ => 0) 600).
  - intros x. split; vm_compute; discriminate.
  - vm_compute. discriminate.
Defined.

(** X19: the Urban and the Aggressive scenario never ask for throttle and
    brake together: at every time one of the two is 0. *)
Theorem urban_aggressive_throttle_or_brake (t : Q) :
  (fst (urban_control_inputs t) = 0 \/ snd (urban_control_inputs t) = 0)
  /\ (fst (aggressive_control_inputs t) = 0 \/ snd (aggressive_control_inputs t) = 0).
Proof.
  unfold urban_control_inputs, aggressive_control_inputs. cbv zeta.
  split; split_phases; cbn; auto.
Qed.

(** ** SimulationEngine: time step zero and the number of snapshots *)

(** X20: with a time step of zero, [run_scenario] of a registered scenario
    raises [ZeroDivisionError] when it computes the number of steps: no step
    is executed, and the engine, its twin and the environment are as before. *)
Theorem run_scenario_zero_time_step
    (np_sin : Q -> Q) (name : string) (log_interval : Z)
    (twin : DigitalTwin.t) (time_step : Q) (w : World) :
  In name ["urban"; "highway"; "aggressive"; "eco"]%string ->
  time_step == 0 ->
  SimulationEngine.run_scenario np_sin name log_interval
    (SimulationEngine.init twin time_step) w
  = (inl ZeroDivisionError, SimulationEngine.init twin time_step, w).
Proof.
  intros Hin Hz.
  destruct (UnknownScenario.lookup_registered name twin time_step Hin)
    as [scenario Hlookup].
  unfold SimulationEngine.run_scenario. unfold bind at 1, get at 1.
  rewrite Hlookup. unfold bind, div.
  cbn [SimulationEngine.time_step SimulationEngine.init].
  now rewrite (Qeq_eq_bool _ _ Hz).
Qed.

Lemma run_scenario_zero_time_step_witness :
  result (SimulationEngine.run_scenario (fun _ => 0) "eco" 10
            (SimulationEngine.init example_twin 0) example_world)
  = inl ZeroDivisionError.
Proof.
  rewrite (run_scenario_zero_time_step (fun _ => 0) "eco" 10 example_twin 0 example_world).
  - reflexivity.
  - cbn. tauto.
  - reflexivity.
Defined.

Module LogCount.
Import SimulationEngine.

Lemma succ_div_mod (L k : nat) :
  (1 <= L)%nat ->
  (S (k mod L) = L /\ S k / L = S (k / L) /\ S k mod L = 0)%nat
  \/ (S (k mod L) < L /\ S k / L = k / L /\ S k mod L = S (k mod L))%nat.
Proof.
  intros HL.
  pose proof (Nat.div_mod_eq k L) as Hk.
  pose proof (Nat.mod_upper_bound k L ltac:(lia)) as Hr.
  destruct (Nat.eq_dec (S (k mod L)) L) as [HL' | HL']; [left | right].
  - split; [exact HL' |]. split.
    + symmetry. apply (Nat.div_unique _ L _ 0); nia.
    + symmetry. apply (Nat.mod_unique _ L (S (k / L)) 0); nia.
  - split; [lia |]. split.
    + symmetry. apply (Nat.div_unique _ L _ (S (k mod L))); nia.
    + symmetry. apply (Nat.mod_unique _ L (k / L) (S (k mod L))); nia.
Qed.

Lemma get_telemetry_keeps : keeps DigitalTwin.telemetry_log DigitalTwin.get_telemetry.
Proof. unfold DigitalTwin.get_telemetry. auto 20 with keeps. Qed.

(** A call of [log_telemetry] that returns has added one snapshot. *)
Lemma log_telemetry_length (n : nat) :
  hoare (fun tw => List.length (DigitalTwin.telemetry_log tw) = n)
        DigitalTwin.log_telemetry
        (fun _ tw => List.length (DigitalTwin.telemetry_log tw) = S n)
        (fun _ _ => True).
Proof.
  unfold DigitalTwin.log_telemetry.
  hoare_seq (fun _ tw => List.length (DigitalTwin.telemetry_log tw) = n).
  { eapply hoare_weaken;
      [apply (hoare_keeps DigitalTwin.telemetry_log _ (fun l => List.length l = n)) | | |];
      cbn; auto.
    apply get_telemetry_keeps. }
  apply hoare_assign. cbn. intros s Hs. rewrite length_app, Hs. cbn. lia.
Qed.

Lemma body_count np_sin scenario (log_interval : Z) (n0 k : nat) (c step : Z) :
  (1 <= log_interval)%Z ->
  hoare (log_count_invariant (Z.to_nat log_interval) n0 k c)
        (run_scenario_body np_sin scenario log_interval c step)
        (fun c' => log_count_invariant (Z.to_nat log_interval) n0 (S k) c')
        (fun _ _ => True).
Proof.
  intros HL. set (L := Z.to_nat log_interval).
  assert (HL' : (1 <= L)%nat) by (unfold L; lia).
  assert (HLZ : log_interval = Z.of_nat L) by (unfold L; lia).
  pose (P := fun s : t =>
    c = Z.of_nat (k mod L)
    /\ List.length (DigitalTwin.telemetry_log (digital_twin s)) = (n0 + k / L)%nat).
  unfold run_scenario_body.
  hoare_seq (fun _ => P) as self. { apply hoare_get. auto. }
  cbv zeta.
  destruct (get_control_inputs np_sin scenario (inject_Z step * time_step self))
    as [throttle brake].
  hoare_seq (fun _ => P).
  { eapply hoare_weaken;
      [apply (hoare_keeps (fun s => DigitalTwin.telemetry_log (digital_twin s)) _
                (fun l => c = Z.of_nat (k mod L) /\ List.length l = (n0 + k / L)%nat))
      | | |]; cbn; auto.
    apply (keeps_under_zoom digital_twin_ _ DigitalTwin.telemetry_log);
      [reflexivity | reflexivity | apply StepFrame.step_keeps_log]. }
  pose proof (Nat.mod_upper_bound k L ltac:(lia)) as Hr.
  hoare_seq (fun c' s => log_count_invariant L n0 (S k) c' s) as c'.
  { apply hoare_if; intros Hc.
    - apply Z.leb_le in Hc.
      hoare_seq (fun _ s =>
        S (k mod L) = L
        /\ List.length (DigitalTwin.telemetry_log (digital_twin s)) = S (n0 + k / L)).
      + apply hoare_zoom. intros s [Hcount Hlen].
        eapply hoare_weaken; [apply (log_telemetry_length (n0 + k / L)) | | |]; cbn; auto.
        * intros tw ->. exact Hlen.
        * intros _ tw Htw. split; [lia | exact Htw].
      + apply hoare_ret. intros s [H1 H2].
        destruct (succ_div_mod L k HL') as [(_ & Hd & Hm) | (Hlt & _)]; [| lia].
        unfold log_count_invariant. rewrite Hd, Hm. split; [reflexivity | lia].
    - apply Z.leb_gt in Hc. apply hoare_ret. intros s [H1 H2].
      destruct (succ_div_mod L k HL') as [(H9 & _) | (_ & Hd & Hm)]; [lia |].
      unfold log_count_invariant. rewrite Hd, Hm. split; [lia | exact H2]. }
  hoare_seq (fun _ s => log_count_invariant L n0 (S k) c' s).
  { apply hoare_if; intros _; [| apply hoare_ret; auto].
    hoare_seq (fun _ s => log_count_invariant L n0 (S k) c' s); [| apply hoare_ret; auto].
    eapply hoare_weaken;
      [apply (hoare_keeps (fun s => DigitalTwin.telemetry_log (digital_twin s)) _
                (fun l => c' = Z.of_nat (S k mod L)
                          /\ List.length l = (n0 + S k / L)%nat))
      | | |]; cbn; auto.
    apply (keeps_under_zoom digital_twin_ _ DigitalTwin.telemetry_log);
      [reflexivity | reflexivity | apply get_telemetry_keeps]. }
  apply hoare_ret. auto.
Qed.

Lemma loop_count np_sin scenario (log_interval : Z) (n0 : nat) (items : list Z) :
  (1 <= log_interval)%Z ->
  forall (k : nat) (c : Z),
    hoare (log_count_invariant (Z.to_nat log_interval) n0 k c)
          (for_fold (run_scenario_body np_sin scenario log_interval) items c)
          (fun c' => log_count_invariant (Z.to_nat log_interval) n0
                       (k + List.length items) c')
          (fun _ _ => True).
Proof.
  intros HL. induction items as [| step rest IH]; intros k c; cbn [for_fold List.length].
  - apply hoare_ret. intros s Hs. now rewrite Nat.add_0_r.
  - apply hoare_bind
      with (R := fun c' => log_count_invariant (Z.to_nat log_interval) n0 (S k) c').
    + now apply body_count.
    + intros c'. replace (k + S (List.length rest))%nat with (S k + List.length rest)%nat
        by lia.
      apply IH.
Qed.

Lemma run_count np_sin scenario (log_interval : Z) (self : t) :
  (1 <= log_interval)%Z ->
  hoare (fun s => s = self)
        (ratio <- div (duration_s scenario) (time_step self) ;;
         steps <- int_ ratio ;;
         for_fold (run_scenario_body np_sin scenario log_interval) (range steps) 0%Z ;;
         _print_summary ;;
         ret tt)
        (fun _ s =>
           List.length (DigitalTwin.telemetry_log (digital_twin s))
           = (List.length (DigitalTwin.telemetry_log (digital_twin self))
              + Z.to_nat (Py.int (duration_s scenario / time_step self))
                / Z.to_nat log_interval)%nat)
        (fun _ _ => True).
Proof.
  intros HL.
  set (n0 := List.length (DigitalTwin.telemetry_log (digital_twin self))).
  hoare_seq (fun ratio s =>
    log_count_invariant (Z.to_nat log_interval) n0 0 0 s
    /\ ratio = duration_s scenario / time_step self).
  { apply hoare_div; [| auto]. intros s -> _. split; [| reflexivity].
    unfold log_count_invariant. rewrite Nat.Div0.mod_0_l, Nat.Div0.div_0_l.
    split; [reflexivity | unfold n0; lia]. }
  apply hoare_assume. intros ->.
  hoare_seq (fun steps s =>
    log_count_invariant (Z.to_nat log_interval) n0 0 0 s
    /\ steps = Py.int (duration_s scenario / time_step self)).
  { apply hoare_int; [| auto]. intros s Hs _. split; [exact Hs | reflexivity]. }
  apply hoare_assume. intros ->.
  set (N := Z.to_nat (Py.int (duration_s scenario / time_step self))).
  hoare_seq (fun c s => log_count_invariant (Z.to_nat log_interval) n0 N c s).
  { pose proof (loop_count np_sin scenario log_interval n0
                  (range (Py.int (duration_s scenario / time_step self))) HL 0 0) as H.
    unfold range in H at 2. rewrite length_map, length_seq in H. exact H. }
  hoare_seq (fun _ s =>
    List.length (DigitalTwin.telemetry_log (digital_twin s))
    = (n0 + N / Z.to_nat log_interval)%nat).
  { intros s w0 [_ Hs]. destruct (Logging.print_summary_returns s w0) as [summary ->].
    exact Hs. }
  apply hoare_ret. auto.
Qed.

End LogCount.

(** X21: when [run_scenario] with a log interval of at least 1 returns, it
    has appended one snapshot for every [log_interval] steps: the log is
    longer by [int(duration_s / time_step) // log_interval] (by nothing
    when that number of steps is negative). *)
Theorem run_scenario_log_count
    (np_sin : Q -> Q) (name : string) (log_interval : Z)
    (twin : DigitalTwin.t) (time_step : Q) (w : World) (scenario : DrivingScenario) :
  (1 <= log_interval)%Z ->
  SimulationEngine.lookup name
    (SimulationEngine.scenarios (SimulationEngine.init twin time_step)) = Some scenario ->
  let o := SimulationEngine.run_scenario np_sin name log_interval
             (SimulationEngine.init twin time_step) w in
  result o = inr tt ->
  List.length (DigitalTwin.telemetry_log (SimulationEngine.digital_twin (state o)))
  = (List.length (DigitalTwin.telemetry_log twin)
     + Z.to_nat (Py.int (duration_s scenario / time_step)) / Z.to_nat log_interval)%nat.
Proof.
  intros HL Hlookup. cbv zeta. intros Hr.
  pose proof (LogCount.run_count np_sin scenario log_interval
                (SimulationEngine.init twin time_step) HL _ w eq_refl) as H.
  match type of H with
  | match result ?x with _ => _ end =>
      assert (Heq : SimulationEngine.run_scenario np_sin name log_interval
                      (SimulationEngine.init twin time_step) w = x)
  end.
  { unfold SimulationEngine.run_scenario. unfold bind at 1, get at 1.
    now rewrite Hlookup. }
  rewrite Heq in Hr |- *. rewrite Hr in H. exact H.
Qed.

Lemma run_scenario_log_count_witness :
  List.length
    (DigitalTwin.telemetry_log
       (SimulationEngine.digital_twin
          (state (SimulationEngine.run_scenario (fun _ => 0) "urban" 2
                    (SimulationEngine.init example_twin 200) example_world))))
  = 1%nat.
Proof.
  assert (H1 : (1 <= 2)%Z) by lia.
  assert (H2 : result (SimulationEngine.run_scenario (fun _ => 0) "urban" 2
                         (SimulationEngine.init example_twin 200) example_world)
               = inr tt) by (vm_compute; reflexivity).
  rewrite (run_scenario_log_count (fun _ => 0) "urban" 2 example_twin 200 example_world
             (new_scenario UrbanDrivingScenario) H1 eq_refl H2).
  reflexivity.
Defined.

(** ** SimulationEngine.run_custom_scenario *)

Module CustomScenario.
Import SimulationEngine.

Lemma hoare_trivial {St A} (m : M St A) :
  hoare (fun _ => True) m (fun _ _ => True) (fun _ _ => True).
Proof. intros s w _. destruct (result (m s w)); exact I. Qed.

(** With a brake profile that ends inside the remaining steps, the loop
    cannot complete: if no step raises, the index error comes when [step]
    reaches the length of the brake profile. *)
Lemma short_brake_profile (throttle_profile brake_profile : list Q) (n : nat) :
  forall a : nat,
    (a <= List.length brake_profile < a + n)%nat ->
    (a + n <= List.length throttle_profile)%nat ->
    hoare (fun _ => True)
          (run_custom_steps (seq a n) throttle_profile brake_profile)
          (fun r _ => r = IndexError (List.length brake_profile))
          (fun _ _ => True).
Proof.
  induction n as [| n IH]; intros a Ha Ht; [lia |].
  cbn [seq run_custom_steps].
  destruct (nth_error throttle_profile a) as [throttle |] eqn:Et.
  2: { apply nth_error_None in Et. lia. }
  destruct (nth_error brake_profile a) as [brake |] eqn:Eb.
  - assert (Hlt : (a < List.length brake_profile)%nat).
    { apply nth_error_Some. rewrite Eb. discriminate. }
    hoare_seq (fun _ _ => True) as self. { apply hoare_trivial. }
    hoare_seq (fun _ _ => True). { apply hoare_trivial. }
    hoare_seq (fun _ _ => True). { apply hoare_trivial. }
    apply IH; lia.
  - apply nth_error_None in Eb. apply hoare_ret. intros _ _. f_equal. lia.
Qed.

(** One step of a custom run on a twin that is ready. *)
Lemma custom_step {A} throttle brake P charge (k : nat) (rest : M t A)
    (Q : A -> t -> Prop) :
  (Z.of_nat k < 6000)%Z -> 0 <= P -> 6000 * step_draw P < charge -> 0 <= brake ->
  hoare (custom_run_invariant P charge (S k)) rest Q (fun _ _ => False) ->
  hoare (custom_run_invariant P charge k)
        (self <- get ;;
         zoom digital_twin_ (DigitalTwin.step throttle brake (time_step self)) ;;
         (if Nat.eqb (k mod 10) 0
          then zoom digital_twin_ DigitalTwin.log_telemetry
          else ret tt) ;;
         rest)
        Q (fun _ _ => False).
Proof.
  intros Hk HP Hcharge Hbrake Hrest.
  destruct (Loop.bounds_during_run P charge k Hk HP Hcharge)
    as (Hfloor & Hvmax & Hfloor' & Hvmax').
  pose proof (Loop.inject_succ k) as Hsucc.
  hoare_seq (fun self s => custom_run_invariant P charge k s /\ time_step self = 0.1).
  { apply hoare_get. unfold custom_run_invariant. intuition. }
  apply hoare_assume. intros Hts. rewrite Hts.
  hoare_seq (fun _ s =>
    time_step s = 0.1
    /\ twin_ready P (charge - inject_Z (Z.of_nat (S k)) * step_draw P)
                    (inject_Z (Z.of_nat (S k)) * step_gain) (digital_twin s)
    /\ DigitalTwin.simulation_time (digital_twin s) == inject_Z (Z.of_nat (S k)) * 0.1
    /\ List.length (DigitalTwin.telemetry_log (digital_twin s)) = ((k + 9) / 10)%nat).
  { apply hoare_zoom. intros s (H1 & H2 & H3 & H4).
    eapply hoare_weaken;
      [apply (Stepping.step_ready throttle brake P
                (charge - inject_Z (Z.of_nat k) * step_draw P)
                (inject_Z (Z.of_nat k) * step_gain)
                (inject_Z (Z.of_nat k) * 0.1)
                (DigitalTwin.telemetry_log (digital_twin s)));
       assumption | | |].
    - cbv beta. intros tw ->. auto.
    - cbn [over view digital_twin_ digital_twin time_step].
      intros _ tw (Hr & Ht & Hl). rewrite Hl.
      split_conj; try assumption; [| lra].
      eapply Stepping.twin_ready_weaken; [| | exact Hr]; assumption.
    - contradiction. }
  pose proof (Nat.div_mod_eq k 10) as Hdm.
  pose proof (Nat.mod_upper_bound k 10 ltac:(discriminate)) as Hr.
  hoare_seq (fun _ => custom_run_invariant P charge (S k)); [| exact Hrest].
  apply hoare_if; intros Hc.
  - apply Nat.eqb_eq in Hc.
    intros s w (H1 & H2 & H3 & H4).
    destruct (Logging.log_telemetry_returns (digital_twin s) w
                (Loop.ready_capacity _ _ _ _ H2))
      as (snapshot & Hlog & _).
    unfold zoom. cbn [view digital_twin_]. rewrite Hlog.
    cbn -[Z.of_nat Nat.div Nat.modulo].
    unfold custom_run_invariant. cbn -[Z.of_nat Nat.div Nat.modulo].
    split_conj; try assumption.
    assert (E1 : ((k + 9) / 10 = k / 10)%nat)
      by (symmetry; apply (Nat.div_unique _ 10 _ 9); lia).
    assert (E2 : ((S k + 9) / 10 = S (k / 10))%nat)
      by (symmetry; apply (Nat.div_unique _ 10 _ 0); lia).
    change (S (k + 9)) with (S k + 9)%nat.
    rewrite length_app, H4, E1, E2. cbn [List.length]. lia.
  - apply Nat.eqb_neq in Hc. apply hoare_ret. intros s (H1 & H2 & H3 & H4).
    unfold custom_run_invariant. split_conj; try assumption.
    assert (E1 : ((k + 9) / 10 = S (k / 10))%nat)
      by (symmetry; apply (Nat.div_unique _ 10 _ (k mod 10 - 1)); lia).
    assert (E2 : ((S k + 9) / 10 = S (k / 10))%nat)
      by (symmetry; apply (Nat.div_unique _ 10 _ (k mod 10)); lia).
    rewrite H4, E1, E2. reflexivity.
Qed.

Lemma custom_loop (throttle_profile brake_profile : list Q) P charge (n : nat) :
  0 <= P -> 6000 * step_draw P < charge ->
  Forall percent brake_profile ->
  forall a : nat,
    (a + n <= List.length throttle_profile)%nat ->
    (a + n <= List.length brake_profile)%nat ->
    (Z.of_nat (a + n) <= 6000)%Z ->
    hoare (custom_run_invariant P charge a)
          (run_custom_steps (seq a n) throttle_profile brake_profile)
          (fun r s => r = Completed /\ custom_run_invariant P charge (a + n) s)
          (fun _ _ => False).
Proof.
  intros HP Hcharge Hbrakes.
  induction n as [| n IH]; intros a Ht Hb Hn; cbn [seq run_custom_steps].
  - apply hoare_ret. intros s Hs. rewrite Nat.add_0_r. auto.
  - destruct (nth_error throttle_profile a) as [throttle |] eqn:Et.
    2: { apply nth_error_None in Et. lia. }
    destruct (nth_error brake_profile a) as [brake |] eqn:Eb.
    2: { apply nth_error_None in Eb. lia. }
    assert (Hbrake : 0 <= brake).
    { apply nth_error_In in Eb. rewrite Forall_forall in Hbrakes.
      apply (Hbrakes brake Eb). }
    replace (a + S n)%nat with (S a + n)%nat by lia.
    apply custom_step; [lia | assumption | assumption | assumption |]. apply IH; lia.
Qed.

End CustomScenario.

(** X22: when the brake profile is shorter than the throttle profile,
    [run_custom_scenario] never completes: unless a step raises first, it
    ends with an [IndexError] on the brake profile, when [step] reaches the
    length of the brake profile. *)
Theorem run_custom_scenario_short_brake_profile
    (duration_s : Q) (throttle_profile brake_profile : list Q)
    (self : SimulationEngine.t) (w : World) :
  (List.length brake_profile < List.length throttle_profile)%nat ->
  forall r,
    result (SimulationEngine.run_custom_scenario duration_s throttle_profile
              brake_profile self w) = inr r ->
    r = SimulationEngine.IndexError (List.length brake_profile).
Proof.
  intros Hlen r Hr.
  pose proof (CustomScenario.short_brake_profile throttle_profile brake_profile
                (List.length throttle_profile) 0 ltac:(lia) ltac:(lia) self w I) as H.
  unfold SimulationEngine.run_custom_scenario in Hr. rewrite Hr in H. exact H.
Qed.

Lemma run_custom_scenario_short_brake_profile_witness :
  result (SimulationEngine.run_custom_scenario 1 [50; 50; 50] [0]
            (SimulationEngine.init example_twin 0.1) example_world)
  = inr (SimulationEngine.IndexError 1).
Proof.
  assert (H : (List.length [0] < List.length [50; 50; 50])%nat) by (cbn; lia).
  assert (Hr : exists r,
    result (SimulationEngine.run_custom_scenario 1 [50; 50; 50] [0]
              (SimulationEngine.init example_twin 0.1) example_world) = inr r)
    by (eexists; vm_compute; reflexivity).
  destruct Hr as [r Hr]. rewrite Hr. f_equal.
  exact (run_custom_scenario_short_brake_profile 1 [50; 50; 50] [0]
           (SimulationEngine.init example_twin 0.1) example_world H r Hr).
Defined.

(** X23: on the freshly constructed twin of a configuration that sustains
    a run, with time step 0.1, a custom run over a throttle profile of
    [n <= 6000] percentages and a brake profile of percentages that is at
    least as long completes without an exception, and the log holds one
    snapshot for every ten steps begun, [(n + 9) // 10]. *)
Theorem run_custom_scenario_completes
    (duration_s : Q) (config : DigitalTwin.Config)
    (throttle_profile brake_profile : list Q) (w : World) :
  sustains_run config ->
  Forall percent throttle_profile ->
  Forall percent brake_profile ->
  (List.length throttle_profile <= List.length brake_profile)%nat ->
  (Z.of_nat (List.length throttle_profile) <= 6000)%Z ->
  let twin := fst (DigitalTwin.init config w) in
  let o := SimulationEngine.run_custom_scenario duration_s throttle_profile brake_profile
             (SimulationEngine.init twin 0.1) (snd (DigitalTwin.init config w)) in
  let n := List.length throttle_profile in
  result o = inr SimulationEngine.Completed
  /\ List.length (DigitalTwin.telemetry_log (SimulationEngine.digital_twin (state o)))
     = ((n + 9) / 10)%nat.
Proof.
  intros Hc _ Hbrakes Hlen Hn. cbv zeta.
  destruct (Run.sustained_draw config Hc) as [HP Hdraw].
  assert (H0 : custom_run_invariant
                 (DigitalTwin.powertrain_max_power_kw config)
                 (DigitalTwin.battery_capacity_kwh config * 0.8) 0
                 (SimulationEngine.init (fst (DigitalTwin.init config w)) 0.1)).
  { destruct (Run.fresh_engine_ready config w Hc) as (H1 & H2 & H3 & _ & _).
    unfold custom_run_invariant. split_conj; try assumption.
    destruct (Run.fresh_twin_ready config w Hc) as (_ & _ & Hl).
    cbn [SimulationEngine.digital_twin SimulationEngine.init]. rewrite Hl. reflexivity. }
  pose proof (CustomScenario.custom_loop throttle_profile brake_profile _ _
                (List.length throttle_profile) HP Hdraw Hbrakes 0
                ltac:(lia) ltac:(lia) ltac:(lia)
                _ (snd (DigitalTwin.init config w)) H0) as H.
  unfold SimulationEngine.run_custom_scenario.
  destruct (result _) as [e | r]; [contradiction |].
  destruct H as [-> (_ & _ & _ & Hlog)]. cbn [Nat.add] in *.
  split; [reflexivity | assumption].
Qed.

Lemma run_custom_scenario_completes_witness :
  result (SimulationEngine.run_custom_scenario 2 [100; 100; 0] [0; 0; 100; 100]
            (SimulationEngine.init example_twin 0.1) example_world)
  = inr SimulationEngine.Completed.
Proof.
  assert (Hp : forall x, In x [0; 100] -> percent x).
  { intros x [<- | [<- | []]]; split; vm_compute; discriminate. }
  apply (run_custom_scenario_completes 2 example_config [100; 100; 0] [0; 0; 100; 100]
           world0 example_config_sustains_run).
  - apply Forall_forall. intros x Hx. apply Hp. cbn in Hx |- *. tauto.
  - apply Forall_forall. intros x Hx. apply Hp. cbn in Hx |- *. tauto.
  - cbn. lia.
  - cbn. lia.
Defined.

(** ** The motor during a step, and the summary of a run *)

Module StepMotor.
Import DigitalTwin.


End StepMotor.



(** X25: [_print_summary] never raises and writes nothing, also when no
    energy was consumed: it does nothing for an empty log, and otherwise
    computes the efficiency as distance over energy only when the energy
    consumed is positive, and as 0 when it is not. *)
Theorem print_summary_guarded (self : SimulationEngine.t) (w : World) :
  exists r,
    SimulationEngine._print_summary self w = (inr r, self, w)
    /\ (DigitalTwin.telemetry_log (SimulationEngine.digital_twin self) = [] <-> r = None)
    /\ (forall summary, r = Some summary ->
        (SimulationEngine.energy_consumed summary <= 0 ->
         SimulationEngine.summary_efficiency summary = 0)
        /\ (0 < SimulationEngine.energy_consumed summary ->
            SimulationEngine.summary_efficiency summary
            = SimulationEngine.distance_km summary
              / SimulationEngine.energy_consumed summary)).
Proof.
  unfold SimulationEngine._print_summary, bind, get.
  destruct (DigitalTwin.telemetry_log (SimulationEngine.digital_twin self))
    as [| initial rest].
  - eexists. split; [reflexivity |]. split; [tauto | discriminate].
  - cbv zeta.
    match goal with
    | |- context [Py.Qltb 0 ?e] => destruct (Qltb_cases 0 e) as [[-> H] | [-> H]]
    end.
    + unfold div.
      match goal with
      | |- context [Qeq_bool ?e 0] => destruct (Qeq_bool e 0) eqn:Hz
      end.
      { apply Qeq_bool_eq in Hz. lra. }
      eexists. split; [reflexivity |]. split; [split; discriminate |].
      intros summary [= <-]. cbn. split; [intros; lra | reflexivity].
    + eexists. split; [reflexivity |]. split; [split; discriminate |].
      intros summary [= <-]. cbn. split; [reflexivity | intros; lra].
Qed.

Lemma print_summary_guarded_witness :
  exists summary,
    result (SimulationEngine._print_summary logged_engine world0) = inr (Some summary)
    /\ SimulationEngine.summary_efficiency summary = 0.
Proof.
  destruct (print_summary_guarded logged_engine world0) as (r & Heq & _ & Hsummary).
  assert (Hr : exists summary, r = Some summary
                               /\ SimulationEngine.energy_consumed summary <= 0).
  { vm_compute in Heq. injection Heq as <-. eexists. split; [reflexivity |].
    vm_compute. discriminate. }
  destruct Hr as (summary & -> & Henergy).
  exists summary. rewrite Heq. split; [reflexivity |].
  exact (proj1 (Hsummary summary eq_refl) Henergy).
Defined.
